(** * Scheduler: refresh-rate selection, frame-rate overrides and
    hardware-vsync control

    A shallow embedding of [services/surfaceflinger/Scheduler/Scheduler.cpp].

    The Scheduler object is a record; every method is a function in a small
    state-and-trace monad: it threads the Scheduler and appends, in program
    order, the calls the method makes on its collaborators (the host's
    [ISchedulerCallback], the vsync tracker and controller, the event
    threads, the layer history and the timers).  Values the method obtains
    from a collaborator (the clock, the refresh-rate policy, the reactor's
    verdict on a sample) are arguments of the function.

    Locks are not modelled: each method body runs atomically.

    Left out are the constructors and the destructor and the methods that
    only forward to the layer history or format text ([registerLayer],
    [deregisterLayer], [recordLayerHistory], [dump], [dumpVsync],
    [getEventThreadConnectionCount], [getPreviousVsyncFrom]): they write no
    Scheduler member. *)

From Stdlib Require Import ZArith QArith Bool List Lia String.
From stdpp Require Import base option list gmap sorting.
Import ListNotations.

Local Open Scope Z_scope.

(** ** Scalars *)

(** [nsecs_t] is a signed 64-bit count of nanoseconds.  The model uses [Z];
    the only arithmetic on it is the difference of two clock readings. *)
Abbreviation nsecs_t := Z (only parsing).
Abbreviation uid_t := N (only parsing).
Abbreviation DisplayModeId := Z (only parsing).
Abbreviation PhysicalDisplayId := N (only parsing).

(** [Fps] wraps a C++ [float].  The Scheduler only compares these values with
    constants and with each other and truncates them to [int32_t]; it does no
    arithmetic on them.  Every finite float is a rational, and on rationals
    these comparisons and the truncation are exact, so the model uses [Q].
    NaN and the infinities are outside the model. *)
Abbreviation Fps := Q (only parsing).

Definition Qltb (a b : Q) : bool := negb (Qle_bool b a).
Definition Qneb (a b : Q) : bool := negb (Qeq_bool a b).

(** [(int32_t) f] for a float [f]: truncation toward zero.  C++ defines the
    conversion only when the truncated value fits in 32 bits. *)
Definition to_int32 (f : Q) : Z := Z.quot (Qnum f) (Z.pos (Qden f)).
Definition fits_int32 (f : Q) : Prop := - 2 ^ 31 <= to_int32 f < 2 ^ 31.

Definition ms2ns (ms : Z) : nsecs_t := ms * 1000000.
Arguments ms2ns : simpl never.

Inductive TimerState := Reset | Expired.
Inductive TouchState := Inactive | Active.
Inductive ModeEvent := ModeEvent_None | ModeEvent_Changed.

Definition TimerState_eqb (a b : TimerState) : bool :=
  match a, b with Reset, Reset | Expired, Expired => true | _, _ => false end.
Definition TouchState_eqb (a b : TouchState) : bool :=
  match a, b with Inactive, Inactive | Active, Active => true | _, _ => false end.

Module GlobalSignals.
Record t := mk { touch : bool; idle : bool }.
(** [GlobalSignals{}] *)
Definition zero : t := mk false false.
End GlobalSignals.

Module RefreshRate.
Record t := mk { getModeId : DisplayModeId; getFps : Fps; getVsyncPeriod : nsecs_t }.
End RefreshRate.

Module FrameRateOverride.
Record t := mk { uid : uid_t; frameRateHz : Q }.
End FrameRateOverride.

Module ConnectionHandle.
(** [id] is a [uintptr_t]: a 64-bit unsigned value. *)
Record t := mk { id : N }.
Definition eqb (a b : t) : bool := (id a =? id b)%N.
End ConnectionHandle.

Definition uintptr_modulus : N := (2 ^ 64)%N.

(** ** Declarations the source file uses but does not contain

    [Scheduler.h], [Fps.h] and [DisplayId.h] are not part of the sources at
    hand.  What the method bodies take from them is collected here and kept
    abstract. *)
Record Decls := {
  (** the [id] of a default-constructed [ConnectionHandle]; the handle's
      [operator bool] is [id != INVALID_ID] *)
  INVALID_ID : N;
  (** default value of the third argument of [resyncToHardwareVsync] *)
  force_resync_default : bool;
  (** default value of the last argument of [makePrimaryDispSyncSource] *)
  traceVsync_default : bool;
  (** [PhysicalDisplayId::fromPort] *)
  fromPort : N -> PhysicalDisplayId;
  (** comparisons of [Fps.h] *)
  equalsWithMargin : Fps -> Fps -> bool;
  greaterThanWithMargin : Fps -> Fps -> bool;
  lessThanOrEqualWithMargin : Fps -> Fps -> bool;
  (** [MAX_VSYNC_APPLIED_TIME.count()] *)
  MAX_VSYNC_APPLIED_TIME : nsecs_t;
  (** default value of the last argument of [createConnectionInternal] *)
  eventRegistration_default : N
}.

(** ** Event threads and connections *)

Inductive VSyncSource :=
| DispSyncSource (name : string) (workDuration readyDuration : nsecs_t) (traceVsync : bool)
| InjectVSyncSource.

(** A [std::function] member of an event thread is either empty or the
    lambda of [makeThrottleVsyncCallback] / [makeGetVsyncPeriodFunction],
    which captures the Scheduler and reads its state when it is invoked. *)
Inductive ThrottleVsyncCallback := Throttle_empty | Throttle_lambda.
Inductive GetVsyncPeriodFunction := GetPeriod_empty | GetPeriod_lambda.

(** The callback an event connection invokes when a client requests a vsync. *)
Inductive ResyncCallback := call_resync | call_resyncAndRefresh.

Module EventThread.
(** The arguments an [impl::EventThread] was constructed with.
    [tokenManager] and [interceptCallback] are opaque to the Scheduler;
    [None] stands for [nullptr] and for an empty callback. *)
Record t := mk {
  source : VSyncSource;
  tokenManager : option N;
  interceptCallback : option N;
  throttleVsync : ThrottleVsyncCallback;
  getVsyncPeriod : GetVsyncPeriodFunction
}.
End EventThread.

Module EventThreadConnection.
(** What [EventThread::createEventConnection] was called with. *)
Record t := mk { resyncCallback : ResyncCallback; eventRegistration : N }.
End EventThreadConnection.

Module Connection.
Record t := mk { connection : EventThreadConnection.t; thread : EventThread.t }.
End Connection.

(** ** Feature state *)

Module ModeChangedParams.
Record t := mk {
  handle : ConnectionHandle.t;
  displayId : PhysicalDisplayId;
  modeId : DisplayModeId;
  vsyncPeriod : nsecs_t
}.
End ModeChangedParams.

Module Features.
Record t {LayerRequirement : Type} := mk {
  modeId : option DisplayModeId;
  contentRequirements : list LayerRequirement;
  idleTimer : TimerState;
  touch : TouchState;
  displayPowerTimer : TimerState;
  isDisplayPowerStateNormal : bool;
  cachedModeChangedParams : option ModeChangedParams.t
}.
Arguments t : clear implicits.
Arguments mk {LayerRequirement}.

Section Setters.
Context {LR : Type}.
Definition set_modeId (v : option DisplayModeId) (f : t LR) : t LR :=
  mk v (contentRequirements f) (idleTimer f) (touch f) (displayPowerTimer f)
     (isDisplayPowerStateNormal f) (cachedModeChangedParams f).
Definition set_contentRequirements (v : list LR) (f : t LR) : t LR :=
  mk (modeId f) v (idleTimer f) (touch f) (displayPowerTimer f)
     (isDisplayPowerStateNormal f) (cachedModeChangedParams f).
Definition set_idleTimer (v : TimerState) (f : t LR) : t LR :=
  mk (modeId f) (contentRequirements f) v (touch f) (displayPowerTimer f)
     (isDisplayPowerStateNormal f) (cachedModeChangedParams f).
Definition set_touch (v : TouchState) (f : t LR) : t LR :=
  mk (modeId f) (contentRequirements f) (idleTimer f) v (displayPowerTimer f)
     (isDisplayPowerStateNormal f) (cachedModeChangedParams f).
Definition set_displayPowerTimer (v : TimerState) (f : t LR) : t LR :=
  mk (modeId f) (contentRequirements f) (idleTimer f) (touch f) v
     (isDisplayPowerStateNormal f) (cachedModeChangedParams f).
Definition set_isDisplayPowerStateNormal (v : bool) (f : t LR) : t LR :=
  mk (modeId f) (contentRequirements f) (idleTimer f) (touch f) (displayPowerTimer f)
     v (cachedModeChangedParams f).
Definition set_cachedModeChangedParams (v : option ModeChangedParams.t) (f : t LR) : t LR :=
  mk (modeId f) (contentRequirements f) (idleTimer f) (touch f) (displayPowerTimer f)
     (isDisplayPowerStateNormal f) v.
End Setters.
End Features.

(** ** The refresh-rate policy, as a method sees it during one call *)

Module RefreshRateConfigs.
Record t {LayerRequirement : Type} := mk {
  supportsFrameRateOverride : bool;
  canSwitch : bool;
  getCurrentRefreshRate : RefreshRate.t;
  getRefreshRateFromModeId : DisplayModeId -> RefreshRate.t;
  getMaxRefreshRateByPolicy : RefreshRate.t;
  (** the chosen rate and the value left in the [consideredSignals]
      out-parameter, which the caller has reset to [{}] *)
  getBestRefreshRate :
    list LayerRequirement -> GlobalSignals.t -> RefreshRate.t * GlobalSignals.t;
  getFrameRateOverrides : list LayerRequirement -> Fps -> bool -> gmap N Q;
  getFrameRateDivider : Fps -> Fps -> Z
}.
Arguments t : clear implicits.
Arguments mk {LayerRequirement}.
End RefreshRateConfigs.

(** ** Calls on collaborators *)

Module Call.
Inductive t :=
(* ISchedulerCallback *)
| setVsyncEnabled (enabled : bool)
| changeRefreshRate (refreshRate : RefreshRate.t) (event : ModeEvent)
| repaintEverythingForHWC
| kernelTimerChanged (expired : bool)
| triggerOnFrameRateOverridesChanged
| getModeFromFps (fps : Q)
(* VSyncTracker, VsyncController *)
| tracker_resetModel
| controller_startPeriodTransition (period : nsecs_t)
| controller_setIgnorePresentFences (ignore : bool)
| controller_addHwVsyncTimestamp (timestamp : nsecs_t) (hwcVsyncPeriod : option nsecs_t)
| controller_addPresentFence
(* EventThread *)
| onHotplugReceived (thread : EventThread.t) (displayId : PhysicalDisplayId) (connected : bool)
| onScreenAcquired (thread : EventThread.t)
| onScreenReleased (thread : EventThread.t)
| onModeChanged (thread : EventThread.t) (displayId : PhysicalDisplayId)
                (modeId : DisplayModeId) (vsyncPeriod : nsecs_t)
| onFrameRateOverridesChanged (thread : EventThread.t) (displayId : PhysicalDisplayId)
                              (overrides : list FrameRateOverride.t)
| setDuration (thread : EventThread.t) (workDuration readyDuration : nsecs_t)
(* InjectVSyncSource *)
| onInjectSyncEvent (when expectedVSyncTime deadlineTimestamp : nsecs_t)
(* LayerHistory *)
| layerHistory_clear
| layerHistory_setModeChangePending (pending : bool)
| layerHistory_setDisplayArea (displayArea : N)
| layerHistory_updateThermalFps (fps : Q)
(* OneShotTimer *)
| idleTimer_reset
| touchTimer_reset
| displayPowerTimer_reset
(* entry into Scheduler::resyncToHardwareVsync, with its arguments *)
| enter_resyncToHardwareVsync (makeAvailable : bool) (period : nsecs_t) (force_resync : bool).
End Call.

(** The host's answer to [getModeFromFps(fps, mode)]: the id of the mode it
    stores in the out-parameter. *)
Record Host := { modeFromFps : Q -> DisplayModeId }.

(** ** The Scheduler object *)

Module VsyncPeriodChangeTimeline.
Record t := mk {
  newVsyncAppliedTimeNanos : nsecs_t;
  refreshRequired : bool;
  refreshTimeNanos : nsecs_t
}.
End VsyncPeriodChangeTimeline.

Record Scheduler {LayerRequirement : Type} := mkScheduler {
  (** [mOptions.supportKernelTimer] *)
  supportKernelTimer : bool;
  (** the optional timers: [true] when the optional holds a timer *)
  mIdleTimer : bool;
  mTouchTimer : bool;
  mDisplayPowerTimer : bool;
  mHandleIdleTimeout : bool;
  mNextConnectionHandleId : N;
  (** keyed by [ConnectionHandle::id] *)
  mConnections : gmap N Connection.t;
  mInjectVSyncs : bool;
  (** a raw pointer: [true] when it is not null *)
  mVSyncInjector : bool;
  mInjectorConnectionHandle : ConnectionHandle.t;
  mPrimaryHWVsyncEnabled : bool;
  mHWVsyncAvailable : bool;
  mLastResyncTime : nsecs_t;
  mDisplayIdle : bool;
  mFeatures : Features.t LayerRequirement;
  mThermalFps : Q;
  mFrameRateOverridesFromBackdoor : gmap N Q;
  mFrameRateOverridesByContent : gmap N Q;
  mLastVsyncPeriodChangeTimeline : option VsyncPeriodChangeTimeline.t
}.
Arguments Scheduler : clear implicits.
Arguments mkScheduler {LayerRequirement}.

Section Setters.
Context {LR : Type}.
Implicit Type s : Scheduler LR.
Definition set_mNextConnectionHandleId (v : N) s : Scheduler LR :=
  mkScheduler (supportKernelTimer s) (mIdleTimer s) (mTouchTimer s)
    (mDisplayPowerTimer s) (mHandleIdleTimeout s) v (mConnections s) (mInjectVSyncs s)
    (mVSyncInjector s) (mInjectorConnectionHandle s) (mPrimaryHWVsyncEnabled s)
    (mHWVsyncAvailable s) (mLastResyncTime s) (mDisplayIdle s) (mFeatures s)
    (mThermalFps s) (mFrameRateOverridesFromBackdoor s) (mFrameRateOverridesByContent s)
    (mLastVsyncPeriodChangeTimeline s).
Definition set_mConnections (v : gmap N Connection.t) s : Scheduler LR :=
  mkScheduler (supportKernelTimer s) (mIdleTimer s) (mTouchTimer s)
    (mDisplayPowerTimer s) (mHandleIdleTimeout s) (mNextConnectionHandleId s) v
    (mInjectVSyncs s) (mVSyncInjector s) (mInjectorConnectionHandle s)
    (mPrimaryHWVsyncEnabled s) (mHWVsyncAvailable s) (mLastResyncTime s)
    (mDisplayIdle s) (mFeatures s) (mThermalFps s) (mFrameRateOverridesFromBackdoor s)
    (mFrameRateOverridesByContent s) (mLastVsyncPeriodChangeTimeline s).
Definition set_mInjectVSyncs (v : bool) s : Scheduler LR :=
  mkScheduler (supportKernelTimer s) (mIdleTimer s) (mTouchTimer s)
    (mDisplayPowerTimer s) (mHandleIdleTimeout s) (mNextConnectionHandleId s)
    (mConnections s) v (mVSyncInjector s) (mInjectorConnectionHandle s)
    (mPrimaryHWVsyncEnabled s) (mHWVsyncAvailable s) (mLastResyncTime s)
    (mDisplayIdle s) (mFeatures s) (mThermalFps s) (mFrameRateOverridesFromBackdoor s)
    (mFrameRateOverridesByContent s) (mLastVsyncPeriodChangeTimeline s).
Definition set_mVSyncInjector (v : bool) s : Scheduler LR :=
  mkScheduler (supportKernelTimer s) (mIdleTimer s) (mTouchTimer s)
    (mDisplayPowerTimer s) (mHandleIdleTimeout s) (mNextConnectionHandleId s)
    (mConnections s) (mInjectVSyncs s) v (mInjectorConnectionHandle s)
    (mPrimaryHWVsyncEnabled s) (mHWVsyncAvailable s) (mLastResyncTime s)
    (mDisplayIdle s) (mFeatures s) (mThermalFps s) (mFrameRateOverridesFromBackdoor s)
    (mFrameRateOverridesByContent s) (mLastVsyncPeriodChangeTimeline s).
Definition set_mInjectorConnectionHandle (v : ConnectionHandle.t) s : Scheduler LR :=
  mkScheduler (supportKernelTimer s) (mIdleTimer s) (mTouchTimer s)
    (mDisplayPowerTimer s) (mHandleIdleTimeout s) (mNextConnectionHandleId s)
    (mConnections s) (mInjectVSyncs s) (mVSyncInjector s) v (mPrimaryHWVsyncEnabled s)
    (mHWVsyncAvailable s) (mLastResyncTime s) (mDisplayIdle s) (mFeatures s)
    (mThermalFps s) (mFrameRateOverridesFromBackdoor s) (mFrameRateOverridesByContent s)
    (mLastVsyncPeriodChangeTimeline s).
Definition set_mPrimaryHWVsyncEnabled (v : bool) s : Scheduler LR :=
  mkScheduler (supportKernelTimer s) (mIdleTimer s) (mTouchTimer s)
    (mDisplayPowerTimer s) (mHandleIdleTimeout s) (mNextConnectionHandleId s)
    (mConnections s) (mInjectVSyncs s) (mVSyncInjector s) (mInjectorConnectionHandle s)
    v (mHWVsyncAvailable s) (mLastResyncTime s) (mDisplayIdle s) (mFeatures s)
    (mThermalFps s) (mFrameRateOverridesFromBackdoor s) (mFrameRateOverridesByContent s)
    (mLastVsyncPeriodChangeTimeline s).
Definition set_mHWVsyncAvailable (v : bool) s : Scheduler LR :=
  mkScheduler (supportKernelTimer s) (mIdleTimer s) (mTouchTimer s)
    (mDisplayPowerTimer s) (mHandleIdleTimeout s) (mNextConnectionHandleId s)
    (mConnections s) (mInjectVSyncs s) (mVSyncInjector s) (mInjectorConnectionHandle s)
    (mPrimaryHWVsyncEnabled s) v (mLastResyncTime s) (mDisplayIdle s) (mFeatures s)
    (mThermalFps s) (mFrameRateOverridesFromBackdoor s) (mFrameRateOverridesByContent s)
    (mLastVsyncPeriodChangeTimeline s).
Definition set_mLastResyncTime (v : nsecs_t) s : Scheduler LR :=
  mkScheduler (supportKernelTimer s) (mIdleTimer s) (mTouchTimer s)
    (mDisplayPowerTimer s) (mHandleIdleTimeout s) (mNextConnectionHandleId s)
    (mConnections s) (mInjectVSyncs s) (mVSyncInjector s) (mInjectorConnectionHandle s)
    (mPrimaryHWVsyncEnabled s) (mHWVsyncAvailable s) v (mDisplayIdle s) (mFeatures s)
    (mThermalFps s) (mFrameRateOverridesFromBackdoor s) (mFrameRateOverridesByContent s)
    (mLastVsyncPeriodChangeTimeline s).
Definition set_mDisplayIdle (v : bool) s : Scheduler LR :=
  mkScheduler (supportKernelTimer s) (mIdleTimer s) (mTouchTimer s)
    (mDisplayPowerTimer s) (mHandleIdleTimeout s) (mNextConnectionHandleId s)
    (mConnections s) (mInjectVSyncs s) (mVSyncInjector s) (mInjectorConnectionHandle s)
    (mPrimaryHWVsyncEnabled s) (mHWVsyncAvailable s) (mLastResyncTime s) v (mFeatures s)
    (mThermalFps s) (mFrameRateOverridesFromBackdoor s) (mFrameRateOverridesByContent s)
    (mLastVsyncPeriodChangeTimeline s).
Definition set_mFeatures (v : Features.t LR) s : Scheduler LR :=
  mkScheduler (supportKernelTimer s) (mIdleTimer s) (mTouchTimer s)
    (mDisplayPowerTimer s) (mHandleIdleTimeout s) (mNextConnectionHandleId s)
    (mConnections s) (mInjectVSyncs s) (mVSyncInjector s) (mInjectorConnectionHandle s)
    (mPrimaryHWVsyncEnabled s) (mHWVsyncAvailable s) (mLastResyncTime s)
    (mDisplayIdle s) v (mThermalFps s) (mFrameRateOverridesFromBackdoor s)
    (mFrameRateOverridesByContent s) (mLastVsyncPeriodChangeTimeline s).
Definition set_mThermalFps (v : Q) s : Scheduler LR :=
  mkScheduler (supportKernelTimer s) (mIdleTimer s) (mTouchTimer s)
    (mDisplayPowerTimer s) (mHandleIdleTimeout s) (mNextConnectionHandleId s)
    (mConnections s) (mInjectVSyncs s) (mVSyncInjector s) (mInjectorConnectionHandle s)
    (mPrimaryHWVsyncEnabled s) (mHWVsyncAvailable s) (mLastResyncTime s)
    (mDisplayIdle s) (mFeatures s) v (mFrameRateOverridesFromBackdoor s)
    (mFrameRateOverridesByContent s) (mLastVsyncPeriodChangeTimeline s).
Definition set_mFrameRateOverridesFromBackdoor (v : gmap N Q) s : Scheduler LR :=
  mkScheduler (supportKernelTimer s) (mIdleTimer s) (mTouchTimer s)
    (mDisplayPowerTimer s) (mHandleIdleTimeout s) (mNextConnectionHandleId s)
    (mConnections s) (mInjectVSyncs s) (mVSyncInjector s) (mInjectorConnectionHandle s)
    (mPrimaryHWVsyncEnabled s) (mHWVsyncAvailable s) (mLastResyncTime s)
    (mDisplayIdle s) (mFeatures s) (mThermalFps s) v (mFrameRateOverridesByContent s)
    (mLastVsyncPeriodChangeTimeline s).
Definition set_mFrameRateOverridesByContent (v : gmap N Q) s : Scheduler LR :=
  mkScheduler (supportKernelTimer s) (mIdleTimer s) (mTouchTimer s)
    (mDisplayPowerTimer s) (mHandleIdleTimeout s) (mNextConnectionHandleId s)
    (mConnections s) (mInjectVSyncs s) (mVSyncInjector s) (mInjectorConnectionHandle s)
    (mPrimaryHWVsyncEnabled s) (mHWVsyncAvailable s) (mLastResyncTime s)
    (mDisplayIdle s) (mFeatures s) (mThermalFps s) (mFrameRateOverridesFromBackdoor s) v
    (mLastVsyncPeriodChangeTimeline s).
Definition set_mLastVsyncPeriodChangeTimeline (v : option VsyncPeriodChangeTimeline.t) s : Scheduler LR :=
  mkScheduler (supportKernelTimer s) (mIdleTimer s) (mTouchTimer s)
    (mDisplayPowerTimer s) (mHandleIdleTimeout s) (mNextConnectionHandleId s)
    (mConnections s) (mInjectVSyncs s) (mVSyncInjector s) (mInjectorConnectionHandle s)
    (mPrimaryHWVsyncEnabled s) (mHWVsyncAvailable s) (mLastResyncTime s)
    (mDisplayIdle s) (mFeatures s) (mThermalFps s) (mFrameRateOverridesFromBackdoor s)
    (mFrameRateOverridesByContent s) v.
End Setters.

(** ** The state-and-trace monad *)

Definition M (LR A : Type) : Type := Scheduler LR -> A * Scheduler LR * list Call.t.

Definition ret {LR A} (a : A) : M LR A := fun s => (a, s, []).
Definition bind {LR A B} (m : M LR A) (k : A -> M LR B) : M LR B :=
  fun s =>
    let '(a, s1, t1) := m s in
    let '(b, s2, t2) := k a s1 in
    (b, s2, t1 ++ t2).
Definition get {LR} : M LR (Scheduler LR) := fun s => (s, s, []).
Definition modify {LR} (f : Scheduler LR -> Scheduler LR) : M LR unit := fun s => (tt, f s, []).
Definition emit {LR} (c : Call.t) : M LR unit := fun s => (tt, s, [c]).

Notation "x <- m ;; k" := (bind m (fun x => k))
  (at level 100, m at next level, right associativity).
Notation "m ;; k" := (bind m (fun _ => k))
  (at level 100, right associativity).

Definition result {LR A} (r : A * Scheduler LR * list Call.t) : A := fst (fst r).
Definition state {LR A} (r : A * Scheduler LR * list Call.t) : Scheduler LR := snd (fst r).
Definition trace {LR A} (r : A * Scheduler LR * list Call.t) : list Call.t := snd r.

(** ** Containers *)

(** [map.emplace(k, v)]: inserts only when the key is absent. *)
Definition emplace {V} (k : N) (v : V) (m : gmap N V) : gmap N V :=
  match m !! k with Some _ => m | None => <[k := v]> m end.

(** The elements of a [std::map<uid_t, Fps>] in iteration order: ascending
    keys. *)
Definition key_le (a b : N * Q) : Prop := (a.1 <= b.1)%N.
#[local] Instance key_le_dec : RelDecision key_le := fun a b => decide (a.1 <= b.1)%N.
Definition entries (m : gmap N Q) : list (N * Q) := merge_sort key_le (map_to_list m).

(** [std::equal(first1, last1, first2, last2, pred)] *)
Fixpoint std_equal {A B} (pred : A -> B -> bool) (l1 : list A) (l2 : list B) : bool :=
  match l1, l2 with
  | [], [] => true
  | a :: l1', b :: l2' => pred a b && std_equal pred l1' l2'
  | _, _ => false
  end.

(** The tracker's answers during one call. *)
Record Tracker := {
  isVSyncInPhase : nsecs_t -> Fps -> bool;
  nextAnticipatedVSyncTimeFrom : nsecs_t -> nsecs_t;
  currentPeriod : nsecs_t
}.

(** ** Methods *)

Section Methods.
Context {LR : Type} (D : Decls).
Implicit Type s : Scheduler LR.
Implicit Type configs : RefreshRateConfigs.t LR.

Definition ConnectionHandle_default : ConnectionHandle.t := ConnectionHandle.mk (INVALID_ID D).
(** [explicit operator bool] of a handle *)
Definition ConnectionHandle_valid (h : ConnectionHandle.t) : bool :=
  negb (ConnectionHandle.id h =? INVALID_ID D)%N.

(** *** Frame-rate overrides *)

Definition getFrameRateOverride configs s (uid : uid_t) : option Fps :=
  if negb (RefreshRateConfigs.supportsFrameRateOverride configs) then None
  else
    match mFrameRateOverridesFromBackdoor s !! uid with
    | Some fps => Some fps
    | None =>
        match mFrameRateOverridesByContent s !! uid with
        | Some fps => Some fps
        | None => None
        end
    end.

Definition isVsyncValid configs (tracker : Tracker) s
           (expectedVsyncTimestamp : nsecs_t) (uid : uid_t) : bool :=
  match getFrameRateOverride configs s uid with
  | None => true
  | Some frameRate => isVSyncInPhase tracker expectedVsyncTimestamp frameRate
  end.

Definition makeThrottleVsyncCallback configs : ThrottleVsyncCallback :=
  if negb (RefreshRateConfigs.supportsFrameRateOverride configs) then Throttle_empty
  else Throttle_lambda.

(** The body of the lambda [makeThrottleVsyncCallback] returns. *)
Definition throttleVsync_lambda configs tracker s
           (expectedVsyncTimestamp : nsecs_t) (uid : uid_t) : bool :=
  negb (isVsyncValid configs tracker s expectedVsyncTimestamp uid).

Definition makeGetVsyncPeriodFunction : GetVsyncPeriodFunction := GetPeriod_lambda.

(** The body of the lambda [makeGetVsyncPeriodFunction] returns. *)
Definition getVsyncPeriod_lambda configs s (uid : uid_t) : nsecs_t :=
  let current := RefreshRateConfigs.getCurrentRefreshRate configs in
  let basePeriod := RefreshRate.getVsyncPeriod current in
  match getFrameRateOverride configs s uid with
  | None => basePeriod
  | Some frameRate =>
      let divider :=
        RefreshRateConfigs.getFrameRateDivider configs (RefreshRate.getFps current) frameRate in
      if divider <=? 1 then basePeriod else basePeriod * divider
  end.

Definition setPreferredRefreshRateForUid (frameRateOverride : FrameRateOverride.t)
  : M LR unit :=
  let hz := FrameRateOverride.frameRateHz frameRateOverride in
  let uid := FrameRateOverride.uid frameRateOverride in
  if Qltb 0 hz && Qltb hz 1 then ret tt
  else if Qneb hz 0 then
    modify (fun s =>
      set_mFrameRateOverridesFromBackdoor (<[uid := hz]> (mFrameRateOverridesFromBackdoor s)) s)
  else
    modify (fun s =>
      set_mFrameRateOverridesFromBackdoor (delete uid (mFrameRateOverridesFromBackdoor s)) s).

Definition updateFrameRateOverrides configs (consideredSignals : GlobalSignals.t)
           (displayRefreshRate : Fps) : M LR bool :=
  if negb (RefreshRateConfigs.supportsFrameRateOverride configs) then ret false
  else if negb (GlobalSignals.idle consideredSignals) then
    s <- get ;;
    let frameRateOverrides :=
      RefreshRateConfigs.getFrameRateOverrides configs
        (Features.contentRequirements (mFeatures s)) displayRefreshRate
        (GlobalSignals.touch consideredSignals) in
    if negb (std_equal
               (fun a b => (a.1 =? b.1)%N && equalsWithMargin D a.2 b.2)
               (entries (mFrameRateOverridesByContent s)) (entries frameRateOverrides))
    then modify (set_mFrameRateOverridesByContent frameRateOverrides) ;; ret true
    else ret false
  else ret false.

(** *** Connection registry *)

Definition makePrimaryDispSyncSource (name : string) (workDuration readyDuration : nsecs_t)
           (traceVsync : bool) : VSyncSource :=
  DispSyncSource name workDuration readyDuration traceVsync.

Definition createConnectionInternal (eventThread : EventThread.t) (triggerRefresh : bool)
           (eventRegistration : N) : EventThreadConnection.t :=
  if triggerRefresh then EventThreadConnection.mk call_resyncAndRefresh eventRegistration
  else EventThreadConnection.mk call_resync eventRegistration.

(** [createConnection(std::unique_ptr<EventThread>, bool)] *)
Definition createConnection (eventThread : EventThread.t) (triggerRefresh : bool)
  : M LR ConnectionHandle.t :=
  s <- get ;;
  let handle := ConnectionHandle.mk (mNextConnectionHandleId s) in
  modify (set_mNextConnectionHandleId ((mNextConnectionHandleId s + 1) mod uintptr_modulus)%N) ;;
  let connection :=
    createConnectionInternal eventThread triggerRefresh (eventRegistration_default D) in
  modify (fun s =>
    set_mConnections
      (emplace (ConnectionHandle.id handle) (Connection.mk connection eventThread)
               (mConnections s)) s) ;;
  ret handle.

(** [createConnection(const char*, TokenManager*, nanoseconds, nanoseconds,
    InterceptVSyncsCallback)] *)
Definition createConnection_named configs (connectionName : string)
           (tokenManager : option N) (workDuration readyDuration : nsecs_t)
           (interceptCallback : option N) : M LR ConnectionHandle.t :=
  let vsyncSource :=
    makePrimaryDispSyncSource connectionName workDuration readyDuration (traceVsync_default D) in
  let throttleVsync := makeThrottleVsyncCallback configs in
  let getVsyncPeriod := makeGetVsyncPeriodFunction in
  let eventThread :=
    EventThread.mk vsyncSource tokenManager interceptCallback throttleVsync getVsyncPeriod in
  let triggerRefresh := String.eqb connectionName "app" in
  createConnection eventThread triggerRefresh.

(** [None] is [nullptr]. *)
Definition createDisplayEventConnection s (handle : ConnectionHandle.t)
           (triggerRefresh : bool) (eventRegistration : N) : option EventThreadConnection.t :=
  match mConnections s !! ConnectionHandle.id handle with
  | None => None
  | Some c => Some (createConnectionInternal (Connection.thread c) triggerRefresh eventRegistration)
  end.

Definition getEventConnection s (handle : ConnectionHandle.t) : option EventThreadConnection.t :=
  match mConnections s !! ConnectionHandle.id handle with
  | None => None
  | Some c => Some (Connection.connection c)
  end.

(** The shape shared by the methods that look a thread up and call it:
    [RETURN_IF_INVALID_HANDLE(handle)] and then one call on the thread. *)
Definition with_thread (handle : ConnectionHandle.t) (call : EventThread.t -> Call.t)
  : M LR unit :=
  s <- get ;;
  match mConnections s !! ConnectionHandle.id handle with
  | None => ret tt
  | Some c => emit (call (Connection.thread c))
  end.

Definition onHotplugReceived (handle : ConnectionHandle.t) (displayId : PhysicalDisplayId)
           (connected : bool) : M LR unit :=
  with_thread handle (fun thread => Call.onHotplugReceived thread displayId connected).

Definition onScreenAcquired (handle : ConnectionHandle.t) : M LR unit :=
  with_thread handle Call.onScreenAcquired.

Definition onScreenReleased (handle : ConnectionHandle.t) : M LR unit :=
  with_thread handle Call.onScreenReleased.

Definition onFrameRateOverridesChanged (handle : ConnectionHandle.t)
           (displayId : PhysicalDisplayId) : M LR unit :=
  s <- get ;;
  let backdoor :=
    map (fun e => FrameRateOverride.mk e.1 e.2) (entries (mFrameRateOverridesFromBackdoor s)) in
  let byContent :=
    map (fun e => FrameRateOverride.mk e.1 e.2)
        (filter (fun e => mFrameRateOverridesFromBackdoor s !! e.1 = None)
                (entries (mFrameRateOverridesByContent s))) in
  let overrides := backdoor ++ byContent in
  with_thread handle (fun thread => Call.onFrameRateOverridesChanged thread displayId overrides).

Definition onNonPrimaryDisplayModeChanged (handle : ConnectionHandle.t)
           (displayId : PhysicalDisplayId) (modeId : DisplayModeId) (vsyncPeriod : nsecs_t)
  : M LR unit :=
  with_thread handle (fun thread => Call.onModeChanged thread displayId modeId vsyncPeriod).

Definition onPrimaryDisplayModeChanged (handle : ConnectionHandle.t)
           (displayId : PhysicalDisplayId) (modeId : DisplayModeId) (vsyncPeriod : nsecs_t)
  : M LR unit :=
  modify (fun s =>
    set_mFeatures
      (Features.set_contentRequirements []
         (Features.set_cachedModeChangedParams
            (Some (ModeChangedParams.mk handle displayId modeId vsyncPeriod))
            (mFeatures s))) s) ;;
  onNonPrimaryDisplayModeChanged handle displayId modeId vsyncPeriod.

Definition dispatchCachedReportedMode configs : M LR unit :=
  s <- get ;;
  match Features.modeId (mFeatures s) with
  | None => ret tt
  | Some modeId =>
      match Features.cachedModeChangedParams (mFeatures s) with
      | None => ret tt
      | Some cached =>
          if negb (RefreshRate.getModeId (RefreshRateConfigs.getCurrentRefreshRate configs)
                   =? modeId)
          then ret tt
          else
            let vsyncPeriod :=
              RefreshRate.getVsyncPeriod
                (RefreshRateConfigs.getRefreshRateFromModeId configs modeId) in
            if (modeId =? ModeChangedParams.modeId cached)
               && (vsyncPeriod =? ModeChangedParams.vsyncPeriod cached)
            then ret tt
            else
              let cached' :=
                ModeChangedParams.mk (ModeChangedParams.handle cached)
                  (ModeChangedParams.displayId cached) modeId vsyncPeriod in
              modify (fun s =>
                set_mFeatures
                  (Features.set_cachedModeChangedParams (Some cached') (mFeatures s)) s) ;;
              onNonPrimaryDisplayModeChanged (ModeChangedParams.handle cached')
                (ModeChangedParams.displayId cached') (ModeChangedParams.modeId cached')
                (ModeChangedParams.vsyncPeriod cached')
      end
  end.

Definition setDuration (handle : ConnectionHandle.t) (workDuration readyDuration : nsecs_t)
  : M LR unit :=
  with_thread handle (fun thread => Call.setDuration thread workDuration readyDuration).

Definition getDisplayStatInfo (tracker : Tracker) (now : nsecs_t) : nsecs_t * nsecs_t :=
  let vsyncTime := nextAnticipatedVSyncTimeFrom tracker now in
  let vsyncPeriod := currentPeriod tracker in
  (vsyncTime, vsyncPeriod).

(** *** Vsync injection *)

Definition enableVSyncInjection (enable : bool) : M LR ConnectionHandle.t :=
  s <- get ;;
  if Bool.eqb (mInjectVSyncs s) enable then ret ConnectionHandle_default
  else
    (if negb (ConnectionHandle_valid (mInjectorConnectionHandle s)) then
       modify (set_mVSyncInjector true) ;;
       let eventThread :=
         EventThread.mk InjectVSyncSource None None Throttle_empty GetPeriod_empty in
       emit (Call.onHotplugReceived eventThread (fromPort D 0) true) ;;
       emit (Call.onScreenAcquired eventThread) ;;
       handle <- createConnection eventThread false ;;
       modify (set_mInjectorConnectionHandle handle)
     else ret tt) ;;
    modify (set_mInjectVSyncs enable) ;;
    s' <- get ;;
    ret (mInjectorConnectionHandle s').

Definition injectVSync (when expectedVSyncTime deadlineTimestamp : nsecs_t) : M LR bool :=
  s <- get ;;
  if negb (mInjectVSyncs s) || negb (mVSyncInjector s) then ret false
  else
    emit (Call.onInjectSyncEvent when expectedVSyncTime deadlineTimestamp) ;;
    ret true.

(** *** Hardware vsync *)

Definition enableHardwareVsync : M LR unit :=
  s <- get ;;
  if negb (mPrimaryHWVsyncEnabled s) && mHWVsyncAvailable s then
    emit Call.tracker_resetModel ;;
    emit (Call.setVsyncEnabled true) ;;
    modify (set_mPrimaryHWVsyncEnabled true)
  else ret tt.

Definition disableHardwareVsync (makeUnavailable : bool) : M LR unit :=
  s <- get ;;
  (if mPrimaryHWVsyncEnabled s then
     emit (Call.setVsyncEnabled false) ;;
     modify (set_mPrimaryHWVsyncEnabled false)
   else ret tt) ;;
  (if makeUnavailable then modify (set_mHWVsyncAvailable false) else ret tt).

Definition setVsyncPeriod (period : nsecs_t) (force_resync : bool) : M LR unit :=
  emit (Call.controller_startPeriodTransition period) ;;
  s <- get ;;
  if negb (mPrimaryHWVsyncEnabled s) || force_resync then
    emit Call.tracker_resetModel ;;
    emit (Call.setVsyncEnabled true) ;;
    modify (set_mPrimaryHWVsyncEnabled true)
  else ret tt.

Definition resyncToHardwareVsync (makeAvailable : bool) (period : nsecs_t)
           (force_resync : bool) : M LR unit :=
  emit (Call.enter_resyncToHardwareVsync makeAvailable period force_resync) ;;
  s <- get ;;
  proceed <-
    (if makeAvailable then modify (set_mHWVsyncAvailable makeAvailable) ;; ret true
     else if negb (mHWVsyncAvailable s) then ret false
     else ret true) ;;
  if negb proceed then ret tt
  else if period <=? 0 then ret tt
  else setVsyncPeriod period force_resync.

(** [now] is the value of [systemTime()]. *)
Definition resync configs (now : nsecs_t) : M LR unit :=
  let kIgnoreDelay := ms2ns 750 in
  s <- get ;;
  let last := mLastResyncTime s in
  modify (set_mLastResyncTime now) ;;
  if kIgnoreDelay <? now - last then
    resyncToHardwareVsync false
      (RefreshRate.getVsyncPeriod (RefreshRateConfigs.getCurrentRefreshRate configs))
      (force_resync_default D)
  else ret tt.

Definition resyncAndRefresh configs (now : nsecs_t) : M LR unit :=
  resync configs now ;;
  s <- get ;;
  if negb (mDisplayIdle s) then ret tt
  else
    let refreshRate := RefreshRateConfigs.getCurrentRefreshRate configs in
    emit Call.repaintEverythingForHWC ;;
    resyncToHardwareVsync true (RefreshRate.getVsyncPeriod refreshRate) true ;;
    modify (set_mDisplayIdle false).

(** [needsMore] and [flushed] are what [addHwVsyncTimestamp] returns and
    stores in [periodFlushed]; the result is the final [*periodFlushed]. *)
Definition addResyncSample (timestamp : nsecs_t) (hwcVsyncPeriod : option nsecs_t)
           (needsMore flushed : bool) : M LR bool :=
  s <- get ;;
  r <- (if mPrimaryHWVsyncEnabled s then
          emit (Call.controller_addHwVsyncTimestamp timestamp hwcVsyncPeriod) ;;
          ret (needsMore, flushed)
        else ret (false, false)) ;;
  (if r.1 then enableHardwareVsync else disableHardwareVsync false) ;;
  ret r.2.

(** [needsHwVsync] is what the controller's [addPresentFence] returns. *)
Definition addPresentFence (needsHwVsync : bool) : M LR unit :=
  emit Call.controller_addPresentFence ;;
  if needsHwVsync then enableHardwareVsync else disableHardwareVsync false.

Definition setIgnorePresentFences (ignore : bool) : M LR unit :=
  emit (Call.controller_setIgnorePresentFences ignore).

Definition setModeChangePending (pending : bool) : M LR unit :=
  emit (Call.layerHistory_setModeChangePending pending).

(** *** Mode selection *)

(** [opt == v] for a [std::optional] and a value. *)
Definition optional_is (opt : option DisplayModeId) (v : DisplayModeId) : bool :=
  match opt with Some x => x =? v | None => false end.

(** The condition written out four times in the source:
    [mThermalFps > 0 && (int32_t)rate.getFps().getValue() > (int32_t)mThermalFps]. *)
Definition aboveThermalFps s (refreshRate : RefreshRate.t) : bool :=
  Qltb 0 (mThermalFps s)
  && (to_int32 (mThermalFps s) <? to_int32 (RefreshRate.getFps refreshRate)).

Definition event_for (consideredSignals : GlobalSignals.t) : ModeEvent :=
  if GlobalSignals.idle consideredSignals then ModeEvent_None else ModeEvent_Changed.

(** The mode id and the value left in [*consideredSignals]. *)
Definition calculateRefreshRateModeId configs s : DisplayModeId * GlobalSignals.t :=
  if mDisplayPowerTimer s
     && (negb (Features.isDisplayPowerStateNormal (mFeatures s))
         || TimerState_eqb (Features.displayPowerTimer (mFeatures s)) Reset)
  then (RefreshRate.getModeId (RefreshRateConfigs.getMaxRefreshRateByPolicy configs),
        GlobalSignals.zero)
  else
    let touchActive := mTouchTimer s && TouchState_eqb (Features.touch (mFeatures s)) Active in
    let idle := mIdleTimer s && TimerState_eqb (Features.idleTimer (mFeatures s)) Expired in
    let best :=
      RefreshRateConfigs.getBestRefreshRate configs
        (Features.contentRequirements (mFeatures s)) (GlobalSignals.mk touchActive idle) in
    (RefreshRate.getModeId best.1, best.2).

(** [summary] is what [mLayerHistory->summarize(systemTime())] returns. *)
Definition chooseRefreshRateForContent configs (host : Host) (summary : list LR)
  : M LR unit :=
  if negb (RefreshRateConfigs.canSwitch configs) then ret tt
  else
    modify (fun s => set_mFeatures (Features.set_contentRequirements summary (mFeatures s)) s) ;;
    s <- get ;;
    let newModeId := (calculateRefreshRateModeId configs s).1 in
    let consideredSignals := (calculateRefreshRateModeId configs s).2 in
    let newRefreshRate := RefreshRateConfigs.getRefreshRateFromModeId configs newModeId in
    frameRateOverridesChanged <-
      updateFrameRateOverrides configs consideredSignals (RefreshRate.getFps newRefreshRate) ;;
    s <- get ;;
    frameRateChanged <-
      (if optional_is (Features.modeId (mFeatures s)) newModeId then
         (if negb (GlobalSignals.idle consideredSignals)
          then dispatchCachedReportedMode configs else ret tt) ;;
         ret false
       else
         modify (fun s => set_mFeatures (Features.set_modeId (Some newModeId) (mFeatures s)) s) ;;
         (if aboveThermalFps s newRefreshRate then
            emit (Call.getModeFromFps (mThermalFps s)) ;;
            modify (fun s =>
              set_mFeatures
                (Features.set_modeId (Some (modeFromFps host (mThermalFps s))) (mFeatures s)) s)
          else ret tt) ;;
         ret true) ;;
    (if frameRateChanged : bool then
       s <- get ;;
       let newRefreshRate := RefreshRateConfigs.getRefreshRateFromModeId configs newModeId in
       if aboveThermalFps s newRefreshRate then
         emit (Call.getModeFromFps (mThermalFps s)) ;;
         let newThermalRefreshRate :=
           RefreshRateConfigs.getRefreshRateFromModeId configs
             (modeFromFps host (mThermalFps s)) in
         emit (Call.changeRefreshRate newThermalRefreshRate (event_for consideredSignals))
       else
         emit (Call.changeRefreshRate newRefreshRate (event_for consideredSignals))
     else ret tt) ;;
    (if frameRateOverridesChanged : bool
     then emit Call.triggerOnFrameRateOverridesChanged else ret tt).

(** The template takes a pointer to a member of [mFeatures]; here the member
    is given by its getter, its setter and the equality of its type. *)
Definition handleTimerStateChanged {T : Type} (eqb : T -> T -> bool)
           (currentState : Features.t LR -> T)
           (assign : T -> Features.t LR -> Features.t LR)
           configs (host : Host) (newState : T) : M LR bool :=
  s <- get ;;
  if eqb (currentState (mFeatures s)) newState then ret false
  else
    modify (fun s => set_mFeatures (assign newState (mFeatures s)) s) ;;
    s <- get ;;
    let newModeId := (calculateRefreshRateModeId configs s).1 in
    let consideredSignals := (calculateRefreshRateModeId configs s).2 in
    let newRefreshRate := RefreshRateConfigs.getRefreshRateFromModeId configs newModeId in
    frameRateOverridesChanged <-
      updateFrameRateOverrides configs consideredSignals (RefreshRate.getFps newRefreshRate) ;;
    s <- get ;;
    refreshRateChanged <-
      (if optional_is (Features.modeId (mFeatures s)) newModeId then
         (if negb (GlobalSignals.idle consideredSignals)
          then dispatchCachedReportedMode configs else ret tt) ;;
         ret false
       else
         modify (fun s => set_mFeatures (Features.set_modeId (Some newModeId) (mFeatures s)) s) ;;
         (if aboveThermalFps s newRefreshRate then
            emit (Call.getModeFromFps (mThermalFps s)) ;;
            modify (fun s =>
              set_mFeatures
                (Features.set_modeId (Some (modeFromFps host (mThermalFps s))) (mFeatures s)) s)
          else ret tt) ;;
         ret true) ;;
    (if refreshRateChanged : bool then
       s <- get ;;
       if aboveThermalFps s newRefreshRate then
         emit (Call.getModeFromFps (mThermalFps s)) ;;
         let newThermalRefreshRate :=
           RefreshRateConfigs.getRefreshRateFromModeId configs
             (modeFromFps host (mThermalFps s)) in
         emit (Call.changeRefreshRate newThermalRefreshRate (event_for consideredSignals))
       else
         emit (Call.changeRefreshRate newRefreshRate (event_for consideredSignals))
     else ret tt) ;;
    (if frameRateOverridesChanged : bool
     then emit Call.triggerOnFrameRateOverridesChanged else ret tt) ;;
    ret (GlobalSignals.touch consideredSignals).

Definition getPreferredModeId configs : M LR (option DisplayModeId) :=
  s <- get ;;
  (match Features.modeId (mFeatures s) with
   | Some _ =>
       modify (fun s =>
         set_mFeatures
           (Features.set_modeId (Some (calculateRefreshRateModeId configs s).1) (mFeatures s)) s)
   | None => ret tt
   end) ;;
  s' <- get ;;
  ret (Features.modeId (mFeatures s')).

(** *** Timers *)

Definition resetIdleTimer : M LR unit :=
  s <- get ;;
  if mIdleTimer s then emit Call.idleTimer_reset else ret tt.

Definition notifyTouchEvent : M LR unit :=
  s <- get ;;
  if mTouchTimer s then
    emit Call.touchTimer_reset ;;
    (if supportKernelTimer s && mIdleTimer s then emit Call.idleTimer_reset else ret tt)
  else ret tt.

Definition setDisplayPowerState (normal : bool) : M LR unit :=
  modify (fun s =>
    set_mFeatures (Features.set_isDisplayPowerStateNormal normal (mFeatures s)) s) ;;
  s <- get ;;
  (if mDisplayPowerTimer s then emit Call.displayPowerTimer_reset else ret tt) ;;
  emit Call.layerHistory_clear.

Definition kernelIdleTimerCallback configs (st : TimerState) : M LR unit :=
  let refreshRate := RefreshRateConfigs.getCurrentRefreshRate configs in
  let FPS_THRESHOLD_FOR_KERNEL_TIMER : Fps := 65%Q in
  (if TimerState_eqb st Reset
      && greaterThanWithMargin D (RefreshRate.getFps refreshRate)
                               FPS_THRESHOLD_FOR_KERNEL_TIMER
   then resyncToHardwareVsync true (RefreshRate.getVsyncPeriod refreshRate)
                              (force_resync_default D)
   else if TimerState_eqb st Expired
           && lessThanOrEqualWithMargin D (RefreshRate.getFps refreshRate)
                                        FPS_THRESHOLD_FOR_KERNEL_TIMER
   then disableHardwareVsync false
   else ret tt) ;;
  emit (Call.kernelTimerChanged (TimerState_eqb st Expired)).

Definition idleTimerCallback configs (host : Host) (st : TimerState) : M LR unit :=
  s <- get ;;
  if mHandleIdleTimeout s then
    handleTimerStateChanged TimerState_eqb Features.idleTimer Features.set_idleTimer
                            configs host st ;;
    ret tt
  else ret tt.

Definition touchTimerCallback configs (host : Host) (st : TimerState) : M LR unit :=
  let touch := if TimerState_eqb st Reset then Active else Inactive in
  b <- handleTimerStateChanged TouchState_eqb Features.touch Features.set_touch
                               configs host touch ;;
  if b : bool then emit Call.layerHistory_clear else ret tt.

Definition displayPowerTimerCallback configs (host : Host) (st : TimerState) : M LR unit :=
  handleTimerStateChanged TimerState_eqb Features.displayPowerTimer
                          Features.set_displayPowerTimer configs host st ;;
  ret tt.

(** *** Remaining setters *)

(** [now] is the value of [systemTime()]. *)
Definition onNewVsyncPeriodChangeTimeline (timeline : VsyncPeriodChangeTimeline.t)
           (now : nsecs_t) : M LR unit :=
  (if VsyncPeriodChangeTimeline.refreshRequired timeline
   then emit Call.repaintEverythingForHWC else ret tt) ;;
  let maxAppliedTime := now + MAX_VSYNC_APPLIED_TIME D in
  if maxAppliedTime <? VsyncPeriodChangeTimeline.newVsyncAppliedTimeNanos timeline then
    modify (set_mLastVsyncPeriodChangeTimeline
              (Some (VsyncPeriodChangeTimeline.mk maxAppliedTime
                       (VsyncPeriodChangeTimeline.refreshRequired timeline)
                       (VsyncPeriodChangeTimeline.refreshTimeNanos timeline))))
  else modify (set_mLastVsyncPeriodChangeTimeline (Some timeline)).

Definition onDisplayRefreshed (timestamp : nsecs_t) : M LR unit :=
  s <- get ;;
  match mLastVsyncPeriodChangeTimeline s with
  | Some tl =>
      if VsyncPeriodChangeTimeline.refreshRequired tl then
        if VsyncPeriodChangeTimeline.refreshTimeNanos tl <? timestamp then
          modify (set_mLastVsyncPeriodChangeTimeline
                    (Some (VsyncPeriodChangeTimeline.mk
                             (VsyncPeriodChangeTimeline.newVsyncAppliedTimeNanos tl) false
                             (VsyncPeriodChangeTimeline.refreshTimeNanos tl))))
        else emit Call.repaintEverythingForHWC
      else ret tt
  | None => ret tt
  end.

Definition onPrimaryDisplayAreaChanged (displayArea : N) : M LR unit :=
  emit (Call.layerHistory_setDisplayArea displayArea).

Definition setIdleState : M LR unit := modify (set_mDisplayIdle true).

Definition updateThermalFps (fps : Q) : M LR unit :=
  modify (set_mThermalFps fps) ;;
  emit (Call.layerHistory_updateThermalFps fps).
End Methods.

(** ** Sample collaborators and states, used to run the methods *)

Module Sample.
(** The in-class value of [INVALID_ID] upstream is [static_cast<Id>(-1)]. *)
Definition decls : Decls := {|
  INVALID_ID := (2 ^ 64 - 1)%N;
  force_resync_default := false;
  traceVsync_default := true;
  fromPort := fun port => port;
  equalsWithMargin := fun a b => Qeq_bool a b;
  greaterThanWithMargin := fun a b => Qltb b a;
  lessThanOrEqualWithMargin := fun a b => Qle_bool a b;
  MAX_VSYNC_APPLIED_TIME := ms2ns 200;
  eventRegistration_default := 0%N
|}.

Definition rate60 : RefreshRate.t := RefreshRate.mk 0 60%Q 16666667.
Definition rate90 : RefreshRate.t := RefreshRate.mk 1 90%Q 11111111.
Definition rate120 : RefreshRate.t := RefreshRate.mk 2 120%Q 8333333.
(** a panel mode slightly faster than 90 Hz: 90.5 Hz *)
Definition rate90_5 : RefreshRate.t := RefreshRate.mk 3 (181 # 2)%Q 11049724.

Definition rateOfMode (m : DisplayModeId) : RefreshRate.t :=
  if m =? 1 then rate90 else if m =? 2 then rate120 else if m =? 3 then rate90_5 else rate60.

(** A policy that always picks [best], reports the signals it was given as
    considered, and derives no overrides from content. *)
Definition policy (supports : bool) (current best : RefreshRate.t)
  : RefreshRateConfigs.t unit := {|
  RefreshRateConfigs.supportsFrameRateOverride := supports;
  RefreshRateConfigs.canSwitch := true;
  RefreshRateConfigs.getCurrentRefreshRate := current;
  RefreshRateConfigs.getRefreshRateFromModeId := rateOfMode;
  RefreshRateConfigs.getMaxRefreshRateByPolicy := rate120;
  RefreshRateConfigs.getBestRefreshRate := fun _ signals => (best, signals);
  RefreshRateConfigs.getFrameRateOverrides := fun _ _ _ => ∅;
  RefreshRateConfigs.getFrameRateDivider := fun _ _ => 1
|}.

(** The host answers a thermal cap of 90 with the 90 Hz mode. *)
Definition host : Host := {| modeFromFps := fun fps => if Qle_bool 90 fps then 1 else 0 |}.

Definition features : Features.t unit := {|
  Features.modeId := None;
  Features.contentRequirements := [];
  Features.idleTimer := Reset;
  Features.touch := Inactive;
  Features.displayPowerTimer := Expired;
  Features.isDisplayPowerStateNormal := true;
  Features.cachedModeChangedParams := None
|}.

(** A Scheduler with no timers, no connections, nothing enabled. *)
Definition scheduler : Scheduler unit := {|
  supportKernelTimer := false;
  mIdleTimer := false;
  mTouchTimer := false;
  mDisplayPowerTimer := false;
  mHandleIdleTimeout := true;
  mNextConnectionHandleId := 0%N;
  mConnections := ∅;
  mInjectVSyncs := false;
  mVSyncInjector := false;
  mInjectorConnectionHandle := ConnectionHandle.mk (2 ^ 64 - 1)%N;
  mPrimaryHWVsyncEnabled := false;
  mHWVsyncAvailable := false;
  mLastResyncTime := 0;
  mDisplayIdle := false;
  mFeatures := features;
  mThermalFps := 0%Q;
  mFrameRateOverridesFromBackdoor := ∅;
  mFrameRateOverridesByContent := ∅;
  mLastVsyncPeriodChangeTimeline := None
|}.
End Sample.

(** ** Reading a trace *)

Definition changeRefreshRate_calls (tr : list Call.t) : list (RefreshRate.t * ModeEvent) :=
  flat_map (fun c => match c with Call.changeRefreshRate r e => [(r, e)] | _ => [] end) tr.

Definition onModeChanged_calls (tr : list Call.t)
  : list (EventThread.t * PhysicalDisplayId * DisplayModeId * nsecs_t) :=
  flat_map (fun c => match c with Call.onModeChanged t d m p => [(t, d, m, p)] | _ => [] end) tr.

(** The arguments of every entry into [resyncToHardwareVsync]. *)
Definition resyncToHardwareVsync_calls (tr : list Call.t) : list (bool * nsecs_t * bool) :=
  flat_map (fun c => match c with
                     | Call.enter_resyncToHardwareVsync a p f => [(a, p, f)]
                     | _ => []
                     end) tr.

(** Whether the method that produced the trace called [resyncToHardwareVsync]. *)
Definition triggers_resync (tr : list Call.t) : bool :=
  match resyncToHardwareVsync_calls tr with [] => false | _ :: _ => true end.

(** Whether [resyncToHardwareVsync] was entered with [makeAvailable = true]. *)
Definition makes_available (tr : list Call.t) : bool :=
  existsb (fun c => c.1.1) (resyncToHardwareVsync_calls tr).

Definition override (uid : uid_t) (f : Q) : FrameRateOverride.t := FrameRateOverride.mk uid f.

(** Modelled from the spec: [EventThread.cpp] is not among the sources.  An
    event thread withholds the vsync at [expectedVsyncTimestamp] from [uid]
    when it was given a throttle callback and the callback returns true; a
    thread constructed with an empty callback throttles nothing. *)
Definition throttled {LR} (configs : RefreshRateConfigs.t LR) (tracker : Tracker)
           (s : Scheduler LR) (thread : EventThread.t)
           (expectedVsyncTimestamp : nsecs_t) (uid : uid_t) : bool :=
  match EventThread.throttleVsync thread with
  | Throttle_empty => false
  | Throttle_lambda => throttleVsync_lambda configs tracker s expectedVsyncTimestamp uid
  end.

(** What [dispatchCachedReportedMode] sends when the stored mode is [modeId]:
    one [onModeChanged] on the thread of the cached handle, and only when
    there are cached params, the handle is registered, the policy's current
    mode is [modeId], and the cached (mode, period) pair is out of date. *)
Definition replay_of {LR} (configs : RefreshRateConfigs.t LR) (s : Scheduler LR)
           (modeId : DisplayModeId)
  : list (EventThread.t * PhysicalDisplayId * DisplayModeId * nsecs_t) :=
  let vsyncPeriod :=
    RefreshRate.getVsyncPeriod (RefreshRateConfigs.getRefreshRateFromModeId configs modeId) in
  match Features.cachedModeChangedParams (mFeatures s) with
  | None => []
  | Some cached =>
      match mConnections s !! ConnectionHandle.id (ModeChangedParams.handle cached) with
      | None => []
      | Some c =>
          if (RefreshRate.getModeId (RefreshRateConfigs.getCurrentRefreshRate configs) =? modeId)
             && negb ((modeId =? ModeChangedParams.modeId cached)
                      && (vsyncPeriod =? ModeChangedParams.vsyncPeriod cached))
          then [(Connection.thread c, ModeChangedParams.displayId cached, modeId, vsyncPeriod)]
          else []
      end
  end.

(** ** Sequences of method calls *)

(** One call of a method that writes Scheduler state or calls a
    collaborator, with the values it obtains from collaborators. *)
Inductive Op {LR : Type} :=
| Op_createConnection (configs : RefreshRateConfigs.t LR) (connectionName : string)
    (tokenManager : option N) (workDuration readyDuration : nsecs_t) (interceptCallback : option N)
| Op_onHotplugReceived (handle : ConnectionHandle.t) (displayId : PhysicalDisplayId)
    (connected : bool)
| Op_onScreenAcquired (handle : ConnectionHandle.t)
| Op_onScreenReleased (handle : ConnectionHandle.t)
| Op_onFrameRateOverridesChanged (handle : ConnectionHandle.t) (displayId : PhysicalDisplayId)
| Op_onPrimaryDisplayModeChanged (handle : ConnectionHandle.t) (displayId : PhysicalDisplayId)
    (modeId : DisplayModeId) (vsyncPeriod : nsecs_t)
| Op_onNonPrimaryDisplayModeChanged (handle : ConnectionHandle.t)
    (displayId : PhysicalDisplayId) (modeId : DisplayModeId) (vsyncPeriod : nsecs_t)
| Op_setDuration (handle : ConnectionHandle.t) (workDuration readyDuration : nsecs_t)
| Op_enableVSyncInjection (enable : bool)
| Op_injectVSync (when expectedVSyncTime deadlineTimestamp : nsecs_t)
| Op_enableHardwareVsync
| Op_disableHardwareVsync (makeUnavailable : bool)
| Op_resyncToHardwareVsync (makeAvailable : bool) (period : nsecs_t) (force_resync : bool)
| Op_resync (configs : RefreshRateConfigs.t LR) (now : nsecs_t)
| Op_resyncAndRefresh (configs : RefreshRateConfigs.t LR) (now : nsecs_t)
| Op_setVsyncPeriod (period : nsecs_t) (force_resync : bool)
| Op_addResyncSample (timestamp : nsecs_t) (hwcVsyncPeriod : option nsecs_t)
    (needsMore flushed : bool)
| Op_addPresentFence (needsHwVsync : bool)
| Op_setIgnorePresentFences (ignore : bool)
| Op_setModeChangePending (pending : bool)
| Op_chooseRefreshRateForContent (configs : RefreshRateConfigs.t LR) (host : Host)
    (summary : list LR)
| Op_resetIdleTimer
| Op_notifyTouchEvent
| Op_setDisplayPowerState (normal : bool)
| Op_kernelIdleTimerCallback (configs : RefreshRateConfigs.t LR) (st : TimerState)
| Op_idleTimerCallback (configs : RefreshRateConfigs.t LR) (host : Host) (st : TimerState)
| Op_touchTimerCallback (configs : RefreshRateConfigs.t LR) (host : Host) (st : TimerState)
| Op_displayPowerTimerCallback (configs : RefreshRateConfigs.t LR) (host : Host)
    (st : TimerState)
| Op_getPreferredModeId (configs : RefreshRateConfigs.t LR)
| Op_onNewVsyncPeriodChangeTimeline (timeline : VsyncPeriodChangeTimeline.t) (now : nsecs_t)
| Op_onDisplayRefreshed (timestamp : nsecs_t)
| Op_onPrimaryDisplayAreaChanged (displayArea : N)
| Op_setPreferredRefreshRateForUid (frameRateOverride : FrameRateOverride.t)
| Op_setIdleState
| Op_updateThermalFps (fps : Q).
Arguments Op : clear implicits.

Section Run.
Context {LR : Type} (D : Decls).

Definition discard {A} (m : M LR A) : M LR unit := m ;; ret tt.

Definition run_op (op : Op LR) : M LR unit :=
  match op with
  | Op_createConnection configs n tm w r ic => discard (createConnection_named D configs n tm w r ic)
  | Op_onHotplugReceived h d c => onHotplugReceived h d c
  | Op_onScreenAcquired h => onScreenAcquired h
  | Op_onScreenReleased h => onScreenReleased h
  | Op_onFrameRateOverridesChanged h d => onFrameRateOverridesChanged h d
  | Op_onPrimaryDisplayModeChanged h d m p => onPrimaryDisplayModeChanged h d m p
  | Op_onNonPrimaryDisplayModeChanged h d m p => onNonPrimaryDisplayModeChanged h d m p
  | Op_setDuration h w r => setDuration h w r
  | Op_enableVSyncInjection e => discard (enableVSyncInjection D e)
  | Op_injectVSync w e d => discard (injectVSync w e d)
  | Op_enableHardwareVsync => enableHardwareVsync
  | Op_disableHardwareVsync u => disableHardwareVsync u
  | Op_resyncToHardwareVsync a p f => resyncToHardwareVsync a p f
  | Op_resync configs now => resync D configs now
  | Op_resyncAndRefresh configs now => resyncAndRefresh D configs now
  | Op_setVsyncPeriod p f => setVsyncPeriod p f
  | Op_addResyncSample t h n f => discard (addResyncSample t h n f)
  | Op_addPresentFence n => addPresentFence n
  | Op_setIgnorePresentFences i => setIgnorePresentFences i
  | Op_setModeChangePending p => setModeChangePending p
  | Op_chooseRefreshRateForContent configs host summary =>
      chooseRefreshRateForContent D configs host summary
  | Op_resetIdleTimer => resetIdleTimer
  | Op_notifyTouchEvent => notifyTouchEvent
  | Op_setDisplayPowerState n => setDisplayPowerState n
  | Op_kernelIdleTimerCallback configs st => kernelIdleTimerCallback D configs st
  | Op_idleTimerCallback configs host st => idleTimerCallback D configs host st
  | Op_touchTimerCallback configs host st => touchTimerCallback D configs host st
  | Op_displayPowerTimerCallback configs host st => displayPowerTimerCallback D configs host st
  | Op_getPreferredModeId configs => discard (getPreferredModeId configs)
  | Op_onNewVsyncPeriodChangeTimeline tl now => onNewVsyncPeriodChangeTimeline D tl now
  | Op_onDisplayRefreshed t => onDisplayRefreshed t
  | Op_onPrimaryDisplayAreaChanged a => onPrimaryDisplayAreaChanged a
  | Op_setPreferredRefreshRateForUid o => setPreferredRefreshRateForUid o
  | Op_setIdleState => setIdleState
  | Op_updateThermalFps f => updateThermalFps f
  end.

Fixpoint run_ops (ops : list (Op LR)) : M LR unit :=
  match ops with
  | [] => ret tt
  | op :: ops' => run_op op ;; run_ops ops'
  end.
End Run.

(** The Scheduler after [mFeatures.contentRequirements = summary]. *)
Definition with_content {LR : Type} (summary : list LR) (s : Scheduler LR) : Scheduler LR :=
  set_mFeatures (Features.set_contentRequirements summary (mFeatures s)) s.

(** A computation that cannot make hardware vsync available on its own:
    started where it is unavailable, and unless [resyncToHardwareVsync] is
    entered with [makeAvailable = true], it ends where it is unavailable. *)
Definition stays_unavailable {LR A : Type} (m : M LR A) : Prop :=
  forall s, mHWVsyncAvailable s = false ->
            makes_available (trace (m s)) = false ->
            mHWVsyncAvailable (state (m s)) = false.

(** ** Scenarios *)

(** A Scheduler whose backdoor map holds 30 and whose content-derived map
    holds 45 for uid 42. *)
Definition scheduler_S4 : Scheduler unit :=
  set_mFrameRateOverridesByContent {[ 42%N := 45%Q ]}
    (state (setPreferredRefreshRateForUid (override 42 30) Sample.scheduler)).

(** A Scheduler capped at 90 Hz whose last chosen mode is the 60 Hz mode. *)
Definition scheduler_thermal90 : Scheduler unit :=
  set_mThermalFps 90
    (set_mFeatures (Features.set_modeId (Some 0) Sample.features) Sample.scheduler).

(** A Scheduler in its steady state at 120 Hz: the "app" connection is
    registered under handle 0, the 120 Hz mode was chosen, and the host has
    reported the completed mode change through
    [onPrimaryDisplayModeChanged]. *)
Definition scheduler_steady : Scheduler unit :=
  state (run_ops Sample.decls
           [ Op_createConnection (Sample.policy false Sample.rate60 Sample.rate120)
               "app" None 0 0 None;
             Op_chooseRefreshRateForContent (Sample.policy false Sample.rate60 Sample.rate120)
               Sample.host [];
             Op_onPrimaryDisplayModeChanged (ConnectionHandle.mk 0) 0 2 8333333 ]
           Sample.scheduler).

(** The same Scheduler after the 60 Hz mode was adopted without an event:
    the cached params still describe the 120 Hz mode. *)
Definition scheduler_suppressed : Scheduler unit :=
  set_mFeatures (Features.set_modeId (Some 0) (mFeatures scheduler_steady)) scheduler_steady.

(** A run after [disableHardwareVsync(true)]: a present fence that asks for
    hardware vsync, a throttled and an unthrottled [resync], a sample, an
    idle-timer expiry, a content-driven mode selection. *)
Definition ops_C6 : list (Op unit) :=
  let configs := Sample.policy true Sample.rate60 Sample.rate120 in
  [ Op_addPresentFence true;
    Op_enableHardwareVsync;
    Op_resync configs (ms2ns 100);
    Op_resync configs (ms2ns 5000);
    Op_addResyncSample 16 None true false;
    Op_idleTimerCallback configs Sample.host Expired;
    Op_chooseRefreshRateForContent configs Sample.host [tt] ].

(** ** Further methods and readings *)

(** The callbacks the constructor hands to the idle timer (the two lambdas
    that [std::invoke] the member chosen from [mOptions.supportKernelTimer]):
    [st] is [Reset] for the first and [Expired] for the second. *)
Definition idleTimer_fire {LR : Type} (D : Decls) (configs : RefreshRateConfigs.t LR)
           (host : Host) (st : TimerState) : M LR unit :=
  s <- get ;;
  if supportKernelTimer s then kernelIdleTimerCallback D configs st
  else idleTimerCallback D configs host st.

(** The argument of the last [setVsyncEnabled] call of a trace, and [d] when
    the trace has none. *)
Definition last_setVsyncEnabled (tr : list Call.t) (d : bool) : bool :=
  fold_left (fun acc c => match c with Call.setVsyncEnabled b => b | _ => acc end) tr d.

(** A computation after which [mPrimaryHWVsyncEnabled] is the argument of
    the last [setVsyncEnabled] call it made, or what it was when it made
    none. *)
Definition tracks_enabled {LR A : Type} (m : M LR A) : Prop :=
  forall s, mPrimaryHWVsyncEnabled (state (m s))
            = last_setVsyncEnabled (trace (m s)) (mPrimaryHWVsyncEnabled s).

(** A computation that keeps a property of the Scheduler. *)
Definition preserves {LR A : Type} (I : Scheduler LR -> Prop) (m : M LR A) : Prop :=
  forall s, I s -> I (state (m s)).

(** Every registered handle id is below the next id to hand out. *)
Definition registry_below_next {LR : Type} (s : Scheduler LR) : Prop :=
  forall k, is_Some (mConnections s !! k) -> (k < mNextConnectionHandleId s)%N.

(** Each time of the list is at most 750 ms after the one before it, the
    first after [prev]. *)
Fixpoint gaps_within (prev : nsecs_t) (times : list nsecs_t) : Prop :=
  match times with
  | [] => True
  | t :: times' => t - prev <= ms2ns 750 /\ gaps_within t times'
  end.

(** Calls of [resync] at the given clock readings, in order. *)
Definition resync_ops {LR : Type} (configs : RefreshRateConfigs.t LR) (times : list nsecs_t)
  : list (Op LR) :=
  map (Op_resync configs) times.

(** ** Comparisons on [Q] *)

Lemma Qltb_true (a b : Q) : Qltb a b = true <-> (a < b)%Q.
Proof.
  unfold Qltb. rewrite negb_true_iff, <- not_true_iff_false, Qle_bool_iff.
  split; [apply Qnot_le_lt | apply Qlt_not_le].
Qed.

Lemma Qltb_false (a b : Q) : Qltb a b = false <-> (b <= a)%Q.
Proof.
  unfold Qltb. rewrite negb_false_iff. apply Qle_bool_iff.
Qed.

Lemma Qneb_true (a b : Q) : Qneb a b = true <-> ~ (a == b)%Q.
Proof.
  unfold Qneb. rewrite negb_true_iff, <- not_true_iff_false, Qeq_bool_iff. tauto.
Qed.

Lemma Qneb_false (a b : Q) : Qneb a b = false <-> (a == b)%Q.
Proof.
  unfold Qneb. rewrite negb_false_iff. apply Qeq_bool_iff.
Qed.

Lemma in_unit_interval (f : Q) : Qltb 0 f && Qltb f 1 = true <-> (0 < f /\ f < 1)%Q.
Proof. rewrite andb_true_iff, !Qltb_true. tauto. Qed.

(** ** Frame-rate overrides *)

Section Overrides.
Context {LR : Type}.
Implicit Type s : Scheduler LR.
Implicit Type configs : RefreshRateConfigs.t LR.

Lemma setPreferred_dropped s uid f :
  (0 < f /\ f < 1)%Q -> setPreferredRefreshRateForUid (override uid f) s = (tt, s, []).
Proof.
  intros H. apply in_unit_interval in H.
  unfold setPreferredRefreshRateForUid; simpl. now rewrite H.
Qed.

Lemma setPreferred_erase s uid f :
  (f == 0)%Q ->
  setPreferredRefreshRateForUid (override uid f) s
  = (tt, set_mFrameRateOverridesFromBackdoor
           (delete uid (mFrameRateOverridesFromBackdoor s)) s, []).
Proof.
  intros H. unfold setPreferredRefreshRateForUid; simpl.
  assert (Qltb 0 f = false) as -> by (apply Qltb_false; rewrite H; apply Qle_refl).
  apply Qneb_false in H. now rewrite H.
Qed.

Lemma setPreferred_store s uid f :
  ~ (0 < f /\ f < 1)%Q -> ~ (f == 0)%Q ->
  setPreferredRefreshRateForUid (override uid f) s
  = (tt, set_mFrameRateOverridesFromBackdoor
           (<[uid := f]> (mFrameRateOverridesFromBackdoor s)) s, []).
Proof.
  intros H1 H2. unfold setPreferredRefreshRateForUid; simpl.
  destruct (Qltb 0 f && Qltb f 1) eqn:E; [apply in_unit_interval in E; tauto |].
  apply Qneb_true in H2. now rewrite H2.
Qed.

Lemma setPreferred_byContent s o :
  mFrameRateOverridesByContent (state (setPreferredRefreshRateForUid o s))
  = mFrameRateOverridesByContent s.
Proof.
  unfold setPreferredRefreshRateForUid.
  destruct (_ && _); [reflexivity |]. now destruct (Qneb _ _).
Qed.

Lemma getFrameRateOverride_supported configs s uid :
  RefreshRateConfigs.supportsFrameRateOverride configs = true ->
  getFrameRateOverride configs s uid
  = match mFrameRateOverridesFromBackdoor s !! uid with
    | Some fps => Some fps
    | None => mFrameRateOverridesByContent s !! uid
    end.
Proof.
  intros H. unfold getFrameRateOverride. rewrite H; simpl.
  destruct (mFrameRateOverridesFromBackdoor s !! uid); [reflexivity |].
  now destruct (mFrameRateOverridesByContent s !! uid).
Qed.

Lemma getFrameRateOverride_unsupported configs s uid :
  RefreshRateConfigs.supportsFrameRateOverride configs = false ->
  getFrameRateOverride configs s uid = None.
Proof. intros H. unfold getFrameRateOverride. now rewrite H. Qed.
End Overrides.

(** C5: [setPreferredRefreshRateForUid({uid, f})] leaves both override maps
    unchanged when [f] lies in the open interval (0, 1), erases the backdoor
    entry of [uid] when [f] is 0, and otherwise stores [f] as the backdoor
    entry of [uid]; the content-derived map is never touched.  Hence a call
    with any [f] followed by a call with 0 leaves no backdoor entry for
    [uid]. *)
Theorem C5_setPreferredRefreshRateForUid_cases {LR : Type}
        (s : Scheduler LR) (uid : uid_t) (f : Q) :
  let r := setPreferredRefreshRateForUid (override uid f) s in
  ((0 < f /\ f < 1)%Q -> r = (tt, s, []))
  /\ ((f == 0)%Q ->
      r = (tt, set_mFrameRateOverridesFromBackdoor
                 (delete uid (mFrameRateOverridesFromBackdoor s)) s, []))
  /\ (~ (0 < f /\ f < 1)%Q -> ~ (f == 0)%Q ->
      r = (tt, set_mFrameRateOverridesFromBackdoor
                 (<[uid := f]> (mFrameRateOverridesFromBackdoor s)) s, []))
  /\ mFrameRateOverridesByContent (state r) = mFrameRateOverridesByContent s
  /\ mFrameRateOverridesFromBackdoor
       (state (setPreferredRefreshRateForUid (override uid 0) (state r))) !! uid = None.
Proof.
  intros r. subst r.
  split; [apply setPreferred_dropped |].
  split; [apply setPreferred_erase |].
  split; [apply setPreferred_store |].
  split; [apply setPreferred_byContent |].
  rewrite (setPreferred_erase _ uid 0) by reflexivity.
  unfold state; simpl. apply lookup_delete_eq.
Qed.

(** C10: a negative rate is neither dropped nor treated as an erase:
    [setPreferredRefreshRateForUid({uid, f})] with [f < 0] stores [f] as the
    backdoor override of [uid]. *)
Theorem C10_negative_rate_is_stored {LR : Type} (s : Scheduler LR) (uid : uid_t) (f : Q) :
  (f < 0)%Q ->
  setPreferredRefreshRateForUid (override uid f) s
  = (tt, set_mFrameRateOverridesFromBackdoor
           (<[uid := f]> (mFrameRateOverridesFromBackdoor s)) s, [])
  /\ mFrameRateOverridesFromBackdoor
       (state (setPreferredRefreshRateForUid (override uid f) s)) !! uid = Some f.
Proof.
  intros Hneg.
  assert (Hstore : setPreferredRefreshRateForUid (override uid f) s
                   = (tt, set_mFrameRateOverridesFromBackdoor
                            (<[uid := f]> (mFrameRateOverridesFromBackdoor s)) s, [])).
  { apply setPreferred_store.
    - intros [Hpos _]. exact (Qlt_irrefl _ (Qlt_trans _ _ _ Hpos Hneg)).
    - intros Hz. rewrite Hz in Hneg. exact (Qlt_irrefl _ Hneg). }
  split; [exact Hstore |].
  rewrite Hstore. unfold state; simpl. apply lookup_insert_eq.
Qed.

Lemma C10_negative_rate_witness :
  mFrameRateOverridesFromBackdoor
    (state (setPreferredRefreshRateForUid (override 42 (-5 # 1)) Sample.scheduler)) !! 42%N
  = Some (-5 # 1)%Q.
Proof.
  apply (C10_negative_rate_is_stored Sample.scheduler 42%N (-5 # 1)%Q). reflexivity.
Defined.

(** C4, as stated, fails: with a policy that does not support frame-rate
    overrides the backdoor entry of uid 42 is present and
    [getFrameRateOverride(42)] still returns nothing. *)
Lemma C4_counterexample :
  mFrameRateOverridesFromBackdoor scheduler_S4 !! 42%N = Some 30%Q
  /\ getFrameRateOverride (Sample.policy false Sample.rate60 Sample.rate60) scheduler_S4 42
     = None.
Proof. split; reflexivity. Qed.

(** C4, amended: when the policy supports frame-rate overrides,
    [getFrameRateOverride(u)] is the backdoor entry of [u] if there is one,
    otherwise the content-derived entry if there is one, otherwise nothing.
    In particular, after the backdoor entry of [u] is set to a storable [f]
    while the content-derived entry is [g], the result is [f]; after the
    backdoor entry is erased with rate 0, it is [g]. *)
Theorem C4_getFrameRateOverride_precedence {LR : Type}
        (configs : RefreshRateConfigs.t LR) (s : Scheduler LR) :
  RefreshRateConfigs.supportsFrameRateOverride configs = true ->
  (forall u,
      getFrameRateOverride configs s u
      = match mFrameRateOverridesFromBackdoor s !! u with
        | Some fps => Some fps
        | None => mFrameRateOverridesByContent s !! u
        end)
  /\ (forall u f g,
         ~ (0 < f /\ f < 1)%Q -> ~ (f == 0)%Q ->
         mFrameRateOverridesByContent s !! u = Some g ->
         let s1 := state (setPreferredRefreshRateForUid (override u f) s) in
         let s2 := state (setPreferredRefreshRateForUid (override u 0) s1) in
         getFrameRateOverride configs s1 u = Some f
         /\ getFrameRateOverride configs s2 u = Some g).
Proof.
  intros Hsup. split.
  - intros u. now apply getFrameRateOverride_supported.
  - intros u f g Hf1 Hf2 Hg s1 s2. subst s2 s1.
    rewrite (setPreferred_store s u f Hf1 Hf2).
    rewrite (setPreferred_erase _ u 0) by reflexivity.
    rewrite !getFrameRateOverride_supported by exact Hsup.
    unfold state; simpl. rewrite lookup_insert_eq, lookup_delete_eq.
    split; [reflexivity | exact Hg].
Qed.

Lemma C4_precedence_witness :
  getFrameRateOverride (Sample.policy true Sample.rate60 Sample.rate60) scheduler_S4 42
  = Some 30%Q
  /\ getFrameRateOverride (Sample.policy true Sample.rate60 Sample.rate60)
       (state (setPreferredRefreshRateForUid (override 42 0) scheduler_S4)) 42
     = Some 45%Q.
Proof.
  pose proof (C4_getFrameRateOverride_precedence
                (Sample.policy true Sample.rate60 Sample.rate60) scheduler_S4 eq_refl) as [H _].
  pose proof (C4_getFrameRateOverride_precedence
                (Sample.policy true Sample.rate60 Sample.rate60)
                (state (setPreferredRefreshRateForUid (override 42 0) scheduler_S4))
                eq_refl) as [H' _].
  split; [rewrite H | rewrite H']; reflexivity.
Defined.

(** ** Throttling *)

Section Throttling.
Context {LR : Type} (D : Decls).
Implicit Type s : Scheduler LR.
Implicit Type configs : RefreshRateConfigs.t LR.

Lemma lookup_emplace {V} (k : N) (v : V) (m : gmap N V) (h : N) (c : V) :
  emplace k v m !! h = Some c -> m !! h = Some c \/ (h = k /\ c = v).
Proof.
  unfold emplace. destruct (m !! k) eqn:E; [tauto |].
  destruct (decide (k = h)) as [-> | Hne].
  - rewrite lookup_insert_eq. intros [= <-]. tauto.
  - rewrite lookup_insert_ne by exact Hne. tauto.
Qed.

Lemma createConnection_registry (eventThread : EventThread.t) (triggerRefresh : bool) s h c :
  mConnections (state (createConnection D eventThread triggerRefresh s)) !! h = Some c ->
  mConnections s !! h = Some c \/ Connection.thread c = eventThread.
Proof.
  unfold createConnection, state; simpl. intros H.
  apply lookup_emplace in H as [H | [_ ->]]; [now left | now right].
Qed.
End Throttling.

(** C9: when the policy reports [supportsFrameRateOverride()] as false,
    [getFrameRateOverride] returns nothing for every uid whatever the two
    maps hold; [makeThrottleVsyncCallback] returns an empty callback, so a
    connection that [createConnection] adds to the registry has no throttle
    callback; every vsync is valid for every uid; and no event thread, with
    or without a throttle callback, withholds a vsync. *)
Theorem C9_no_throttling_without_override_support {LR : Type} (D : Decls)
        (configs : RefreshRateConfigs.t LR) :
  RefreshRateConfigs.supportsFrameRateOverride configs = false ->
  (forall (s : Scheduler LR) uid, getFrameRateOverride configs s uid = None)
  /\ makeThrottleVsyncCallback configs = Throttle_empty
  /\ (forall (s : Scheduler LR) name tokenManager workDuration readyDuration intercept h c,
         mConnections
           (state (createConnection_named D configs name tokenManager workDuration
                                          readyDuration intercept s)) !! h = Some c ->
         mConnections s !! h = Some c
         \/ EventThread.throttleVsync (Connection.thread c) = Throttle_empty)
  /\ (forall tracker (s : Scheduler LR) t uid, isVsyncValid configs tracker s t uid = true)
  /\ (forall tracker (s : Scheduler LR) thread t uid,
         throttled configs tracker s thread t uid = false).
Proof.
  intros Hsup.
  assert (Hnone : forall (s : Scheduler LR) uid, getFrameRateOverride configs s uid = None)
    by (intros; now apply getFrameRateOverride_unsupported).
  assert (Hvalid : forall tracker (s : Scheduler LR) t uid,
             isVsyncValid configs tracker s t uid = true)
    by (intros; unfold isVsyncValid; now rewrite Hnone).
  assert (Hcb : makeThrottleVsyncCallback configs = Throttle_empty)
    by (unfold makeThrottleVsyncCallback; now rewrite Hsup).
  repeat split; try assumption.
  - intros s name tm w r ic h c H. unfold createConnection_named in H.
    apply createConnection_registry in H as [H | ->]; [now left | right].
    simpl. exact Hcb.
  - intros tracker s thread t uid. unfold throttled, throttleVsync_lambda.
    destruct (EventThread.throttleVsync thread); [reflexivity |].
    now rewrite Hvalid.
Qed.

Lemma C9_no_throttling_witness :
  getFrameRateOverride (Sample.policy false Sample.rate60 Sample.rate60) scheduler_S4 42 = None
  /\ makeThrottleVsyncCallback (Sample.policy false Sample.rate60 Sample.rate60)
     = Throttle_empty.
Proof.
  pose proof (C9_no_throttling_without_override_support Sample.decls
                (Sample.policy false Sample.rate60 Sample.rate60) eq_refl) as (H1 & H2 & _).
  split; [apply H1 | exact H2].
Defined.

(** ** Hardware vsync *)

Section HardwareVsync.
Context {LR : Type} (D : Decls).
Implicit Type s : Scheduler LR.
Implicit Type configs : RefreshRateConfigs.t LR.

Lemma enableHardwareVsync_spec s :
  enableHardwareVsync s
  = if negb (mPrimaryHWVsyncEnabled s) && mHWVsyncAvailable s
    then (tt, set_mPrimaryHWVsyncEnabled true s,
          [Call.tracker_resetModel; Call.setVsyncEnabled true])
    else (tt, s, []).
Proof. unfold enableHardwareVsync, bind, get; simpl. now destruct (_ && _). Qed.

Lemma disableHardwareVsync_true s :
  mHWVsyncAvailable (state (disableHardwareVsync true s)) = false
  /\ mPrimaryHWVsyncEnabled (state (disableHardwareVsync true s)) = false.
Proof.
  unfold disableHardwareVsync, bind, get, state; simpl.
  destruct (mPrimaryHWVsyncEnabled s) eqn:E; simpl; auto.
Qed.

Lemma resyncToHardwareVsync_trace s (makeAvailable force : bool) (period : nsecs_t) :
  resyncToHardwareVsync_calls (trace (resyncToHardwareVsync makeAvailable period force s))
  = [(makeAvailable, period, force)].
Proof.
  unfold resyncToHardwareVsync, setVsyncPeriod, bind, get, emit, trace; simpl.
  destruct makeAvailable; simpl.
  - destruct (period <=? 0); simpl; [reflexivity |].
    now destruct (negb (mPrimaryHWVsyncEnabled s) || force).
  - destruct (mHWVsyncAvailable s); simpl; [| reflexivity].
    destruct (period <=? 0); simpl; [reflexivity |].
    now destruct (negb (mPrimaryHWVsyncEnabled s) || force).
Qed.

Lemma resyncToHardwareVsync_makes_available s (force : bool) (period : nsecs_t) :
  mHWVsyncAvailable (state (resyncToHardwareVsync true period force s)) = true.
Proof.
  unfold resyncToHardwareVsync, setVsyncPeriod, bind, get, emit, state; simpl.
  destruct (period <=? 0); simpl; [reflexivity |].
  now destruct (negb (mPrimaryHWVsyncEnabled s) || force).
Qed.

Lemma resyncToHardwareVsync_keeps_last s (makeAvailable force : bool) (period : nsecs_t) :
  mLastResyncTime (state (resyncToHardwareVsync makeAvailable period force s))
  = mLastResyncTime s.
Proof.
  unfold resyncToHardwareVsync, setVsyncPeriod, bind, get, emit, state; simpl.
  destruct makeAvailable; simpl.
  - destruct (period <=? 0); simpl; [reflexivity |].
    now destruct (negb (mPrimaryHWVsyncEnabled s) || force).
  - destruct (mHWVsyncAvailable s); simpl; [| reflexivity].
    destruct (period <=? 0); simpl; [reflexivity |].
    now destruct (negb (mPrimaryHWVsyncEnabled s) || force).
Qed.

(** *** The resync throttle *)

Lemma resync_unfold configs s (now : nsecs_t) :
  resync D configs now s
  = if ms2ns 750 <? now - mLastResyncTime s
    then
      let r := resyncToHardwareVsync false
                 (RefreshRate.getVsyncPeriod (RefreshRateConfigs.getCurrentRefreshRate configs))
                 (force_resync_default D) (set_mLastResyncTime now s) in
      (tt, state r, trace r)
    else (tt, set_mLastResyncTime now s, []).
Proof.
  unfold resync, bind, get, modify; simpl.
  destruct (ms2ns 750 <? now - mLastResyncTime s); [| reflexivity].
  now destruct (resyncToHardwareVsync _ _ _ _) as [[[] s'] t'].
Qed.

Lemma resync_triggers configs s (now : nsecs_t) :
  triggers_resync (trace (resync D configs now s)) = (ms2ns 750 <? now - mLastResyncTime s).
Proof.
  rewrite resync_unfold. destruct (ms2ns 750 <? now - mLastResyncTime s); [| reflexivity].
  unfold triggers_resync. cbv zeta. unfold trace at 1; simpl.
  now rewrite resyncToHardwareVsync_trace.
Qed.

Lemma resync_last configs s (now : nsecs_t) :
  mLastResyncTime (state (resync D configs now s)) = now.
Proof.
  rewrite resync_unfold. destruct (ms2ns 750 <? now - mLastResyncTime s); [| reflexivity].
  cbv zeta. unfold state at 1; simpl. now rewrite resyncToHardwareVsync_keeps_last.
Qed.
End HardwareVsync.

(** C8, as stated, fails: entered with [makeAvailable = true] and period 0
    where hardware vsync is unavailable, [resyncToHardwareVsync] returns
    with the availability flag set. *)
Lemma C8_counterexample :
  mHWVsyncAvailable Sample.scheduler = false
  /\ mHWVsyncAvailable (state (resyncToHardwareVsync true 0 false Sample.scheduler)) = true
  /\ state (resyncToHardwareVsync true 0 false Sample.scheduler) <> Sample.scheduler.
Proof.
  split; [reflexivity |]. split; [reflexivity |].
  intros H. apply (f_equal mHWVsyncAvailable) in H. discriminate H.
Qed.

(** C8, amended: [resyncToHardwareVsync(makeAvailable, period, force)] with
    [period <= 0] calls no collaborator -- it starts no period transition and
    does not call [setVsyncEnabled] -- and leaves the Scheduler as it was
    except that the availability flag is set when [makeAvailable] is true. *)
Theorem C8_resync_nonpositive_period {LR : Type} (s : Scheduler LR)
        (makeAvailable force : bool) (period : nsecs_t) :
  period <= 0 ->
  resyncToHardwareVsync makeAvailable period force s
  = (tt, if makeAvailable then set_mHWVsyncAvailable true s else s,
     [Call.enter_resyncToHardwareVsync makeAvailable period force]).
Proof.
intros Hp. apply Z.leb_le in Hp.
unfold resyncToHardwareVsync, bind, get, emit; simpl.
destruct makeAvailable; simpl; [now rewrite Hp |].
destruct (mHWVsyncAvailable s); simpl; [now rewrite Hp | reflexivity].
Qed.

Lemma C8_nonpositive_period_witness :
  resyncToHardwareVsync false (-1) true Sample.scheduler
  = (tt, Sample.scheduler, [Call.enter_resyncToHardwareVsync false (-1) true]).
Proof. apply (C8_resync_nonpositive_period Sample.scheduler false true (-1)). lia. Defined.

(** C3, as stated, fails: on a device that has been up for 1000 s, calls of
    [resync] at 0, 700 and 800 ms from then trigger [resyncToHardwareVsync]
    on the first call only; the call at 800 ms comes 100 ms after the
    previous call and does not trigger. *)
Lemma C3_counterexample :
  let configs := Sample.policy false Sample.rate60 Sample.rate60 in
  let t0 := ms2ns 1000000 in
  let r1 := resync Sample.decls configs t0 Sample.scheduler in
  let r2 := resync Sample.decls configs (t0 + ms2ns 700) (state r1) in
  let r3 := resync Sample.decls configs (t0 + ms2ns 800) (state r2) in
  triggers_resync (trace r1) = true
  /\ triggers_resync (trace r2) = false
  /\ triggers_resync (trace r3) = false.
Proof. repeat split; reflexivity. Qed.

(** C3, amended: [resync] triggers [resyncToHardwareVsync] exactly when more
    than 750 ms have passed since the previous call of [resync], and every
    call, triggering or not, becomes the previous call of the next one.  For
    calls at [t0], [t0] + 700 ms and [t0] + 800 ms the first triggers when
    [t0] is more than 750 ms after the call before it, and the second and the
    third never trigger. *)
Theorem C3_resync_throttle {LR : Type} (D : Decls) (configs : RefreshRateConfigs.t LR)
        (s : Scheduler LR) (t0 : nsecs_t) :
  let r1 := resync D configs t0 s in
  let r2 := resync D configs (t0 + ms2ns 700) (state r1) in
  let r3 := resync D configs (t0 + ms2ns 800) (state r2) in
  (forall s' now,
      (triggers_resync (trace (resync D configs now s')) = true
       <-> ms2ns 750 < now - mLastResyncTime s')
      /\ mLastResyncTime (state (resync D configs now s')) = now)
  /\ (triggers_resync (trace r1) = true <-> ms2ns 750 < t0 - mLastResyncTime s)
  /\ triggers_resync (trace r2) = false
  /\ triggers_resync (trace r3) = false.
Proof.
  intros r1 r2 r3. subst r1 r2 r3.
  split; [| split; [| split]].
  - intros s' now. rewrite resync_triggers, resync_last, Z.ltb_lt. tauto.
  - rewrite resync_triggers, Z.ltb_lt. tauto.
  - rewrite resync_triggers, resync_last. apply Z.ltb_ge. unfold ms2ns. lia.
  - rewrite resync_triggers, resync_last. apply Z.ltb_ge. unfold ms2ns. lia.
Qed.

(** *** Availability survives every method but [resyncToHardwareVsync(true, ..)] *)

Lemma makes_available_app (t1 t2 : list Call.t) :
  makes_available (t1 ++ t2) = makes_available t1 || makes_available t2.
Proof.
  unfold makes_available, resyncToHardwareVsync_calls.
  now rewrite flat_map_app, existsb_app.
Qed.

Section StaysUnavailable.
Context {LR : Type}.

Lemma stays_ret {A} (a : A) : stays_unavailable (@ret LR A a).
Proof. intros s H _. exact H. Qed.

Lemma stays_get : stays_unavailable (@get LR).
Proof. intros s H _. exact H. Qed.

Lemma stays_emit (c : Call.t) : stays_unavailable (@emit LR c).
Proof. intros s H _. exact H. Qed.

Lemma stays_modify (g : Scheduler LR -> Scheduler LR) :
  (forall s, mHWVsyncAvailable (g s) = mHWVsyncAvailable s) ->
  stays_unavailable (modify g).
Proof. intros Hg s H _. unfold modify, state; simpl. now rewrite Hg. Qed.

Lemma stays_bind {A B} (m : M LR A) (k : A -> M LR B) :
  stays_unavailable m -> (forall a, stays_unavailable (k a)) ->
  stays_unavailable (bind m k).
Proof.
  intros Hm Hk s Hs. unfold bind.
  specialize (Hm s Hs). destruct (m s) as [[a s1] t1].
  specialize (Hk a s1). destruct (k a s1) as [[b s2] t2].
  unfold state, trace in *; simpl in *.
  rewrite makes_available_app, orb_false_iff. intros [H1 H2]. auto.
Qed.

Lemma stays_resyncToHardwareVsync (makeAvailable force : bool) (period : nsecs_t) :
  stays_unavailable (@resyncToHardwareVsync LR makeAvailable period force).
Proof.
  intros s Hs. unfold makes_available. rewrite resyncToHardwareVsync_trace. simpl.
  rewrite orb_false_r. intros ->.
  unfold resyncToHardwareVsync, bind, get, emit, state; simpl. now rewrite Hs.
Qed.
End StaysUnavailable.

Create HintDb stays.
#[export] Hint Resolve stays_ret stays_get stays_emit stays_resyncToHardwareVsync : stays.

Ltac stays_step :=
  lazymatch goal with
  | |- stays_unavailable (bind _ _) => apply stays_bind; [| intros ?]
  | |- stays_unavailable (modify _) => apply stays_modify; intros; reflexivity
  | |- stays_unavailable (if ?b then _ else _) => destruct b
  | |- stays_unavailable (match ?o with Some _ => _ | None => _ end) => destruct o
  | |- stays_unavailable (let _ := _ in _) => cbv zeta
  | |- stays_unavailable _ => solve [auto with stays]
  end.

Ltac stays := repeat stays_step.

Section StaysMethods.
Context {LR : Type} (D : Decls).
Implicit Type configs : RefreshRateConfigs.t LR.

Lemma stays_with_thread h call : stays_unavailable (@with_thread LR h call).
Proof. unfold with_thread. stays. Qed.
Hint Resolve stays_with_thread : stays.

Lemma stays_createConnection t r : stays_unavailable (@createConnection LR D t r).
Proof. unfold createConnection. stays. Qed.
Hint Resolve stays_createConnection : stays.

Lemma stays_enableVSyncInjection e : stays_unavailable (@enableVSyncInjection LR D e).
Proof. unfold enableVSyncInjection. stays. Qed.

Lemma stays_enableHardwareVsync : stays_unavailable (@enableHardwareVsync LR).
Proof. unfold enableHardwareVsync. stays. Qed.

Lemma stays_disableHardwareVsync u : stays_unavailable (@disableHardwareVsync LR u).
Proof.
  intros s Hs _. unfold disableHardwareVsync, bind, get, state; simpl.
  destruct (mPrimaryHWVsyncEnabled s), u; simpl; auto.
Qed.
Hint Resolve stays_enableHardwareVsync stays_disableHardwareVsync : stays.

Lemma stays_setVsyncPeriod p f : stays_unavailable (@setVsyncPeriod LR p f).
Proof. unfold setVsyncPeriod. stays. Qed.

Lemma stays_resync configs now : stays_unavailable (resync D configs now).
Proof. unfold resync. stays. Qed.
Hint Resolve stays_resync : stays.

Lemma stays_resyncAndRefresh configs now : stays_unavailable (resyncAndRefresh D configs now).
Proof. unfold resyncAndRefresh. stays. Qed.

Lemma stays_addResyncSample t h n f : stays_unavailable (@addResyncSample LR t h n f).
Proof. unfold addResyncSample. stays. Qed.

Lemma stays_addPresentFence n : stays_unavailable (@addPresentFence LR n).
Proof. unfold addPresentFence. stays. Qed.

Lemma stays_updateFrameRateOverrides configs cs r :
  stays_unavailable (updateFrameRateOverrides D configs cs r).
Proof. unfold updateFrameRateOverrides. stays. Qed.

Lemma stays_dispatchCachedReportedMode configs :
  stays_unavailable (dispatchCachedReportedMode configs).
Proof. unfold dispatchCachedReportedMode, onNonPrimaryDisplayModeChanged. stays. Qed.
Hint Resolve stays_updateFrameRateOverrides stays_dispatchCachedReportedMode : stays.

Lemma stays_chooseRefreshRateForContent configs host summary :
  stays_unavailable (chooseRefreshRateForContent D configs host summary).
Proof. unfold chooseRefreshRateForContent. stays. Qed.

Lemma stays_handleTimerStateChanged {T} (eqb : T -> T -> bool) cur assign configs host v :
  stays_unavailable (handleTimerStateChanged D eqb cur assign configs host v).
Proof. unfold handleTimerStateChanged. stays. Qed.
Hint Resolve stays_handleTimerStateChanged : stays.

Lemma stays_kernelIdleTimerCallback configs st :
  stays_unavailable (kernelIdleTimerCallback D configs st).
Proof. unfold kernelIdleTimerCallback. stays. Qed.

Lemma stays_run_op (op : Op LR) : stays_unavailable (run_op D op).
Proof.
  pose proof stays_enableVSyncInjection. pose proof stays_setVsyncPeriod.
  pose proof stays_resyncAndRefresh. pose proof stays_addResyncSample.
  pose proof stays_addPresentFence. pose proof stays_chooseRefreshRateForContent.
  pose proof stays_kernelIdleTimerCallback.
  destruct op; cbn [run_op];
    unfold discard, createConnection_named, onHotplugReceived, onScreenAcquired,
      onScreenReleased, onFrameRateOverridesChanged, onPrimaryDisplayModeChanged,
      onNonPrimaryDisplayModeChanged, setDuration, injectVSync, setIgnorePresentFences,
      setModeChangePending, resetIdleTimer, notifyTouchEvent, setDisplayPowerState,
      idleTimerCallback, touchTimerCallback, displayPowerTimerCallback, getPreferredModeId,
      onNewVsyncPeriodChangeTimeline, onDisplayRefreshed, onPrimaryDisplayAreaChanged,
      setPreferredRefreshRateForUid, setIdleState, updateThermalFps;
    stays.
Qed.

Lemma stays_run_ops (ops : list (Op LR)) : stays_unavailable (run_ops D ops).
Proof.
  induction ops as [| op ops IH]; cbn [run_ops].
  - apply stays_ret.
  - apply stays_bind; [apply stays_run_op | intros _; exact IH].
Qed.
End StaysMethods.

(** C6: after [disableHardwareVsync(true)] the availability flag is false,
    and through any sequence of method calls it stays false, and
    [enableHardwareVsync] stays a no-op (no tracker reset, no
    [setVsyncEnabled(true)], the enabled flag not set), as long as
    [resyncToHardwareVsync] is not entered with [makeAvailable = true], which
    sets the flag again.  [enableHardwareVsync] acts only when hardware vsync
    is not enabled and is available. *)
Theorem C6_enableHardwareVsync_noop_while_unavailable {LR : Type} (D : Decls)
        (s : Scheduler LR) (ops : list (Op LR)) :
  makes_available (trace (run_ops D ops (state (disableHardwareVsync true s)))) = false ->
  mHWVsyncAvailable (state (disableHardwareVsync true s)) = false
  /\ mHWVsyncAvailable (state (run_ops D ops (state (disableHardwareVsync true s)))) = false
  /\ enableHardwareVsync (state (run_ops D ops (state (disableHardwareVsync true s))))
     = (tt, state (run_ops D ops (state (disableHardwareVsync true s))), [])
  /\ (forall (s' : Scheduler LR) period force,
         mHWVsyncAvailable (state (resyncToHardwareVsync true period force s')) = true)
  /\ (forall s' : Scheduler LR,
         enableHardwareVsync s'
         = if negb (mPrimaryHWVsyncEnabled s') && mHWVsyncAvailable s'
           then (tt, set_mPrimaryHWVsyncEnabled true s',
                 [Call.tracker_resetModel; Call.setVsyncEnabled true])
           else (tt, s', [])).
Proof.
  intros Hno.
  pose proof (disableHardwareVsync_true s) as [Hoff _].
  pose proof (stays_run_ops D ops _ Hoff Hno) as Hstill.
  split; [exact Hoff |]. split; [exact Hstill |].
  split; [| split].
  - rewrite enableHardwareVsync_spec, Hstill, andb_false_r. reflexivity.
  - intros. apply resyncToHardwareVsync_makes_available.
  - apply enableHardwareVsync_spec.
Qed.

Lemma C6_noop_witness :
  enableHardwareVsync
    (state (run_ops Sample.decls ops_C6 (state (disableHardwareVsync true Sample.scheduler))))
  = (tt, state (run_ops Sample.decls ops_C6
                  (state (disableHardwareVsync true Sample.scheduler))), []).
Proof.
  apply (C6_enableHardwareVsync_noop_while_unavailable Sample.decls Sample.scheduler ops_C6).
  vm_compute. reflexivity.
Defined.

(** ** Vsync injection *)

Section Injection.
Context {LR : Type} (D : Decls).
Implicit Type s : Scheduler LR.

Lemma enableVSyncInjection_same s (enable : bool) :
  mInjectVSyncs s = enable ->
  enableVSyncInjection D enable s = (ConnectionHandle_default D, s, []).
Proof.
  intros H. unfold enableVSyncInjection, bind, get; simpl.
  rewrite H, eqb_reflx. reflexivity.
Qed.

Lemma enableVSyncInjection_sets s (enable : bool) :
  mInjectVSyncs (state (enableVSyncInjection D enable s)) = enable.
Proof.
  destruct (Bool.eqb (mInjectVSyncs s) enable) eqn:E.
  - apply eqb_prop in E. now rewrite enableVSyncInjection_same.
  - unfold enableVSyncInjection, bind, get, state; simpl. rewrite E.
    now destruct (negb (ConnectionHandle_valid D (mInjectorConnectionHandle s))).
Qed.
End Injection.

(** C7, as stated, fails: the first [enableVSyncInjection(true)] on a fresh
    Scheduler creates connection 0 and returns its handle; the second changes
    nothing and returns a default-constructed handle, which is not the
    handle the first call returned. *)
Lemma C7_counterexample :
  let r1 := enableVSyncInjection Sample.decls true Sample.scheduler in
  let r2 := enableVSyncInjection Sample.decls true (state r1) in
  result r1 = ConnectionHandle.mk 0
  /\ result r2 = ConnectionHandle.mk (2 ^ 64 - 1)
  /\ result r2 <> result r1.
Proof.
  split; [reflexivity |]. split; [reflexivity |]. intros H. discriminate H.
Qed.

(** C7, amended: the second of two [enableVSyncInjection(true)] calls in a
    row is a no-op: it changes no state, so it constructs no event thread
    and no connection and leaves injection enabled, and it calls no
    collaborator.  It returns a default-constructed (invalid) handle.  That
    is the handle the first call returned exactly when the first call
    returned an invalid handle itself, as it does when injection was on
    before it; when the first call returned a valid handle, as it does when
    it switched injection on (the id it hands out not being [INVALID_ID]),
    the second call's handle is not the first's. *)
Theorem C7_enableVSyncInjection_twice {LR : Type} (D : Decls) (s : Scheduler LR) :
  let r1 := enableVSyncInjection D true s in
  let r2 := enableVSyncInjection D true (state r1) in
  state r2 = state r1
  /\ trace r2 = []
  /\ mInjectVSyncs (state r2) = true
  /\ result r2 = ConnectionHandle_default D
  /\ ConnectionHandle_valid D (result r2) = false
  /\ (result r2 = result r1 <-> ConnectionHandle_valid D (result r1) = false)
  /\ (ConnectionHandle_valid D (result r1) = true -> result r2 <> result r1)
  /\ (mInjectVSyncs s = true -> result r2 = result r1)
  /\ (mInjectVSyncs s = false ->
      mNextConnectionHandleId s <> INVALID_ID D ->
      ConnectionHandle_valid D (result r1) = true).
Proof.
  intros r1 r2.
  assert (Hon : mInjectVSyncs (state r1) = true) by apply enableVSyncInjection_sets.
  assert (H2 : r2 = (ConnectionHandle_default D, state r1, []))
    by (apply enableVSyncInjection_same; exact Hon).
  assert (Hinv : ConnectionHandle_valid D (ConnectionHandle_default D) = false)
    by (unfold ConnectionHandle_valid, ConnectionHandle_default; simpl;
        now rewrite N.eqb_refl).
  assert (Hdef : forall h, ConnectionHandle_valid D h = false -> h = ConnectionHandle_default D).
  { intros [k]. unfold ConnectionHandle_valid, ConnectionHandle_default; simpl.
    rewrite negb_false_iff, N.eqb_eq. now intros ->. }
  rewrite H2.
  change (state (ConnectionHandle_default D, state r1, @nil Call.t)) with (state r1).
  change (result (ConnectionHandle_default D, state r1, @nil Call.t))
    with (ConnectionHandle_default D).
  split; [reflexivity |]. split; [reflexivity |]. split; [exact Hon |].
  split; [reflexivity |]. split; [exact Hinv |].
  split; [| split; [| split]].
  - split.
    + intros <-. exact Hinv.
    + intros Hv. symmetry. now apply Hdef.
  - intros Hv Heq. rewrite <- Heq, Hinv in Hv. discriminate Hv.
  - intros Hs. subst r1. now rewrite enableVSyncInjection_same.
  - intros Hoff Hnext. subst r1.
    unfold enableVSyncInjection, createConnection, bind, get, modify, emit, ret, result.
    rewrite Hoff. simpl.
    destruct (ConnectionHandle_valid D (mInjectorConnectionHandle s)) eqn:Hv; simpl.
    + exact Hv.
    + unfold ConnectionHandle_valid. simpl.
      now rewrite negb_true_iff, N.eqb_neq.
Qed.

(** ** Mode selection *)

Arguments calculateRefreshRateModeId : simpl never.
Arguments to_int32 : simpl never.
Arguments Qltb : simpl never.
Arguments updateFrameRateOverrides : simpl never.
Arguments dispatchCachedReportedMode : simpl never.
Arguments replay_of : simpl never.

Ltac split_on_condition :=
  match goal with
  | |- context [if ?c then _ else _] =>
      lazymatch c with
      | context [if _ then _ else _] => fail
      | _ => destruct c eqn:?
      end
  end.

Lemma changeRefreshRate_calls_app (t1 t2 : list Call.t) :
  changeRefreshRate_calls (t1 ++ t2) = changeRefreshRate_calls t1 ++ changeRefreshRate_calls t2.
Proof. apply flat_map_app. Qed.

Lemma onModeChanged_calls_app (t1 t2 : list Call.t) :
  onModeChanged_calls (t1 ++ t2) = onModeChanged_calls t1 ++ onModeChanged_calls t2.
Proof. apply flat_map_app. Qed.

Lemma optional_is_true (opt : option DisplayModeId) (m : DisplayModeId) :
  optional_is opt m = true <-> opt = Some m.
Proof.
  destruct opt as [x |]; simpl; [| split; discriminate].
  rewrite Z.eqb_eq. split; congruence.
Qed.

Lemma aboveThermalFps_true {LR} (s : Scheduler LR) (r : RefreshRate.t) :
  aboveThermalFps s r = true
  <-> (0 < mThermalFps s)%Q /\ to_int32 (mThermalFps s) < to_int32 (RefreshRate.getFps r).
Proof. unfold aboveThermalFps. now rewrite andb_true_iff, Qltb_true, Z.ltb_lt. Qed.

Section ModeSelection.
Context {LR : Type} (D : Decls).
Implicit Type s : Scheduler LR.
Implicit Type configs : RefreshRateConfigs.t LR.

Lemma updateFrameRateOverrides_cases configs cs fps s :
  exists b s', updateFrameRateOverrides D configs cs fps s = (b, s', [])
               /\ (s' = s \/ exists x, s' = set_mFrameRateOverridesByContent x s).
Proof.
  unfold updateFrameRateOverrides, bind, get, modify, ret.
  destruct (negb (RefreshRateConfigs.supportsFrameRateOverride configs)); [eauto |].
  destruct (negb (GlobalSignals.idle cs)); [| eauto].
  destruct (negb (std_equal _ _ _)); simpl; eauto 6.
Qed.

Lemma dispatchCachedReportedMode_cases configs s m :
  Features.modeId (mFeatures s) = Some m ->
  exists s' t,
    dispatchCachedReportedMode configs s = (tt, s', t)
    /\ onModeChanged_calls t = replay_of configs s m
    /\ changeRefreshRate_calls t = []
    /\ (s' = s
        \/ exists c, s' = set_mFeatures
                           (Features.set_cachedModeChangedParams c (mFeatures s)) s).
Proof.
  intros Hm.
  unfold dispatchCachedReportedMode, onNonPrimaryDisplayModeChanged, with_thread, replay_of,
    bind, get, modify, ret, emit.
  rewrite Hm.
  destruct (Features.cachedModeChangedParams (mFeatures s)) as [cached |] eqn:Hc;
    [| eauto 8].
  destruct (RefreshRate.getModeId (RefreshRateConfigs.getCurrentRefreshRate configs) =? m);
    simpl; [| destruct (mConnections s !! _); eauto 8].
  destruct ((m =? ModeChangedParams.modeId cached) && _); simpl;
    [destruct (mConnections s !! _); eauto 8 |].
  destruct (mConnections s !! _); simpl; eauto 10.
Qed.

(** The inputs of [calculateRefreshRateModeId]. *)
Lemma calculateRefreshRateModeId_ext configs s s' :
  mDisplayPowerTimer s = mDisplayPowerTimer s' ->
  mTouchTimer s = mTouchTimer s' ->
  mIdleTimer s = mIdleTimer s' ->
  Features.isDisplayPowerStateNormal (mFeatures s)
  = Features.isDisplayPowerStateNormal (mFeatures s') ->
  Features.displayPowerTimer (mFeatures s) = Features.displayPowerTimer (mFeatures s') ->
  Features.touch (mFeatures s) = Features.touch (mFeatures s') ->
  Features.idleTimer (mFeatures s) = Features.idleTimer (mFeatures s') ->
  Features.contentRequirements (mFeatures s) = Features.contentRequirements (mFeatures s') ->
  calculateRefreshRateModeId configs s = calculateRefreshRateModeId configs s'.
Proof.
  intros H1 H2 H3 H4 H5 H6 H7 H8. unfold calculateRefreshRateModeId.
  now rewrite H1, H2, H3, H4, H5, H6, H7, H8.
Qed.

Section Handle.
Context {T : Type} (eqb : T -> T -> bool) (cur : Features.t LR -> T)
        (assign : T -> Features.t LR -> Features.t LR).
Variables (configs : RefreshRateConfigs.t LR) (host : Host) (v : T) (s : Scheduler LR).

Local Abbreviation s0 := (set_mFeatures (assign v (mFeatures s)) s).
Local Abbreviation nm := ((calculateRefreshRateModeId configs s0).1).
Local Abbreviation cs := ((calculateRefreshRateModeId configs s0).2).
Local Abbreviation rr := (RefreshRateConfigs.getRefreshRateFromModeId configs nm).

Lemma handle_unchanged :
  eqb (cur (mFeatures s)) v = true ->
  handleTimerStateChanged D eqb cur assign configs host v s = (false, s, []).
Proof.
  intros H. unfold handleTimerStateChanged, bind, get, ret. now rewrite H.
Qed.

(** The whole run in closed form. *)
Lemma handle_run :
  eqb (cur (mFeatures s)) v = false ->
  exists b s1,
    updateFrameRateOverrides D configs cs (RefreshRate.getFps rr) s0 = (b, s1, [])
    /\ (s1 = s0 \/ exists x, s1 = set_mFrameRateOverridesByContent x s0)
    /\ handleTimerStateChanged D eqb cur assign configs host v s
       = if optional_is (Features.modeId (mFeatures s0)) nm then
           let d := if GlobalSignals.idle cs then (tt, s1, [])
                    else dispatchCachedReportedMode configs s1 in
           (GlobalSignals.touch cs, state d,
            trace d ++ if b then [Call.triggerOnFrameRateOverridesChanged] else [])
         else
           (GlobalSignals.touch cs,
            set_mFeatures
              (Features.set_modeId
                 (Some (if aboveThermalFps s0 rr then modeFromFps host (mThermalFps s0)
                        else nm))
                 (mFeatures s1)) s1,
            (if aboveThermalFps s0 rr then
               [Call.getModeFromFps (mThermalFps s0);
                Call.getModeFromFps (mThermalFps s0);
                Call.changeRefreshRate
                  (RefreshRateConfigs.getRefreshRateFromModeId configs
                     (modeFromFps host (mThermalFps s0)))
                  (event_for cs)]
             else [Call.changeRefreshRate rr (event_for cs)])
            ++ if b then [Call.triggerOnFrameRateOverridesChanged] else []).
Proof.
  intros Hne.
  destruct (updateFrameRateOverrides_cases configs cs (RefreshRate.getFps rr) s0)
    as (b & s1 & Hup & Hs1).
  exists b, s1. split; [exact Hup |]. split; [exact Hs1 |].
  unfold handleTimerStateChanged, bind, get, modify, emit, ret. rewrite Hne.
  fold s0. fold nm. fold cs. fold rr. rewrite Hup.
  assert (Hmode : Features.modeId (mFeatures s1) = Features.modeId (mFeatures s0))
    by (destruct Hs1 as [-> | [x ->]]; reflexivity).
  assert (Hab : forall r, aboveThermalFps s1 r = aboveThermalFps s0 r)
    by (destruct Hs1 as [-> | [x ->]]; reflexivity).
  assert (Hth : mThermalFps s1 = mThermalFps s0)
    by (destruct Hs1 as [-> | [x ->]]; reflexivity).
  rewrite Hmode.
  destruct (optional_is (Features.modeId (mFeatures s0)) nm).
  - destruct (GlobalSignals.idle cs); simpl.
    + destruct b; reflexivity.
    + destruct (dispatchCachedReportedMode configs s1) as [[[] s2] t2]; simpl.
      destruct b; simpl; now rewrite ?app_nil_r.
  - rewrite Hab.
    destruct (aboveThermalFps s0 rr) eqn:Habove; simpl;
      unfold aboveThermalFps in *; simpl; rewrite Hth, Habove; simpl;
      destruct b; reflexivity.
Qed.

Lemma handle_equal :
  eqb (cur (mFeatures s)) v = false ->
  optional_is (Features.modeId (mFeatures s0)) nm = true ->
  let r := handleTimerStateChanged D eqb cur assign configs host v s in
  changeRefreshRate_calls (trace r) = []
  /\ onModeChanged_calls (trace r)
     = (if GlobalSignals.idle cs then [] else replay_of configs s0 nm)
  /\ Features.modeId (mFeatures (state r)) = Some nm.
Proof.
  intros Hne Heq r. subst r.
  destruct (handle_run Hne) as (b & s1 & _ & Hs1 & ->). rewrite Heq.
  apply optional_is_true in Heq.
  assert (Hmode : Features.modeId (mFeatures s1) = Some nm)
    by (destruct Hs1 as [-> | [x ->]]; exact Heq).
  assert (Hrep : replay_of configs s1 nm = replay_of configs s0 nm)
    by (destruct Hs1 as [-> | [x ->]]; reflexivity).
  cbv zeta. destruct (GlobalSignals.idle cs).
  - unfold trace, state; simpl. destruct b; auto.
  - destruct (dispatchCachedReportedMode_cases configs s1 nm Hmode)
      as (s2 & t & -> & Hrp & Hch & Hs2).
    unfold trace, state; simpl.
    rewrite changeRefreshRate_calls_app, onModeChanged_calls_app, Hch, Hrp, Hrep.
    destruct Hs2 as [-> | [c ->]]; destruct b; simpl; rewrite ?app_nil_r; auto.
Qed.

Lemma handle_differ :
  eqb (cur (mFeatures s)) v = false ->
  optional_is (Features.modeId (mFeatures s0)) nm = false ->
  let r := handleTimerStateChanged D eqb cur assign configs host v s in
  let adopted := if aboveThermalFps s0 rr then modeFromFps host (mThermalFps s0) else nm in
  changeRefreshRate_calls (trace r)
  = [(RefreshRateConfigs.getRefreshRateFromModeId configs adopted, event_for cs)]
  /\ onModeChanged_calls (trace r) = []
  /\ Features.modeId (mFeatures (state r)) = Some adopted.
Proof.
  intros Hne Hdiff r adopted. subst r adopted.
  destruct (handle_run Hne) as (b & s1 & _ & Hs1 & ->). rewrite Hdiff.
  unfold trace, state; simpl.
  rewrite changeRefreshRate_calls_app, onModeChanged_calls_app.
  destruct (aboveThermalFps s0 rr), b; simpl; auto.
Qed.

(** A run leaves the inputs of the next calculation as they are. *)
Lemma handle_inputs :
  eqb (cur (mFeatures s)) v = false ->
  let s' := state (handleTimerStateChanged D eqb cur assign configs host v s) in
  mThermalFps s' = mThermalFps s
  /\ forall summary,
      calculateRefreshRateModeId configs
        (set_mFeatures (Features.set_contentRequirements summary (mFeatures s')) s')
      = calculateRefreshRateModeId configs
          (set_mFeatures (Features.set_contentRequirements summary (mFeatures s0)) s0).
Proof.
  intros Hne s'. subst s'.
  destruct (handle_run Hne) as (b & s1 & _ & Hs1 & ->).
  destruct (optional_is (Features.modeId (mFeatures s0)) nm) eqn:Heq.
  - apply optional_is_true in Heq.
    assert (Hmode : Features.modeId (mFeatures s1) = Some nm)
      by (destruct Hs1 as [-> | [x ->]]; exact Heq).
    cbv zeta. destruct (GlobalSignals.idle cs).
    + unfold state; simpl. destruct Hs1 as [-> | [x ->]]; split; try reflexivity;
        intros; apply calculateRefreshRateModeId_ext; reflexivity.
    + destruct (dispatchCachedReportedMode_cases configs s1 nm Hmode)
        as (s2 & t & -> & _ & _ & Hs2).
      unfold state; simpl.
      destruct Hs2 as [-> | [c ->]]; destruct Hs1 as [-> | [x ->]];
        split; try reflexivity;
        intros; apply calculateRefreshRateModeId_ext; reflexivity.
  - unfold state; simpl. destruct Hs1 as [-> | [x ->]]; split; try reflexivity;
      intros; apply calculateRefreshRateModeId_ext; reflexivity.
Qed.
End Handle.

Lemma choose_as_handle configs host summary s :
  RefreshRateConfigs.canSwitch configs = true ->
  chooseRefreshRateForContent D configs host summary s
  = let r := handleTimerStateChanged D (fun _ _ => false) Features.contentRequirements
               Features.set_contentRequirements configs host summary s in
    (tt, state r, trace r).
Proof.
  intros Hc. unfold chooseRefreshRateForContent, handleTimerStateChanged.
  rewrite Hc. unfold bind, get, modify, emit, ret, trace, state. simpl.
  destruct (updateFrameRateOverrides _ _ _ _ _) as [[b s1] t1]. simpl.
  repeat (split_on_condition; simpl).
  all: try reflexivity.
  all: destruct (dispatchCachedReportedMode _ _) as [[[] s2] t2]; simpl.
  all: rewrite ?app_nil_r; reflexivity.
Qed.

Lemma choose_cannot_switch configs host summary s :
  RefreshRateConfigs.canSwitch configs = false ->
  chooseRefreshRateForContent D configs host summary s = (tt, s, []).
Proof. intros Hc. unfold chooseRefreshRateForContent. now rewrite Hc. Qed.
End ModeSelection.

Section Reselection.
Context {LR : Type} (D : Decls).
Implicit Type s : Scheduler LR.
Implicit Type configs : RefreshRateConfigs.t LR.

Lemma choose_equal configs host summary s :
  RefreshRateConfigs.canSwitch configs = true ->
  let nm := (calculateRefreshRateModeId configs (with_content summary s)).1 in
  let cs := (calculateRefreshRateModeId configs (with_content summary s)).2 in
  let r := chooseRefreshRateForContent D configs host summary s in
  optional_is (Features.modeId (mFeatures s)) nm = true ->
  changeRefreshRate_calls (trace r) = []
  /\ onModeChanged_calls (trace r)
     = (if GlobalSignals.idle cs then [] else replay_of configs s nm)
  /\ Features.modeId (mFeatures (state r)) = Some nm.
Proof.
  intros Hc nm cs r Heq. subst r. rewrite choose_as_handle by exact Hc.
  exact (handle_equal D (fun _ _ => false) Features.contentRequirements
           Features.set_contentRequirements configs host summary s eq_refl Heq).
Qed.

Lemma choose_differ configs host summary s :
  RefreshRateConfigs.canSwitch configs = true ->
  let nm := (calculateRefreshRateModeId configs (with_content summary s)).1 in
  let cs := (calculateRefreshRateModeId configs (with_content summary s)).2 in
  let rr := RefreshRateConfigs.getRefreshRateFromModeId configs nm in
  let r := chooseRefreshRateForContent D configs host summary s in
  let adopted := if aboveThermalFps s rr then modeFromFps host (mThermalFps s) else nm in
  optional_is (Features.modeId (mFeatures s)) nm = false ->
  changeRefreshRate_calls (trace r)
  = [(RefreshRateConfigs.getRefreshRateFromModeId configs adopted, event_for cs)]
  /\ onModeChanged_calls (trace r) = []
  /\ Features.modeId (mFeatures (state r)) = Some adopted.
Proof.
  intros Hc nm cs rr r adopted Hdiff. subst r. rewrite choose_as_handle by exact Hc.
  exact (handle_differ D (fun _ _ => false) Features.contentRequirements
           Features.set_contentRequirements configs host summary s eq_refl Hdiff).
Qed.

Lemma choose_twice configs host summary s :
  let nm := (calculateRefreshRateModeId configs (with_content summary s)).1 in
  let rr := RefreshRateConfigs.getRefreshRateFromModeId configs nm in
  let r1 := chooseRefreshRateForContent D configs host summary s in
  let r2 := chooseRefreshRateForContent D configs host summary (state r1) in
  aboveThermalFps s rr = false ->
  changeRefreshRate_calls (trace r2) = []
  /\ (length (changeRefreshRate_calls (trace r1 ++ trace r2)) <= 1)%nat.
Proof.
  intros nm rr r1 r2 Hab.
  destruct (RefreshRateConfigs.canSwitch configs) eqn:Hc.
  2:{ subst r1 r2. rewrite !choose_cannot_switch by exact Hc.
      unfold state, trace; simpl. rewrite ?choose_cannot_switch by exact Hc.
      simpl. split; [reflexivity | lia]. }
  assert (Hcalc : calculateRefreshRateModeId configs (with_content summary (state r1))
                  = calculateRefreshRateModeId configs (with_content summary s)).
  { subst r1. rewrite choose_as_handle by exact Hc.
    destruct (handle_inputs D (fun _ _ => false) Features.contentRequirements
                Features.set_contentRequirements configs host summary s eq_refl) as [_ H].
    unfold with_content. cbv zeta. unfold state at 1 2; simpl. rewrite H.
    apply calculateRefreshRateModeId_ext; reflexivity. }
  assert (H1 : Features.modeId (mFeatures (state r1)) = Some nm
               /\ (length (changeRefreshRate_calls (trace r1)) <= 1)%nat).
  { destruct (optional_is (Features.modeId (mFeatures s)) nm) eqn:Heq.
    - destruct (choose_equal configs host summary s Hc Heq) as (Hch & _ & Hm).
      fold r1 in Hch, Hm. rewrite Hch. split; [exact Hm | simpl; lia].
    - destruct (choose_differ configs host summary s Hc Heq) as (Hch & _ & Hm).
      fold nm rr r1 in Hch, Hm. rewrite Hab in Hm. rewrite Hch.
      split; [exact Hm | simpl; lia]. }
  destruct H1 as [Hm Hlen].
  assert (H2 : changeRefreshRate_calls (trace r2) = []).
  { apply (choose_equal configs host summary (state r1) Hc).
    rewrite Hcalc. fold nm. now apply optional_is_true. }
  split; [exact H2 |].
  rewrite changeRefreshRate_calls_app, H2, app_nil_r. exact Hlen.
Qed.

Lemma handle_twice {T} (eqb : T -> T -> bool) (cur : Features.t LR -> T)
      (assign : T -> Features.t LR -> Features.t LR) configs host (v : T) s :
  (forall x, eqb x x = true) ->
  (forall f, cur (assign v f) = v) ->
  (forall m f, cur (Features.set_modeId m f) = cur f) ->
  (forall c f, cur (Features.set_cachedModeChangedParams c f) = cur f) ->
  let r1 := handleTimerStateChanged D eqb cur assign configs host v s in
  let r2 := handleTimerStateChanged D eqb cur assign configs host v (state r1) in
  r2 = (false, state r1, [])
  /\ (length (changeRefreshRate_calls (trace r1 ++ trace r2)) <= 1)%nat.
Proof.
  intros Hrefl Hget Hmode Hcache r1 r2.
  assert (Hcur : eqb (cur (mFeatures (state r1))) v = true
                 /\ (length (changeRefreshRate_calls (trace r1)) <= 1)%nat).
  { subst r1 r2. destruct (eqb (cur (mFeatures s)) v) eqn:Hne.
    - rewrite handle_unchanged by exact Hne. unfold state, trace; simpl.
      split; [exact Hne | lia].
    - split.
      + destruct (handle_run D eqb cur assign configs host v s Hne)
          as (b & s1 & _ & Hs1 & ->).
        set (s0 := set_mFeatures (assign v (mFeatures s)) s) in *.
        assert (Hf1 : mFeatures s1 = assign v (mFeatures s))
          by (destruct Hs1 as [-> | [x ->]]; reflexivity).
        destruct (optional_is (Features.modeId (mFeatures s0)) _) eqn:Heq.
        * apply optional_is_true in Heq. cbv zeta.
          destruct (GlobalSignals.idle (calculateRefreshRateModeId configs s0).2).
          { unfold state; simpl. now rewrite Hf1, Hget. }
          assert (Hm1 : Features.modeId (mFeatures s1)
                        = Some (calculateRefreshRateModeId configs s0).1)
            by (rewrite Hf1; exact Heq).
          destruct (dispatchCachedReportedMode_cases configs s1 _ Hm1)
            as (s2 & t & -> & _ & _ & Hs2).
          unfold state; simpl.
          destruct Hs2 as [-> | [c ->]]; simpl; now rewrite ?Hcache, Hf1, Hget.
        * unfold state; simpl. now rewrite Hmode, Hf1, Hget.
      + destruct (optional_is
                    (Features.modeId (mFeatures (set_mFeatures (assign v (mFeatures s)) s)))
                    (calculateRefreshRateModeId configs
                       (set_mFeatures (assign v (mFeatures s)) s)).1) eqn:Heq.
        * destruct (handle_equal D eqb cur assign configs host v s Hne Heq) as (-> & _).
          simpl; lia.
        * destruct (handle_differ D eqb cur assign configs host v s Hne Heq) as (-> & _).
          simpl; lia. }
  destruct Hcur as [Hcur Hlen].
  assert (H2 : r2 = (false, state r1, [])) by (apply handle_unchanged; exact Hcur).
  split; [exact H2 |].
  rewrite H2. unfold trace at 2; simpl. now rewrite app_nil_r.
Qed.
End Reselection.

(** ** The claims on mode selection *)

(** C2, as stated, fails: the cap is 90, the policy picks the 90.5 Hz mode,
    whose rate is greater than the cap, and the last mode was another one;
    the mode adopted and reported is the policy's, not the host's mode for
    90. *)
Lemma C2_counterexample :
  let configs := Sample.policy false Sample.rate60 Sample.rate90_5 in
  let r := chooseRefreshRateForContent Sample.decls configs Sample.host [] scheduler_thermal90 in
  (0 < mThermalFps scheduler_thermal90)%Q
  /\ (mThermalFps scheduler_thermal90 < RefreshRate.getFps Sample.rate90_5)%Q
  /\ Features.modeId (mFeatures scheduler_thermal90) = Some 0
  /\ modeFromFps Sample.host (mThermalFps scheduler_thermal90) = 1
  /\ Features.modeId (mFeatures (state r)) = Some 3
  /\ trace r = [Call.changeRefreshRate Sample.rate90_5 ModeEvent_Changed].
Proof. repeat split; reflexivity. Qed.

(** C2, amended: in a mode-selection run whose calculated mode differs from
    the stored one, the cap applies when [thermalFps > 0] and the integer
    part of the calculated mode's rate is greater than the integer part of
    [thermalFps]; then the mode adopted and the mode reported by the one
    [changeRefreshRate] call are the host's [getModeFromFps(thermalFps)].
    Otherwise the calculated mode is adopted and reported.  This holds for
    [chooseRefreshRateForContent] and for [handleTimerStateChanged], for
    rates within the range of [int32_t], where the casts are defined. *)
Theorem C2_thermal_clamp {LR : Type} (D : Decls) (configs : RefreshRateConfigs.t LR)
        (host : Host) (s : Scheduler LR) :
  fits_int32 (mThermalFps s) ->
  (forall m, fits_int32
               (RefreshRate.getFps (RefreshRateConfigs.getRefreshRateFromModeId configs m))) ->
  (forall summary,
      let nm := (calculateRefreshRateModeId configs (with_content summary s)).1 in
      let cs := (calculateRefreshRateModeId configs (with_content summary s)).2 in
      let rr := RefreshRateConfigs.getRefreshRateFromModeId configs nm in
      let r := chooseRefreshRateForContent D configs host summary s in
      let capped := modeFromFps host (mThermalFps s) in
      RefreshRateConfigs.canSwitch configs = true ->
      optional_is (Features.modeId (mFeatures s)) nm = false ->
      ((0 < mThermalFps s)%Q /\ to_int32 (mThermalFps s) < to_int32 (RefreshRate.getFps rr) ->
       Features.modeId (mFeatures (state r)) = Some capped
       /\ changeRefreshRate_calls (trace r)
          = [(RefreshRateConfigs.getRefreshRateFromModeId configs capped, event_for cs)])
      /\ (~ ((0 < mThermalFps s)%Q
             /\ to_int32 (mThermalFps s) < to_int32 (RefreshRate.getFps rr)) ->
          Features.modeId (mFeatures (state r)) = Some nm
          /\ changeRefreshRate_calls (trace r) = [(rr, event_for cs)]))
  /\ (forall (T : Type) (eqb : T -> T -> bool) cur assign (v : T),
         let s0 := set_mFeatures (assign v (mFeatures s)) s in
         let nm := (calculateRefreshRateModeId configs s0).1 in
         let cs := (calculateRefreshRateModeId configs s0).2 in
         let rr := RefreshRateConfigs.getRefreshRateFromModeId configs nm in
         let r := handleTimerStateChanged D eqb cur assign configs host v s in
         let capped := modeFromFps host (mThermalFps s) in
         eqb (cur (mFeatures s)) v = false ->
         optional_is (Features.modeId (mFeatures s0)) nm = false ->
         ((0 < mThermalFps s)%Q
          /\ to_int32 (mThermalFps s) < to_int32 (RefreshRate.getFps rr) ->
          Features.modeId (mFeatures (state r)) = Some capped
          /\ changeRefreshRate_calls (trace r)
             = [(RefreshRateConfigs.getRefreshRateFromModeId configs capped, event_for cs)])
         /\ (~ ((0 < mThermalFps s)%Q
                /\ to_int32 (mThermalFps s) < to_int32 (RefreshRate.getFps rr)) ->
             Features.modeId (mFeatures (state r)) = Some nm
             /\ changeRefreshRate_calls (trace r) = [(rr, event_for cs)])).
Proof.
  intros _ _. split.
  - intros summary nm cs rr r capped Hc Hdiff.
    destruct (choose_differ D configs host summary s Hc Hdiff) as (Hcalls & _ & Hm).
    fold nm cs rr r in Hcalls, Hm.
    split; intros Hcap.
    + apply (aboveThermalFps_true s rr) in Hcap. rewrite Hcap in Hcalls, Hm. now split.
    + rewrite <- (aboveThermalFps_true s rr), not_true_iff_false in Hcap.
      rewrite Hcap in Hcalls, Hm. now split.
  - intros T eqb cur assign v s0 nm cs rr r capped Hne Hdiff.
    destruct (handle_differ D eqb cur assign configs host v s Hne Hdiff) as (Hcalls & _ & Hm).
    fold s0 nm cs rr r in Hcalls, Hm.
    change (aboveThermalFps s0 rr) with (aboveThermalFps s rr) in Hcalls, Hm.
    change (mThermalFps s0) with (mThermalFps s) in Hcalls, Hm.
    split; intros Hcap.
    + apply (aboveThermalFps_true s rr) in Hcap. rewrite Hcap in Hcalls, Hm. now split.
    + rewrite <- (aboveThermalFps_true s rr), not_true_iff_false in Hcap.
      rewrite Hcap in Hcalls, Hm. now split.
Qed.

Lemma sample_rates_fit (m : DisplayModeId) :
  fits_int32 (RefreshRate.getFps (Sample.rateOfMode m)).
Proof.
  unfold Sample.rateOfMode.
  destruct (m =? 1); [| destruct (m =? 2); [| destruct (m =? 3)]];
    vm_compute; (split; [discriminate | reflexivity]).
Defined.

(** The cap is 90 and the policy picks the 120 Hz mode: the 90 Hz mode is
    reported. *)
Lemma C2_thermal_clamp_witness :
  changeRefreshRate_calls
    (trace (chooseRefreshRateForContent Sample.decls
              (Sample.policy false Sample.rate60 Sample.rate120) Sample.host []
              scheduler_thermal90))
  = [(Sample.rate90, ModeEvent_Changed)].
Proof.
  assert (Hfit : fits_int32 (mThermalFps scheduler_thermal90))
    by (vm_compute; (split; [discriminate | reflexivity])).
  destruct (C2_thermal_clamp Sample.decls (Sample.policy false Sample.rate60 Sample.rate120)
              Sample.host scheduler_thermal90 Hfit sample_rates_fit) as [Hchoose _].
  destruct (Hchoose [] eq_refl eq_refl) as [Hcap _].
  destruct Hcap as [_ Hcalls]; [split; reflexivity | exact Hcalls].
Defined.

(** C1, as stated, fails, on two counts.  In the steady state the policy
    picks the stored mode again and considers no idle signal, cached params
    are there, and the run calls nobody: nothing is replayed.  And under a
    cap of 90 with the policy at 120 Hz, the second of two runs on the same
    inputs finds the 90 Hz mode stored, settles on the 90 Hz mode again and
    reports it again: the two runs emit two [changeRefreshRate]. *)
Lemma C1_counterexample :
  (let configs := Sample.policy false Sample.rate120 Sample.rate120 in
   let calc := calculateRefreshRateModeId configs (with_content [] scheduler_steady) in
   let r := chooseRefreshRateForContent Sample.decls configs Sample.host [] scheduler_steady in
   optional_is (Features.modeId (mFeatures scheduler_steady)) calc.1 = true
   /\ GlobalSignals.idle calc.2 = false
   /\ Features.cachedModeChangedParams (mFeatures scheduler_steady)
      = Some (ModeChangedParams.mk (ConnectionHandle.mk 0) 0 2 8333333)
   /\ trace r = [])
  /\ (let configs := Sample.policy false Sample.rate60 Sample.rate120 in
      let r1 := chooseRefreshRateForContent Sample.decls configs Sample.host []
                  scheduler_thermal90 in
      let r2 := chooseRefreshRateForContent Sample.decls configs Sample.host [] (state r1) in
      Features.modeId (mFeatures (state r1)) = Some 1
      /\ Features.modeId (mFeatures (state r2)) = Some 1
      /\ changeRefreshRate_calls (trace r2) = [(Sample.rate90, ModeEvent_Changed)]
      /\ changeRefreshRate_calls (trace r1 ++ trace r2)
         = [(Sample.rate90, ModeEvent_Changed); (Sample.rate90, ModeEvent_Changed)]).
Proof. repeat split; reflexivity. Qed.

(** C1, amended.  The claim is kept for the runs in which the thermal cap
    does not apply to the policy's choice ([mThermalFps <= 0], or the
    integer part of the choice's rate is not above that of the cap; rates
    within the range of [int32_t]), so that the newly chosen mode is the
    policy's choice; nothing is said of the other runs.  In such a run
    ([chooseRefreshRateForContent], or [handleTimerStateChanged] after a
    state change) whose newly chosen mode equals the stored mode, no
    [changeRefreshRate] is emitted, and [dispatchCachedReportedMode] is run
    exactly when [consideredSignals.idle] is false: the run ends in the
    state, and with the calls, of [dispatchCachedReportedMode] started after
    [updateFrameRateOverrides] when idle is false, and in the state
    [updateFrameRateOverrides] left, with no call of its own, when idle is
    true.  [dispatchCachedReportedMode] replays the cached params, as one
    [onModeChanged] on the thread of the cached handle, only when there are
    cached params, the handle is registered, the policy's current mode is
    the stored mode and the cached (mode, period) pair is out of date.  Two
    such [chooseRefreshRateForContent] runs in a row on the same inputs emit
    at most one [changeRefreshRate], none of them in the second run; and of
    two calls in a row of a timer's [handleTimerStateChanged] with the same
    new state the second does nothing, so that they emit at most one. *)
Theorem C1_equal_reselection {LR : Type} (D : Decls) (configs : RefreshRateConfigs.t LR)
        (host : Host) (s : Scheduler LR) :
  (forall summary,
      let s0 := with_content summary s in
      let nm := (calculateRefreshRateModeId configs s0).1 in
      let cs := (calculateRefreshRateModeId configs s0).2 in
      let rr := RefreshRateConfigs.getRefreshRateFromModeId configs nm in
      let u := updateFrameRateOverrides D configs cs (RefreshRate.getFps rr) s0 in
      let d := if GlobalSignals.idle cs then (tt, state u, [])
               else dispatchCachedReportedMode configs (state u) in
      let r := chooseRefreshRateForContent D configs host summary s in
      RefreshRateConfigs.canSwitch configs = true ->
      fits_int32 (mThermalFps s) -> fits_int32 (RefreshRate.getFps rr) ->
      aboveThermalFps s rr = false ->
      optional_is (Features.modeId (mFeatures s)) nm = true ->
      changeRefreshRate_calls (trace r) = []
      /\ r = (tt, state d,
              trace d ++ if result u then [Call.triggerOnFrameRateOverridesChanged] else [])
      /\ trace u = []
      /\ onModeChanged_calls (trace r)
         = if GlobalSignals.idle cs then [] else replay_of configs s nm)
  /\ (forall (T : Type) (eqb : T -> T -> bool) cur assign (v : T),
         let s0 := set_mFeatures (assign v (mFeatures s)) s in
         let nm := (calculateRefreshRateModeId configs s0).1 in
         let cs := (calculateRefreshRateModeId configs s0).2 in
         let rr := RefreshRateConfigs.getRefreshRateFromModeId configs nm in
         let u := updateFrameRateOverrides D configs cs (RefreshRate.getFps rr) s0 in
         let d := if GlobalSignals.idle cs then (tt, state u, [])
                  else dispatchCachedReportedMode configs (state u) in
         let r := handleTimerStateChanged D eqb cur assign configs host v s in
         eqb (cur (mFeatures s)) v = false ->
         fits_int32 (mThermalFps s) -> fits_int32 (RefreshRate.getFps rr) ->
         aboveThermalFps s rr = false ->
         optional_is (Features.modeId (mFeatures s0)) nm = true ->
         changeRefreshRate_calls (trace r) = []
         /\ r = (GlobalSignals.touch cs, state d,
                 trace d ++ if result u then [Call.triggerOnFrameRateOverridesChanged] else [])
         /\ trace u = []
         /\ onModeChanged_calls (trace r)
            = if GlobalSignals.idle cs then [] else replay_of configs s0 nm)
  /\ (forall summary,
         let nm := (calculateRefreshRateModeId configs (with_content summary s)).1 in
         let rr := RefreshRateConfigs.getRefreshRateFromModeId configs nm in
         let r1 := chooseRefreshRateForContent D configs host summary s in
         let r2 := chooseRefreshRateForContent D configs host summary (state r1) in
         fits_int32 (mThermalFps s) -> fits_int32 (RefreshRate.getFps rr) ->
         aboveThermalFps s rr = false ->
         changeRefreshRate_calls (trace r2) = []
         /\ (length (changeRefreshRate_calls (trace r1 ++ trace r2)) <= 1)%nat)
  /\ (forall st : TimerState,
         let r1 := handleTimerStateChanged D TimerState_eqb Features.idleTimer
                     Features.set_idleTimer configs host st s in
         let r2 := handleTimerStateChanged D TimerState_eqb Features.idleTimer
                     Features.set_idleTimer configs host st (state r1) in
         r2 = (false, state r1, [])
         /\ (length (changeRefreshRate_calls (trace r1 ++ trace r2)) <= 1)%nat)
  /\ (forall st : TouchState,
         let r1 := handleTimerStateChanged D TouchState_eqb Features.touch
                     Features.set_touch configs host st s in
         let r2 := handleTimerStateChanged D TouchState_eqb Features.touch
                     Features.set_touch configs host st (state r1) in
         r2 = (false, state r1, [])
         /\ (length (changeRefreshRate_calls (trace r1 ++ trace r2)) <= 1)%nat)
  /\ (forall st : TimerState,
         let r1 := handleTimerStateChanged D TimerState_eqb Features.displayPowerTimer
                     Features.set_displayPowerTimer configs host st s in
         let r2 := handleTimerStateChanged D TimerState_eqb Features.displayPowerTimer
                     Features.set_displayPowerTimer configs host st (state r1) in
         r2 = (false, state r1, [])
         /\ (length (changeRefreshRate_calls (trace r1 ++ trace r2)) <= 1)%nat).
Proof.
  split; [| split; [| split; [| split; [| split]]]].
  - intros summary s0 nm cs rr u d r Hc _ _ _ Heq.
    destruct (choose_equal D configs host summary s Hc Heq) as (H1 & H2 & _).
    split; [exact H1 |]. split; [| split; [| exact H2]].
    + subst r d u rr cs nm s0. unfold with_content in *.
      rewrite (choose_as_handle D configs host summary s Hc).
      destruct (handle_run D (fun _ _ => false) Features.contentRequirements
                  Features.set_contentRequirements configs host summary s eq_refl)
        as (b & s1 & Hup & _ & ->).
      match goal with
      | |- context [if optional_is ?a ?b then _ else _] =>
          replace (optional_is a b) with true by (symmetry; exact Heq)
      end.
      rewrite Hup. reflexivity.
    + subst u.
      destruct (updateFrameRateOverrides_cases D configs cs (RefreshRate.getFps rr) s0)
        as (b & s1 & -> & _).
      reflexivity.
  - intros T eqb cur assign v s0 nm cs rr u d r Hne _ _ _ Heq.
    destruct (handle_equal D eqb cur assign configs host v s Hne Heq) as (H1 & H2 & _).
    split; [exact H1 |]. split; [| split; [| exact H2]].
    + subst r d u rr cs nm s0.
      destruct (handle_run D eqb cur assign configs host v s Hne)
        as (b & s1 & Hup & _ & ->).
      rewrite Heq, Hup. reflexivity.
    + subst u.
      destruct (updateFrameRateOverrides_cases D configs cs (RefreshRate.getFps rr) s0)
        as (b & s1 & -> & _).
      reflexivity.
  - intros summary nm rr r1 r2 _ _ Hab.
    exact (choose_twice D configs host summary s Hab).
  - intros st. apply handle_twice; try reflexivity. now intros [].
  - intros st. apply handle_twice; try reflexivity. now intros [].
  - intros st. apply handle_twice; try reflexivity. now intros [].
Qed.

(** The 60 Hz mode was adopted without an event; the mode change has
    completed and the policy, no longer idle, picks 60 Hz again: the run
    reports the mode to the "app" thread and emits no [changeRefreshRate]. *)
Lemma C1_replay_witness :
  let configs := Sample.policy false Sample.rate60 Sample.rate60 in
  let r := chooseRefreshRateForContent Sample.decls configs Sample.host [] scheduler_suppressed in
  changeRefreshRate_calls (trace r) = []
  /\ onModeChanged_calls (trace r)
     = [(EventThread.mk (DispSyncSource "app" 0 0 true) None None Throttle_empty
           GetPeriod_lambda, 0%N, 0, 16666667)].
Proof.
  intros configs r.
  destruct (C1_equal_reselection Sample.decls configs Sample.host scheduler_suppressed)
    as [Hchoose _].
  assert (Hfit : fits_int32 (mThermalFps scheduler_suppressed))
    by (vm_compute; (split; [discriminate | reflexivity])).
  destruct (Hchoose [] eq_refl Hfit (sample_rates_fit _) eq_refl eq_refl)
    as (Hnone & _ & _ & Hreplay).
  split; [exact Hnone | exact Hreplay].
Defined.

(** ** Further properties of the code *)

(** *** Invariants over sequences of calls *)

Section Preserves.
Context {LR : Type} (I : Scheduler LR -> Prop).

Lemma preserves_ret {A} (a : A) : preserves I (@ret LR A a).
Proof. intros s H. exact H. Qed.

Lemma preserves_get : preserves I (@get LR).
Proof. intros s H. exact H. Qed.

Lemma preserves_emit (c : Call.t) : preserves I (@emit LR c).
Proof. intros s H. exact H. Qed.

Lemma preserves_modify (g : Scheduler LR -> Scheduler LR) :
  (forall s, I s -> I (g s)) -> preserves I (modify g).
Proof. intros Hg s H. apply Hg, H. Qed.

Lemma preserves_bind {A B} (m : M LR A) (k : A -> M LR B) :
  preserves I m -> (forall a, preserves I (k a)) -> preserves I (bind m k).
Proof.
  intros Hm Hk s Hs. unfold bind.
  specialize (Hm s Hs). destruct (m s) as [[a s1] t1].
  specialize (Hk a s1 Hm). destruct (k a s1) as [[b s2] t2]. exact Hk.
Qed.

Lemma preserves_run_ops (D : Decls) :
  (forall op, preserves I (run_op D op)) -> forall ops, preserves I (run_ops D ops).
Proof.
  intros Hop ops. induction ops as [| op ops IH]; cbn [run_ops].
  - apply preserves_ret.
  - apply preserves_bind; [apply Hop | intros _; exact IH].
Qed.
End Preserves.

Ltac preserves_step :=
  lazymatch goal with
  | |- preserves _ (bind _ _) => apply preserves_bind; [| intros ?]
  | |- preserves _ (modify _) => apply preserves_modify; intros ? ?
  | |- preserves _ (ret _) => apply preserves_ret
  | |- preserves _ get => apply preserves_get
  | |- preserves _ (emit _) => apply preserves_emit
  | |- preserves _ (if ?b then _ else _) => destruct b
  | |- preserves _ (match ?o with Some _ => _ | None => _ end) => destruct o
  | |- preserves _ (let _ := _ in _) => cbv zeta
  end.

Ltac unfold_methods :=
  repeat progress unfold
    discard, createConnection_named, onHotplugReceived, onScreenAcquired, onScreenReleased,
    onFrameRateOverridesChanged, onPrimaryDisplayModeChanged, setDuration,
    enableVSyncInjection, createConnection, injectVSync, resyncAndRefresh, resync,
    kernelIdleTimerCallback, resyncToHardwareVsync, setVsyncPeriod, addResyncSample,
    addPresentFence, enableHardwareVsync, disableHardwareVsync, setIgnorePresentFences,
    setModeChangePending, chooseRefreshRateForContent, idleTimerCallback,
    touchTimerCallback, displayPowerTimerCallback, handleTimerStateChanged,
    updateFrameRateOverrides, dispatchCachedReportedMode, onNonPrimaryDisplayModeChanged,
    with_thread, getPreferredModeId, resetIdleTimer, notifyTouchEvent, setDisplayPowerState,
    onNewVsyncPeriodChangeTimeline, onDisplayRefreshed, onPrimaryDisplayAreaChanged,
    setPreferredRefreshRateForUid, setIdleState, updateThermalFps.

(** *** The connection registry *)

Lemma emplace_keeps {V} (k : N) (v : V) (m : gmap N V) (h : N) (c : V) :
  m !! h = Some c -> emplace k v m !! h = Some c.
Proof.
  intros H. unfold emplace. destruct (m !! k) eqn:E; [exact H |].
  rewrite lookup_insert_ne; [exact H | congruence].
Qed.

Lemma emplace_fresh {V} (k : N) (v : V) (m : gmap N V) :
  m !! k = None -> emplace k v m = <[k := v]> m.
Proof. intros H. unfold emplace. now rewrite H. Qed.

Lemma emplace_taken {V} (k : N) (v c : V) (m : gmap N V) :
  m !! k = Some c -> emplace k v m = m.
Proof. intros H. unfold emplace. now rewrite H. Qed.

(** X1: [createConnection] hands out the next id.  When that id is not yet
    registered, the new connection is registered under it with the event
    thread the method built, every other entry of the registry is left as it
    was, and the connection's vsync-request callback is [resyncAndRefresh]
    for the name "app" and [resync] for every other name.  When the id is
    already registered (the counter has wrapped), nothing is registered and
    the returned handle denotes the old connection. *)
Theorem X1_createConnection_registers {LR : Type} (D : Decls)
        (configs : RefreshRateConfigs.t LR) (s : Scheduler LR) (name : string)
        (tokenManager : option N) (workDuration readyDuration : nsecs_t)
        (intercept : option N) :
  let r := createConnection_named D configs name tokenManager workDuration readyDuration
                                  intercept s in
  let thread :=
    EventThread.mk (DispSyncSource name workDuration readyDuration (traceVsync_default D))
                   tokenManager intercept (makeThrottleVsyncCallback configs)
                   GetPeriod_lambda in
  result r = ConnectionHandle.mk (mNextConnectionHandleId s)
  /\ trace r = []
  /\ mNextConnectionHandleId (state r)
     = ((mNextConnectionHandleId s + 1) mod uintptr_modulus)%N
  /\ (forall k, k <> mNextConnectionHandleId s ->
                mConnections (state r) !! k = mConnections s !! k)
  /\ (mConnections s !! mNextConnectionHandleId s = None ->
      mConnections (state r) !! mNextConnectionHandleId s
      = Some (Connection.mk
                (EventThreadConnection.mk
                   (if String.eqb name "app" then call_resyncAndRefresh else call_resync)
                   (eventRegistration_default D))
                thread))
  /\ (forall c, mConnections s !! mNextConnectionHandleId s = Some c ->
                mConnections (state r) = mConnections s).
Proof.
  intros r thread. subst r thread.
  unfold createConnection_named, createConnection, createConnectionInternal,
    makePrimaryDispSyncSource, makeGetVsyncPeriodFunction, bind, get, modify, ret,
    result, trace, state; simpl.
  split; [reflexivity |]. split; [reflexivity |]. split; [reflexivity |].
  split; [| split].
  - intros k Hk. unfold emplace.
    destruct (mConnections s !! mNextConnectionHandleId s); [reflexivity |].
    now rewrite lookup_insert_ne.
  - intros Hfree. rewrite emplace_fresh by exact Hfree. rewrite lookup_insert_eq.
    now destruct (String.eqb name "app").
  - intros c Hc. now rewrite (emplace_taken _ _ c).
Qed.

(** X2: a handle that is not in the registry is rejected without effect:
    the methods that forward to a connection's event thread change nothing
    and call nobody, and the two lookups return nothing.
    [onPrimaryDisplayModeChanged] still caches the params under that handle
    and clears the content requirements, and only its forwarding is
    dropped. *)
Theorem X2_invalid_handle {LR : Type} (s : Scheduler LR) (h : ConnectionHandle.t) :
  mConnections s !! ConnectionHandle.id h = None ->
  (forall d c, onHotplugReceived h d c s = (tt, s, []))
  /\ onScreenAcquired h s = (tt, s, [])
  /\ onScreenReleased h s = (tt, s, [])
  /\ (forall d, onFrameRateOverridesChanged h d s = (tt, s, []))
  /\ (forall d m p, onNonPrimaryDisplayModeChanged h d m p s = (tt, s, []))
  /\ (forall w r, setDuration h w r s = (tt, s, []))
  /\ getEventConnection s h = None
  /\ (forall t e, createDisplayEventConnection s h t e = None)
  /\ (forall d m p,
         onPrimaryDisplayModeChanged h d m p s
         = (tt,
            set_mFeatures
              (Features.set_contentRequirements []
                 (Features.set_cachedModeChangedParams
                    (Some (ModeChangedParams.mk h d m p)) (mFeatures s))) s,
            [])).
Proof.
  intros Hh.
  unfold onHotplugReceived, onScreenAcquired, onScreenReleased, onFrameRateOverridesChanged,
    onNonPrimaryDisplayModeChanged, setDuration, getEventConnection,
    createDisplayEventConnection, onPrimaryDisplayModeChanged,
    onNonPrimaryDisplayModeChanged, with_thread, bind, get, modify, ret; simpl.
  rewrite Hh. repeat split; reflexivity.
Qed.

Lemma X2_invalid_handle_witness :
  onScreenAcquired (ConnectionHandle.mk 7) Sample.scheduler = (tt, Sample.scheduler, []).
Proof.
  apply (X2_invalid_handle Sample.scheduler (ConnectionHandle.mk 7)). reflexivity.
Defined.

Lemma registry_persists_op {LR : Type} (D : Decls) (h : N) (c : Connection.t) (op : Op LR) :
  preserves (fun s => mConnections s !! h = Some c) (run_op D op).
Proof.
  destruct op; cbn [run_op]; unfold_methods; repeat preserves_step;
    cbv beta in *; try assumption.
  all: simpl; now apply emplace_keeps.
Qed.

(** X3: no method removes or replaces a registered connection: through any
    sequence of calls a handle keeps denoting the connection, and with it
    the event thread, it was registered with. *)
Theorem X3_registry_persists {LR : Type} (D : Decls) (ops : list (Op LR))
        (s : Scheduler LR) (h : ConnectionHandle.t) (c : Connection.t) :
  mConnections s !! ConnectionHandle.id h = Some c ->
  mConnections (state (run_ops D ops s)) !! ConnectionHandle.id h = Some c
  /\ getEventConnection (state (run_ops D ops s)) h = Some (Connection.connection c).
Proof.
  intros Hc.
  assert (H : mConnections (state (run_ops D ops s)) !! ConnectionHandle.id h = Some c).
  { apply (preserves_run_ops (fun s => mConnections s !! ConnectionHandle.id h = Some c) D
             (registry_persists_op D _ c) ops s Hc). }
  split; [exact H |]. unfold getEventConnection. now rewrite H.
Qed.

Lemma X3_registry_persists_witness :
  getEventConnection (state (run_ops Sample.decls ops_C6 scheduler_steady))
                     (ConnectionHandle.mk 0)
  = Some (EventThreadConnection.mk call_resyncAndRefresh 0).
Proof.
  exact (proj2 (X3_registry_persists Sample.decls ops_C6 scheduler_steady
                  (ConnectionHandle.mk 0)
                  (Connection.mk (EventThreadConnection.mk call_resyncAndRefresh 0)
                     (EventThread.mk (DispSyncSource "app" 0 0 true) None None
                        Throttle_empty GetPeriod_lambda))
                  eq_refl)).
Defined.

Section RegistryIds.
Context {LR : Type} (D : Decls).
Implicit Type s : Scheduler LR.

(** The registry is in order and the next id is [n]. *)
Local Abbreviation in_order_at n := (fun s => registry_below_next s /\ mNextConnectionHandleId s = n).

Lemma createConnection_in_order (t : EventThread.t) (r : bool) s :
  registry_below_next s ->
  (mNextConnectionHandleId s + 1 < uintptr_modulus)%N ->
  registry_below_next (state (createConnection D t r s))
  /\ mNextConnectionHandleId (state (createConnection D t r s))
     = (mNextConnectionHandleId s + 1)%N.
Proof.
  intros Hord Hroom.
  unfold createConnection, bind, get, modify, ret, state; simpl.
  rewrite N.mod_small by exact Hroom. split; [| reflexivity].
  intros k Hk. simpl in *.
  assert (Hfree : mConnections s !! mNextConnectionHandleId s = None).
  { destruct (mConnections s !! mNextConnectionHandleId s) eqn:E; [| reflexivity].
    specialize (Hord _ (ex_intro _ _ E)). lia. }
  rewrite emplace_fresh in Hk by exact Hfree.
  destruct (decide (mNextConnectionHandleId s = k)) as [<- | Hne]; [lia |].
  rewrite lookup_insert_ne in Hk by exact Hne.
  specialize (Hord k Hk). lia.
Qed.

Lemma in_order_op (op : Op LR) s :
  registry_below_next s ->
  (mNextConnectionHandleId s + 1 < uintptr_modulus)%N ->
  registry_below_next (state (run_op D op s))
  /\ (mNextConnectionHandleId s <= mNextConnectionHandleId (state (run_op D op s))
      <= mNextConnectionHandleId s + 1)%N.
Proof.
  intros Hord Hroom.
  assert (Hsame : preserves (in_order_at (mNextConnectionHandleId s)) (run_op D op) ->
                  registry_below_next (state (run_op D op s))
                  /\ (mNextConnectionHandleId s
                      <= mNextConnectionHandleId (state (run_op D op s))
                      <= mNextConnectionHandleId s + 1)%N).
  { intros Hp. destruct (Hp s (conj Hord eq_refl)) as [H1 H2]. split; [exact H1 | lia]. }
  destruct op; try (apply Hsame; cbn [run_op]; unfold_methods; repeat preserves_step;
                    cbv beta in *; assumption).
  - (* createConnection *)
    cbn [run_op]. unfold discard, createConnection_named.
    match goal with
    | |- context [createConnection D ?t ?r] =>
        destruct (createConnection_in_order t r s Hord Hroom) as [H1 H2];
        unfold bind, ret; destruct (createConnection D t r s) as [[hd s1] t1]
    end.
    unfold state in *; simpl in *. split; [exact H1 | lia].
  - (* enableVSyncInjection *)
    cbn [run_op]. unfold discard, enableVSyncInjection, bind, get, modify, emit, ret.
    destruct (Bool.eqb (mInjectVSyncs s) enable).
    { unfold state; simpl. split; [exact Hord | lia]. }
    destruct (negb (ConnectionHandle_valid D (mInjectorConnectionHandle s))).
    2:{ unfold state; simpl. split; [exact Hord | lia]. }
    match goal with
    | |- context [createConnection D ?t ?r ?s'] =>
        pose proof (createConnection_in_order t r s' Hord Hroom) as [H1 H2];
        destruct (createConnection D t r s') as [[hd s1] t1]
    end.
    unfold state in *; simpl in *. split; [exact H1 | lia].
Qed.
End RegistryIds.

(** X4: handle ids are handed out in increasing order and never reused:
    when every registered id is below the next id, this stays so through any
    sequence of calls that does not exhaust the 64-bit counter, during which
    the next id grows by at most one per call; in every such state the id
    [createConnection] is about to hand out is not registered. *)
Theorem X4_handles_in_order {LR : Type} (D : Decls) (ops : list (Op LR)) (s : Scheduler LR) :
  registry_below_next s ->
  (mNextConnectionHandleId s + N.of_nat (length ops) < uintptr_modulus)%N ->
  registry_below_next (state (run_ops D ops s))
  /\ (mNextConnectionHandleId s <= mNextConnectionHandleId (state (run_ops D ops s))
      <= mNextConnectionHandleId s + N.of_nat (length ops))%N
  /\ mConnections (state (run_ops D ops s))
       !! mNextConnectionHandleId (state (run_ops D ops s)) = None.
Proof.
  revert s. induction ops as [| op ops IH]; intros s Hord Hroom.
  - unfold run_ops, ret, state; simpl. split; [exact Hord |]. split; [lia |].
    destruct (mConnections s !! mNextConnectionHandleId s) eqn:E; [| reflexivity].
    specialize (Hord _ (ex_intro _ _ E)). lia.
  - cbn [run_ops length] in *.
    assert (Hroom1 : (mNextConnectionHandleId s + 1 < uintptr_modulus)%N) by lia.
    destruct (in_order_op D op s Hord Hroom1) as [H1 H2].
    unfold bind. destruct (run_op D op s) as [[[] s1] t1].
    unfold state in H1, H2; simpl in H1, H2.
    assert (Hroom' : (mNextConnectionHandleId s1 + N.of_nat (length ops)
                      < uintptr_modulus)%N) by lia.
    destruct (IH s1 H1 Hroom') as (I1 & I2 & I3).
    destruct (run_ops D ops s1) as [[[] s2] t2].
    unfold state in *; simpl in *. split; [exact I1 |]. split; [lia | exact I3].
Qed.

Lemma X4_handles_in_order_witness :
  registry_below_next (state (run_ops Sample.decls ops_C6 scheduler_steady)).
Proof.
  apply (X4_handles_in_order Sample.decls ops_C6 scheduler_steady).
  - intros k [c Hk]. destruct (decide (k = 0%N)) as [-> | Hne]; [reflexivity |].
    vm_compute in Hk. unfold scheduler_steady in Hk. exfalso.
    revert Hk. change (mConnections scheduler_steady !! k = Some c -> False).
    replace (mConnections scheduler_steady) with
      (<[0%N := Connection.mk (EventThreadConnection.mk call_resyncAndRefresh 0)
                  (EventThread.mk (DispSyncSource "app" 0 0 true) None None
                     Throttle_empty GetPeriod_lambda)]> (∅ : gmap N Connection.t))
      by reflexivity.
    rewrite lookup_insert_ne by congruence. rewrite lookup_empty. discriminate.
  - vm_compute. reflexivity.
Defined.

(** *** The enabled flag and the host's view of it *)

Lemma last_setVsyncEnabled_app (t1 t2 : list Call.t) (d : bool) :
  last_setVsyncEnabled (t1 ++ t2) d = last_setVsyncEnabled t2 (last_setVsyncEnabled t1 d).
Proof. apply fold_left_app. Qed.

Section TracksEnabled.
Context {LR : Type}.

Lemma tracks_ret {A} (a : A) : tracks_enabled (@ret LR A a).
Proof. intros s. reflexivity. Qed.

Lemma tracks_get : tracks_enabled (@get LR).
Proof. intros s. reflexivity. Qed.

Lemma tracks_emit (c : Call.t) :
  (forall b, c <> Call.setVsyncEnabled b) -> tracks_enabled (@emit LR c).
Proof.
  intros Hc s. unfold emit, state, trace, last_setVsyncEnabled; simpl.
  destruct c; try reflexivity. now elim (Hc enabled).
Qed.

Lemma tracks_modify (g : Scheduler LR -> Scheduler LR) :
  (forall s, mPrimaryHWVsyncEnabled (g s) = mPrimaryHWVsyncEnabled s) ->
  tracks_enabled (modify g).
Proof. intros Hg s. unfold modify, state, trace; simpl. apply Hg. Qed.

Lemma tracks_bind {A B} (m : M LR A) (k : A -> M LR B) :
  tracks_enabled m -> (forall a, tracks_enabled (k a)) -> tracks_enabled (bind m k).
Proof.
  intros Hm Hk s. unfold bind.
  specialize (Hm s). destruct (m s) as [[a s1] t1].
  specialize (Hk a s1). destruct (k a s1) as [[b s2] t2].
  unfold state, trace in *; simpl in *.
  now rewrite last_setVsyncEnabled_app, <- Hm.
Qed.

Lemma tracks_enableHardwareVsync : tracks_enabled (@enableHardwareVsync LR).
Proof.
  intros s. rewrite enableHardwareVsync_spec.
  now destruct (negb (mPrimaryHWVsyncEnabled s) && mHWVsyncAvailable s).
Qed.

Lemma tracks_disableHardwareVsync u : tracks_enabled (@disableHardwareVsync LR u).
Proof.
  intros s. unfold disableHardwareVsync, bind, get, modify, emit, ret, state, trace; simpl.
  destruct (mPrimaryHWVsyncEnabled s) eqn:E, u; simpl; now rewrite ?E.
Qed.

Lemma tracks_setVsyncPeriod p f : tracks_enabled (@setVsyncPeriod LR p f).
Proof.
  intros s. unfold setVsyncPeriod, bind, get, modify, emit, ret, state, trace; simpl.
  destruct (negb (mPrimaryHWVsyncEnabled s) || f); reflexivity.
Qed.
End TracksEnabled.

Create HintDb tracks.
#[export] Hint Resolve tracks_ret tracks_get tracks_enableHardwareVsync
  tracks_disableHardwareVsync tracks_setVsyncPeriod : tracks.

Ltac tracks_step :=
  lazymatch goal with
  | |- tracks_enabled (bind _ _) => apply tracks_bind; [| intros ?]
  | |- tracks_enabled (modify _) => apply tracks_modify; intros; reflexivity
  | |- tracks_enabled (emit _) => apply tracks_emit; intros ?; discriminate
  | |- tracks_enabled (if ?b then _ else _) => destruct b
  | |- tracks_enabled (match ?o with Some _ => _ | None => _ end) => destruct o
  | |- tracks_enabled (let _ := _ in _) => cbv zeta
  | |- tracks_enabled _ => solve [auto with tracks]
  end.

Ltac unfold_methods_above_hw :=
  repeat progress unfold
    discard, createConnection_named, onHotplugReceived, onScreenAcquired, onScreenReleased,
    onFrameRateOverridesChanged, onPrimaryDisplayModeChanged, setDuration,
    enableVSyncInjection, createConnection, injectVSync, resyncAndRefresh, resync,
    kernelIdleTimerCallback, resyncToHardwareVsync, addResyncSample,
    addPresentFence, setIgnorePresentFences,
    setModeChangePending, chooseRefreshRateForContent, idleTimerCallback,
    touchTimerCallback, displayPowerTimerCallback, handleTimerStateChanged,
    updateFrameRateOverrides, dispatchCachedReportedMode, onNonPrimaryDisplayModeChanged,
    with_thread, getPreferredModeId, resetIdleTimer, notifyTouchEvent, setDisplayPowerState,
    onNewVsyncPeriodChangeTimeline, onDisplayRefreshed, onPrimaryDisplayAreaChanged,
    setPreferredRefreshRateForUid, setIdleState, updateThermalFps.

Lemma tracks_run_op {LR : Type} (D : Decls) (op : Op LR) : tracks_enabled (run_op D op).
Proof.
  destruct op; cbn [run_op]; unfold_methods_above_hw; repeat tracks_step.
Qed.

(** X5: the Scheduler's enabled flag never drifts from what it last told
    the host: after any sequence of calls, [mPrimaryHWVsyncEnabled] is the
    argument of the most recent [setVsyncEnabled] call made during the
    sequence, and it is unchanged when the sequence made no such call. *)
Theorem X5_enabled_flag_tracks_host {LR : Type} (D : Decls) (ops : list (Op LR))
        (s : Scheduler LR) :
  mPrimaryHWVsyncEnabled (state (run_ops D ops s))
  = last_setVsyncEnabled (trace (run_ops D ops s)) (mPrimaryHWVsyncEnabled s).
Proof.
  revert s. change (tracks_enabled (run_ops D ops)).
  induction ops as [| op ops IH]; cbn [run_ops].
  - apply tracks_ret.
  - apply tracks_bind; [apply tracks_run_op | intros _; exact IH].
Qed.

(** *** Resynchronising *)

Section Resyncing.
Context {LR : Type} (D : Decls).
Implicit Type s : Scheduler LR.
Implicit Type configs : RefreshRateConfigs.t LR.

Lemma resyncToHardwareVsync_refused s (period : nsecs_t) (force : bool) :
  mHWVsyncAvailable s = false ->
  resyncToHardwareVsync false period force s
  = (tt, s, [Call.enter_resyncToHardwareVsync false period force]).
Proof.
  intros H. unfold resyncToHardwareVsync, bind, get, modify, emit, ret; simpl.
  now rewrite H.
Qed.

Lemma resyncToHardwareVsync_proceeds s (makeAvailable force : bool) (period : nsecs_t) :
  0 < period ->
  makeAvailable || mHWVsyncAvailable s = true ->
  resyncToHardwareVsync makeAvailable period force s
  = (tt,
     (if negb (mPrimaryHWVsyncEnabled s) || force
      then set_mPrimaryHWVsyncEnabled true
      else fun s' => s')
       (if makeAvailable then set_mHWVsyncAvailable true s else s),
     [Call.enter_resyncToHardwareVsync makeAvailable period force;
      Call.controller_startPeriodTransition period]
     ++ (if negb (mPrimaryHWVsyncEnabled s) || force
         then [Call.tracker_resetModel; Call.setVsyncEnabled true] else [])).
Proof.
  intros Hp Hav. apply Z.leb_gt in Hp.
  unfold resyncToHardwareVsync, setVsyncPeriod, bind, get, modify, emit, ret; simpl.
  destruct makeAvailable; simpl in *.
  - rewrite Hp. simpl. now destruct (negb (mPrimaryHWVsyncEnabled s) || force).
  - rewrite Hav. simpl. rewrite Hp. simpl.
    now destruct (negb (mPrimaryHWVsyncEnabled s) || force).
Qed.

Lemma resync_calls configs s (now : nsecs_t) :
  resyncToHardwareVsync_calls (trace (resync D configs now s))
  = if ms2ns 750 <? now - mLastResyncTime s
    then [(false,
           RefreshRate.getVsyncPeriod (RefreshRateConfigs.getCurrentRefreshRate configs),
           force_resync_default D)]
    else [].
Proof.
  rewrite resync_unfold. destruct (ms2ns 750 <? now - mLastResyncTime s); [| reflexivity].
  cbv zeta. unfold trace at 1; simpl. apply resyncToHardwareVsync_trace.
Qed.

Lemma resyncToHardwareVsync_calls_app (t1 t2 : list Call.t) :
  resyncToHardwareVsync_calls (t1 ++ t2)
  = resyncToHardwareVsync_calls t1 ++ resyncToHardwareVsync_calls t2.
Proof. apply flat_map_app. Qed.

Lemma resync_burst_silent configs (times : list nsecs_t) s :
  gaps_within (mLastResyncTime s) times ->
  resyncToHardwareVsync_calls (trace (run_ops D (resync_ops configs times) s)) = [].
Proof.
  revert s. induction times as [| t times IH]; intros s Hg; [reflexivity |].
  destruct Hg as [Hfirst Hrest].
  cbn [resync_ops map run_ops run_op].
  pose proof (resync_calls configs s t) as Hc.
  pose proof (resync_last D configs s t) as Hl.
  unfold bind. destruct (resync D configs t s) as [[[] s1] t1].
  unfold state, trace in Hc, Hl; simpl in Hc, Hl.
  specialize (IH s1). rewrite Hl in IH. specialize (IH Hrest).
  unfold resync_ops in IH.
  destruct (run_ops D (map (Op_resync configs) times) s1) as [[[] s2] t2].
  unfold trace in *; simpl in *.
  rewrite resyncToHardwareVsync_calls_app, IH, Hc, app_nil_r.
  apply Z.ltb_ge in Hfirst. now rewrite Hfirst.
Qed.
End Resyncing.

(** X6: [resyncToHardwareVsync] without [makeAvailable] while hardware
    vsync is unavailable is refused whatever the period: it changes nothing
    and calls no collaborator.  With a positive period and hardware vsync
    available or made available, it starts the period transition on the
    controller, and, when hardware vsync was not enabled or the resync is
    forced, resets the tracker, calls [setVsyncEnabled(true)] and sets the
    enabled flag; an unforced resync while enabled leaves the tracker's
    model alone. *)
Theorem X6_resyncToHardwareVsync_outcomes {LR : Type} (s : Scheduler LR)
        (makeAvailable force : bool) (period : nsecs_t) :
  (mHWVsyncAvailable s = false ->
   resyncToHardwareVsync false period force s
   = (tt, s, [Call.enter_resyncToHardwareVsync false period force]))
  /\ (0 < period -> makeAvailable || mHWVsyncAvailable s = true ->
      let r := resyncToHardwareVsync makeAvailable period force s in
      mHWVsyncAvailable (state r) = true
      /\ mPrimaryHWVsyncEnabled (state r) = true
      /\ trace r
         = [Call.enter_resyncToHardwareVsync makeAvailable period force;
            Call.controller_startPeriodTransition period]
           ++ (if negb (mPrimaryHWVsyncEnabled s) || force
               then [Call.tracker_resetModel; Call.setVsyncEnabled true] else [])).
Proof.
  split; [apply resyncToHardwareVsync_refused |].
  intros Hp Hav r. subst r. rewrite resyncToHardwareVsync_proceeds by assumption.
  unfold state, trace; simpl.
  destruct makeAvailable, (mPrimaryHWVsyncEnabled s) eqn:E, force; simpl in *;
    rewrite ?E, ?Hav; repeat split; reflexivity.
Qed.

(** X7: a burst of [resync] calls, each at most 750 ms after the one before
    it, triggers [resyncToHardwareVsync] at most once, and only on its first
    call; when the first call is itself at most 750 ms after the last
    [resync] before the burst, the burst triggers nothing. *)
Theorem X7_resync_burst {LR : Type} (D : Decls) (configs : RefreshRateConfigs.t LR)
        (s : Scheduler LR) (t : nsecs_t) (times : list nsecs_t) :
  gaps_within t times ->
  resyncToHardwareVsync_calls (trace (run_ops D (resync_ops configs (t :: times)) s))
  = resyncToHardwareVsync_calls (trace (resync D configs t s))
  /\ (length (resyncToHardwareVsync_calls
                (trace (run_ops D (resync_ops configs (t :: times)) s))) <= 1)%nat
  /\ (t - mLastResyncTime s <= ms2ns 750 ->
      resyncToHardwareVsync_calls
        (trace (run_ops D (resync_ops configs (t :: times)) s)) = []).
Proof.
  intros Hg.
  assert (Heq : resyncToHardwareVsync_calls
                  (trace (run_ops D (resync_ops configs (t :: times)) s))
                = resyncToHardwareVsync_calls (trace (resync D configs t s))).
  { cbn [resync_ops map run_ops run_op].
    pose proof (resync_last D configs s t) as Hl.
    unfold bind. destruct (resync D configs t s) as [[[] s1] t1].
    unfold state in Hl; simpl in Hl.
    pose proof (resync_burst_silent D configs times s1) as Hs. rewrite Hl in Hs.
    specialize (Hs Hg). unfold resync_ops in Hs.
    destruct (run_ops D (map (Op_resync configs) times) s1) as [[[] s2] t2].
    unfold trace in *; simpl in *.
    now rewrite resyncToHardwareVsync_calls_app, Hs, app_nil_r. }
  rewrite Heq, resync_calls.
  split; [reflexivity |]. split.
  - destruct (ms2ns 750 <? t - mLastResyncTime s); simpl; lia.
  - intros Hfirst. apply Z.ltb_ge in Hfirst. now rewrite Hfirst.
Qed.

Lemma X7_resync_burst_witness :
  (length (resyncToHardwareVsync_calls
             (trace (run_ops Sample.decls
                       (resync_ops (Sample.policy false Sample.rate60 Sample.rate60)
                          [ms2ns 1000; ms2ns 1700; ms2ns 2400; ms2ns 3100])
                       Sample.scheduler))) <= 1)%nat.
Proof.
  apply (X7_resync_burst Sample.decls (Sample.policy false Sample.rate60 Sample.rate60)
           Sample.scheduler (ms2ns 1000) [ms2ns 1700; ms2ns 2400; ms2ns 3100]).
  cbn [gaps_within]. unfold ms2ns. repeat split; lia.
Defined.

Section WakeUp.
Context {LR : Type} (D : Decls).
Implicit Type s : Scheduler LR.
Implicit Type configs : RefreshRateConfigs.t LR.

Lemma resyncToHardwareVsync_keeps_idle s (makeAvailable force : bool) (period : nsecs_t) :
  mDisplayIdle (state (resyncToHardwareVsync makeAvailable period force s)) = mDisplayIdle s.
Proof.
  unfold resyncToHardwareVsync, setVsyncPeriod, bind, get, emit, state; simpl.
  destruct makeAvailable; simpl.
  - destruct (period <=? 0); simpl; [reflexivity |].
    now destruct (negb (mPrimaryHWVsyncEnabled s) || force).
  - destruct (mHWVsyncAvailable s); simpl; [| reflexivity].
    destruct (period <=? 0); simpl; [reflexivity |].
    now destruct (negb (mPrimaryHWVsyncEnabled s) || force).
Qed.

Lemma resync_keeps_idle configs s (now : nsecs_t) :
  mDisplayIdle (state (resync D configs now s)) = mDisplayIdle s.
Proof.
  rewrite resync_unfold. destruct (ms2ns 750 <? now - mLastResyncTime s); [| reflexivity].
  cbv zeta. unfold state at 1; simpl. now rewrite resyncToHardwareVsync_keeps_idle.
Qed.
End WakeUp.

(** X8: [resyncAndRefresh] on a display that is not marked idle is exactly
    [resync].  On a display marked idle (and a positive current period) it
    runs [resync] and then wakes the display: it asks the host to repaint,
    forces a resync that makes hardware vsync available, resets the tracker
    and enables hardware vsync even if [resync] was throttled, and clears
    the idle mark, so that the next [resyncAndRefresh] is a plain [resync]
    again. *)
Theorem X8_resyncAndRefresh_wakes {LR : Type} (D : Decls)
        (configs : RefreshRateConfigs.t LR) (s : Scheduler LR) (now : nsecs_t) :
  let period := RefreshRate.getVsyncPeriod (RefreshRateConfigs.getCurrentRefreshRate configs) in
  let r := resyncAndRefresh D configs now s in
  (mDisplayIdle s = false -> r = resync D configs now s)
  /\ (mDisplayIdle s = true -> 0 < period ->
      mDisplayIdle (state r) = false
      /\ mHWVsyncAvailable (state r) = true
      /\ mPrimaryHWVsyncEnabled (state r) = true
      /\ trace r
         = trace (resync D configs now s)
           ++ [Call.repaintEverythingForHWC;
               Call.enter_resyncToHardwareVsync true period true;
               Call.controller_startPeriodTransition period;
               Call.tracker_resetModel;
               Call.setVsyncEnabled true]).
Proof.
  intros period r. subst r.
  pose proof (resync_keeps_idle D configs s now) as Hidle.
  unfold resyncAndRefresh, bind, get, emit, modify, ret.
  destruct (resync D configs now s) as [[[] s1] t1].
  unfold state in Hidle; simpl in Hidle. rewrite Hidle.
  split.
  - intros H. rewrite H. simpl. now rewrite app_nil_r.
  - intros H Hp. rewrite H. cbn [negb]. fold period.
    rewrite (resyncToHardwareVsync_proceeds s1 true true period Hp eq_refl).
    unfold state, trace; simpl. rewrite orb_true_r. simpl.
    repeat split; reflexivity.
Qed.

(** X9: a hardware vsync sample that arrives while hardware vsync is not
    enabled is dropped: it is not passed to the controller, [periodFlushed]
    is false, and nothing changes.  While enabled, the sample is passed on
    and the controller's verdict decides: hardware vsync stays enabled, with
    no further call, when more samples are needed, and is disabled with one
    [setVsyncEnabled(false)] otherwise; availability is never touched. *)
Theorem X9_addResyncSample_outcomes {LR : Type} (s : Scheduler LR) (timestamp : nsecs_t)
        (hwcVsyncPeriod : option nsecs_t) (needsMore flushed : bool) :
  addResyncSample timestamp hwcVsyncPeriod needsMore flushed s
  = if mPrimaryHWVsyncEnabled s then
      if needsMore then
        (flushed, s, [Call.controller_addHwVsyncTimestamp timestamp hwcVsyncPeriod])
      else
        (flushed, set_mPrimaryHWVsyncEnabled false s,
         [Call.controller_addHwVsyncTimestamp timestamp hwcVsyncPeriod;
          Call.setVsyncEnabled false])
    else (false, s, []).
Proof.
  unfold addResyncSample, enableHardwareVsync, disableHardwareVsync,
    bind, get, modify, emit, ret; simpl.
  destruct (mPrimaryHWVsyncEnabled s) eqn:E; simpl.
  - destruct needsMore; simpl; rewrite E; reflexivity.
  - rewrite E. reflexivity.
Qed.

(** X10: [addPresentFence] always passes the fence to the controller; after
    it hardware vsync is enabled exactly when the controller asked for it
    and hardware vsync was enabled already or is available, and the host is
    called only when the enabled flag changes. *)
Theorem X10_addPresentFence_outcome {LR : Type} (s : Scheduler LR) (needsHwVsync : bool) :
  let r := addPresentFence needsHwVsync s in
  let after := needsHwVsync && (mPrimaryHWVsyncEnabled s || mHWVsyncAvailable s) in
  mPrimaryHWVsyncEnabled (state r) = after
  /\ mHWVsyncAvailable (state r) = mHWVsyncAvailable s
  /\ trace r
     = Call.controller_addPresentFence
       :: (if Bool.eqb after (mPrimaryHWVsyncEnabled s) then []
           else if after then [Call.tracker_resetModel; Call.setVsyncEnabled true]
                else [Call.setVsyncEnabled false]).
Proof.
  unfold addPresentFence, enableHardwareVsync, disableHardwareVsync,
    bind, get, modify, emit, ret, state, trace; simpl.
  destruct needsHwVsync, (mPrimaryHWVsyncEnabled s) eqn:E, (mHWVsyncAvailable s) eqn:F;
    simpl; rewrite ?E, ?F; repeat split; reflexivity.
Qed.

(** *** Publishing and refreshing the overrides *)

Lemma elem_of_entries (m : gmap N Q) (k : N) (v : Q) :
  (k, v) ∈ entries m <-> m !! k = Some v.
Proof.
  unfold entries. rewrite merge_sort_Permutation. apply elem_of_map_to_list.
Qed.

Lemma NoDup_entries_keys (m : gmap N Q) : NoDup (map fst (entries m)).
Proof.
  assert (H : map fst (entries m) ≡ₚ map fst (map_to_list m))
    by (unfold entries; apply Permutation_map, merge_sort_Permutation).
  rewrite H. apply NoDup_fst_map_to_list.
Qed.

Lemma NoDup_filter_keys (P : N * Q -> Prop) `{forall x, Decision (P x)} (l : list (N * Q)) :
  NoDup (map fst l) -> NoDup (map fst (filter P l)).
Proof.
  induction l as [| x l IH]; simpl; [constructor |].
  rewrite NoDup_cons. intros [Hx Hl]. rewrite filter_cons.
  destruct (decide (P x)); [| now apply IH].
  simpl. apply NoDup_cons. split; [| now apply IH].
  intros Hin. apply Hx.
  apply list_elem_of_In, in_map_iff in Hin as (y & Hy & Hin).
  apply list_elem_of_In, in_map_iff. exists y. split; [exact Hy |].
  apply list_elem_of_In. apply list_elem_of_In in Hin.
  now apply list_elem_of_filter in Hin as [_ Hin].
Qed.

(** X11: the list [onFrameRateOverridesChanged] sends to a registered
    connection's event thread agrees with the lookup order of
    [getFrameRateOverride]: it holds (uid, rate) exactly when [rate] is the
    backdoor override of [uid], or [uid] has no backdoor override and
    [rate] is its content-derived override; and no uid occurs in it
    twice. *)
Theorem X11_published_overrides {LR : Type} (s : Scheduler LR) (h : ConnectionHandle.t)
        (displayId : PhysicalDisplayId) (c : Connection.t) :
  mConnections s !! ConnectionHandle.id h = Some c ->
  exists overrides,
    onFrameRateOverridesChanged h displayId s
    = (tt, s, [Call.onFrameRateOverridesChanged (Connection.thread c) displayId overrides])
    /\ (forall uid rate,
           In (FrameRateOverride.mk uid rate) overrides
           <-> match mFrameRateOverridesFromBackdoor s !! uid with
               | Some fps => Some fps
               | None => mFrameRateOverridesByContent s !! uid
               end = Some rate)
    /\ NoDup (map FrameRateOverride.uid overrides).
Proof.
  intros Hc. eexists. split; [| split].
  - unfold onFrameRateOverridesChanged, with_thread, bind, get, emit, ret; simpl.
    rewrite Hc. reflexivity.
  - intros uid rate. rewrite in_app_iff, !in_map_iff. split.
    + intros [((k & v) & Heq & Hin) | ((k & v) & Heq & Hin)];
        simpl in Heq; injection Heq as -> ->; apply list_elem_of_In in Hin.
      * apply elem_of_entries in Hin. now rewrite Hin.
      * apply list_elem_of_filter in Hin as [Hnone Hin]. simpl in Hnone.
        apply elem_of_entries in Hin. now rewrite Hnone.
    + destruct (mFrameRateOverridesFromBackdoor s !! uid) as [fps |] eqn:Hb.
      * intros [= ->]. left. exists (uid, rate). split; [reflexivity |].
        now apply list_elem_of_In, elem_of_entries.
      * intros Hcont. right. exists (uid, rate). split; [reflexivity |].
        apply list_elem_of_In, list_elem_of_filter. split; [exact Hb |].
        now apply elem_of_entries.
  - rewrite map_app, !map_map. simpl.
    change (fun x : N * Q => x.1) with (@fst N Q).
    apply NoDup_app. split; [apply NoDup_entries_keys |]. split.
    + intros k Hk1 Hk2.
      apply list_elem_of_In, in_map_iff in Hk1 as ((k1 & v1) & Heq1 & Hin1).
      apply list_elem_of_In, in_map_iff in Hk2 as ((k2 & v2) & Heq2 & Hin2).
      simpl in *. subst k1 k2.
      apply list_elem_of_In, elem_of_entries in Hin1.
      apply list_elem_of_In, list_elem_of_filter in Hin2 as [Hnone _]. simpl in Hnone.
      congruence.
    + apply NoDup_filter_keys, NoDup_entries_keys.
Qed.

Lemma X11_published_overrides_witness :
  exists overrides,
    onFrameRateOverridesChanged (ConnectionHandle.mk 0) 0 scheduler_steady
    = (tt, scheduler_steady,
       [Call.onFrameRateOverridesChanged
          (EventThread.mk (DispSyncSource "app" 0 0 true) None None Throttle_empty
             GetPeriod_lambda) 0%N overrides]).
Proof.
  destruct (X11_published_overrides scheduler_steady (ConnectionHandle.mk 0) 0%N
              (Connection.mk (EventThreadConnection.mk call_resyncAndRefresh 0)
                 (EventThread.mk (DispSyncSource "app" 0 0 true) None None
                    Throttle_empty GetPeriod_lambda))
              eq_refl) as (overrides & H & _).
  exists overrides. exact H.
Defined.

Lemma std_equal_refl {A} (pred : A -> A -> bool) (l : list A) :
  (forall a, pred a a = true) -> std_equal pred l l = true.
Proof.
  intros Hp. induction l as [| a l IH]; simpl; [reflexivity |]. now rewrite Hp, IH.
Qed.

(** X12: when [equalsWithMargin] holds between every rate and itself,
    refreshing the content-derived overrides twice in a row on the same
    inputs never reports a change the second time: the second
    [updateFrameRateOverrides] returns false and leaves the map as the
    first left it.  The first returns true only if it replaced the map by
    the policy's overrides, and returns false, touching nothing, when the
    policy does not support overrides or the idle signal was considered. *)
Theorem X12_updateFrameRateOverrides_settles {LR : Type} (D : Decls)
        (configs : RefreshRateConfigs.t LR) (consideredSignals : GlobalSignals.t)
        (displayRefreshRate : Fps) (s : Scheduler LR) :
  (forall f, equalsWithMargin D f f = true) ->
  let r1 := updateFrameRateOverrides D configs consideredSignals displayRefreshRate s in
  let r2 := updateFrameRateOverrides D configs consideredSignals displayRefreshRate (state r1) in
  r2 = (false, state r1, [])
  /\ (result r1 = true ->
      state r1
      = set_mFrameRateOverridesByContent
          (RefreshRateConfigs.getFrameRateOverrides configs
             (Features.contentRequirements (mFeatures s)) displayRefreshRate
             (GlobalSignals.touch consideredSignals)) s)
  /\ (result r1 = false -> state r1 = s)
  /\ (RefreshRateConfigs.supportsFrameRateOverride configs = false
      \/ GlobalSignals.idle consideredSignals = true -> r1 = (false, s, [])).
Proof.
  intros Hrefl r1 r2. subst r1 r2.
  assert (Hpred : forall a : N * Q, (a.1 =? a.1)%N && equalsWithMargin D a.2 a.2 = true)
    by (intros a; now rewrite N.eqb_refl, Hrefl).
  unfold updateFrameRateOverrides, bind, get, modify, ret.
  destruct (RefreshRateConfigs.supportsFrameRateOverride configs); simpl.
  2:{ repeat split; try reflexivity; try discriminate. }
  destruct (GlobalSignals.idle consideredSignals); simpl.
  { repeat split; try reflexivity; try discriminate. }
  destruct (std_equal _ (entries (mFrameRateOverridesByContent s)) _) eqn:E;
    unfold state, result; simpl.
  - rewrite E. simpl. repeat split; try reflexivity; try discriminate;
      try (intros [H | H]; discriminate H).
  - rewrite std_equal_refl by exact Hpred. simpl.
    repeat split; try reflexivity; try discriminate;
      try (intros [H | H]; discriminate H).
Qed.

Lemma X12_updateFrameRateOverrides_witness :
  updateFrameRateOverrides Sample.decls (Sample.policy true Sample.rate60 Sample.rate60)
    GlobalSignals.zero 60
    (state (updateFrameRateOverrides Sample.decls
              (Sample.policy true Sample.rate60 Sample.rate60) GlobalSignals.zero 60
              scheduler_S4))
  = (false,
     state (updateFrameRateOverrides Sample.decls
              (Sample.policy true Sample.rate60 Sample.rate60) GlobalSignals.zero 60
              scheduler_S4), []).
Proof.
  apply (X12_updateFrameRateOverrides_settles Sample.decls
           (Sample.policy true Sample.rate60 Sample.rate60) GlobalSignals.zero 60
           scheduler_S4).
  intros f. apply Qeq_bool_refl.
Defined.

(** *** Replaying, reading and forcing the mode *)

(** X13: the cached mode-changed params are replayed at most once:
    [dispatchCachedReportedMode] sends at most one [onModeChanged], and run
    again right after (the policy unchanged) it sends nothing and changes
    nothing, because the first run brought the cache up to date -- also when
    the cached handle was not registered and the first run's message went
    nowhere. *)
Theorem X13_dispatchCachedReportedMode_once {LR : Type}
        (configs : RefreshRateConfigs.t LR) (s : Scheduler LR) :
  let r1 := dispatchCachedReportedMode configs s in
  let r2 := dispatchCachedReportedMode configs (state r1) in
  r2 = (tt, state r1, [])
  /\ (length (trace r1) <= 1)%nat
  /\ (forall c, In c (trace r1) -> exists t d m p, c = Call.onModeChanged t d m p).
Proof.
  intros r1 r2. subst r1 r2.
  assert (Hnone : forall (x : Scheduler LR),
             (length (@nil Call.t) <= 1)%nat
             /\ (forall c, In c (@nil Call.t) -> exists t d m p, c = Call.onModeChanged t d m p))
    by (intros; split; [simpl; lia | now intros c []]).
  unfold dispatchCachedReportedMode, onNonPrimaryDisplayModeChanged, with_thread,
    bind, get, modify, emit, ret, state, trace.
  destruct (Features.modeId (mFeatures s)) as [m |] eqn:Hm; simpl; rewrite ?Hm.
  2:{ split; [reflexivity | exact (Hnone s)]. }
  destruct (Features.cachedModeChangedParams (mFeatures s)) as [cached |] eqn:Hc;
    simpl; rewrite ?Hm, ?Hc.
  2:{ split; [reflexivity | exact (Hnone s)]. }
  destruct (RefreshRate.getModeId (RefreshRateConfigs.getCurrentRefreshRate configs) =? m)
    eqn:Hcur; simpl; rewrite ?Hm, ?Hc, ?Hcur; simpl.
  2:{ split; [reflexivity | exact (Hnone s)]. }
  destruct ((m =? ModeChangedParams.modeId cached)
            && (RefreshRate.getVsyncPeriod
                  (RefreshRateConfigs.getRefreshRateFromModeId configs m)
                =? ModeChangedParams.vsyncPeriod cached)) eqn:Heq;
    simpl; rewrite ?Hm, ?Hc, ?Hcur, ?Heq; simpl.
  { split; [reflexivity | exact (Hnone s)]. }
  destruct (mConnections s !! ConnectionHandle.id (ModeChangedParams.handle cached));
    simpl; rewrite ?Hm, ?Hcur, !Z.eqb_refl; simpl.
  - split; [reflexivity |]. split; [lia |]. intros c [<- | []]. eauto.
  - split; [reflexivity | exact (Hnone s)].
Qed.

Section AfterSelection.
Context {LR : Type} (D : Decls).
Implicit Type s : Scheduler LR.
Implicit Type configs : RefreshRateConfigs.t LR.

(** A run rewrites only the mode id and the cached params of the feature
    state. *)
Lemma handle_frame {T} (eqb : T -> T -> bool) (cur : Features.t LR -> T)
      (assign : T -> Features.t LR -> Features.t LR) configs host (v : T) s :
  eqb (cur (mFeatures s)) v = false ->
  let f0 := assign v (mFeatures s) in
  let s' := state (handleTimerStateChanged D eqb cur assign configs host v s) in
  Features.contentRequirements (mFeatures s') = Features.contentRequirements f0
  /\ Features.idleTimer (mFeatures s') = Features.idleTimer f0
  /\ Features.touch (mFeatures s') = Features.touch f0
  /\ Features.displayPowerTimer (mFeatures s') = Features.displayPowerTimer f0
  /\ Features.isDisplayPowerStateNormal (mFeatures s') = Features.isDisplayPowerStateNormal f0
  /\ mIdleTimer s' = mIdleTimer s /\ mTouchTimer s' = mTouchTimer s
  /\ mDisplayPowerTimer s' = mDisplayPowerTimer s
  /\ mConnections s' = mConnections s.
Proof.
  intros Hne f0 s'. subst f0 s'.
  destruct (handle_run D eqb cur assign configs host v s Hne) as (b & s1 & _ & Hs1 & ->).
  set (s0 := set_mFeatures (assign v (mFeatures s)) s) in *.
  destruct (optional_is (Features.modeId (mFeatures s0)) _) eqn:Heq.
  - apply optional_is_true in Heq. cbv zeta.
    destruct (GlobalSignals.idle (calculateRefreshRateModeId configs s0).2).
    + unfold state; simpl. destruct Hs1 as [-> | [x ->]]; repeat split; reflexivity.
    + assert (Hm1 : Features.modeId (mFeatures s1)
                    = Some (calculateRefreshRateModeId configs s0).1)
        by (destruct Hs1 as [-> | [x ->]]; exact Heq).
      destruct (dispatchCachedReportedMode_cases configs s1 _ Hm1)
        as (s2 & t & -> & _ & _ & Hs2).
      unfold state; simpl.
      destruct Hs2 as [-> | [c ->]]; destruct Hs1 as [-> | [x ->]];
        repeat split; reflexivity.
  - unfold state; simpl. destruct Hs1 as [-> | [x ->]]; repeat split; reflexivity.
Qed.

Lemma choose_calc configs host summary s :
  RefreshRateConfigs.canSwitch configs = true ->
  calculateRefreshRateModeId configs
    (state (chooseRefreshRateForContent D configs host summary s))
  = calculateRefreshRateModeId configs (with_content summary s).
Proof.
  intros Hc. rewrite choose_as_handle by exact Hc. cbv zeta. unfold state at 1; simpl.
  destruct (handle_frame (fun _ _ => false) Features.contentRequirements
              Features.set_contentRequirements configs host summary s eq_refl)
    as (H1 & H2 & H3 & H4 & H5 & H6 & H7 & H8 & _).
  apply calculateRefreshRateModeId_ext; assumption.
Qed.

Lemma choose_adopts_some configs host summary s :
  RefreshRateConfigs.canSwitch configs = true ->
  is_Some (Features.modeId
             (mFeatures (state (chooseRefreshRateForContent D configs host summary s)))).
Proof.
  intros Hc.
  destruct (optional_is (Features.modeId (mFeatures s))
              (calculateRefreshRateModeId configs (with_content summary s)).1) eqn:Heq.
  - destruct (choose_equal D configs host summary s Hc Heq) as (_ & _ & ->). eauto.
  - destruct (choose_differ D configs host summary s Hc Heq) as (_ & _ & ->). eauto.
Qed.
End AfterSelection.

(** X14: [getPreferredModeId] calls nobody.  While no mode has been chosen
    it returns nothing and chooses none.  After a content-driven selection
    it returns, and stores, the mode the policy calculates for the same
    inputs, without the thermal cap: when that selection adopted the capped
    mode, [getPreferredModeId] puts the uncapped one in its place. *)
Theorem X14_getPreferredModeId_uncapped {LR : Type} (D : Decls)
        (configs : RefreshRateConfigs.t LR) (host : Host) (summary : list LR)
        (s : Scheduler LR) :
  (Features.modeId (mFeatures s) = None -> getPreferredModeId configs s = (None, s, []))
  /\ (RefreshRateConfigs.canSwitch configs = true ->
      let nm := (calculateRefreshRateModeId configs (with_content summary s)).1 in
      let r := chooseRefreshRateForContent D configs host summary s in
      let g := getPreferredModeId configs (state r) in
      result g = Some nm
      /\ Features.modeId (mFeatures (state g)) = Some nm
      /\ trace g = []).
Proof.
  split.
  - intros Hnone. unfold getPreferredModeId, bind, get, modify, ret; simpl.
    rewrite Hnone. simpl. now rewrite Hnone.
  - intros Hc nm r g. subst g.
    pose proof (choose_calc D configs host summary s Hc) as Hcalc.
    destruct (choose_adopts_some D configs host summary s Hc) as [m Hm].
    fold r in Hcalc, Hm. fold nm in Hcalc.
    remember (state r) as s1 eqn:Hs1. clear Hs1.
    unfold getPreferredModeId, bind, get, modify, ret, result, state, trace; simpl.
    rewrite Hm. simpl. rewrite Hcalc. repeat split; reflexivity.
Qed.

(** Under a cap of 90 the selection adopts the 90 Hz mode (id 1), and
    [getPreferredModeId] then returns the 120 Hz mode (id 2). *)
Lemma X14_getPreferredModeId_witness :
  Features.modeId
    (mFeatures (state (chooseRefreshRateForContent Sample.decls
                         (Sample.policy false Sample.rate60 Sample.rate120) Sample.host []
                         scheduler_thermal90))) = Some 1
  /\ result (getPreferredModeId (Sample.policy false Sample.rate60 Sample.rate120)
               (state (chooseRefreshRateForContent Sample.decls
                         (Sample.policy false Sample.rate60 Sample.rate120) Sample.host []
                         scheduler_thermal90))) = Some 2.
Proof.
  split; [reflexivity |].
  destruct (X14_getPreferredModeId_uncapped Sample.decls
              (Sample.policy false Sample.rate60 Sample.rate120) Sample.host []
              scheduler_thermal90) as [_ H].
  destruct (H eq_refl) as (Hres & _). exact Hres.
Defined.

(** X15: [setDisplayPowerState] always clears the layer history and resets
    the display-power timer if there is one.  Without a display-power timer
    the power state has no influence on the next mode calculation.  With
    one, after [setDisplayPowerState(false)] every calculation yields the
    policy's maximum mode with no signal considered, whatever the content,
    the touch state and the idle state are, so a mode change reported from
    there always carries [ModeEvent::Changed]. *)
Theorem X15_power_state_boost {LR : Type} (D : Decls) (configs : RefreshRateConfigs.t LR)
        (host : Host) (s : Scheduler LR) (normal : bool) :
  let s1 := state (setDisplayPowerState normal s) in
  trace (setDisplayPowerState normal s)
  = (if mDisplayPowerTimer s then [Call.displayPowerTimer_reset] else [])
    ++ [Call.layerHistory_clear]
  /\ (mDisplayPowerTimer s = false ->
      forall summary,
        calculateRefreshRateModeId configs (with_content summary s1)
        = calculateRefreshRateModeId configs (with_content summary s))
  /\ (mDisplayPowerTimer s = true -> normal = false ->
      forall summary,
        calculateRefreshRateModeId configs (with_content summary s1)
        = (RefreshRate.getModeId (RefreshRateConfigs.getMaxRefreshRateByPolicy configs),
           GlobalSignals.zero)
        /\ (RefreshRateConfigs.canSwitch configs = true ->
            forall rate event,
              In (rate, event)
                 (changeRefreshRate_calls
                    (trace (chooseRefreshRateForContent D configs host summary s1))) ->
              event = ModeEvent_Changed)).
Proof.
  intros s1.
  assert (Hs1 : s1 = set_mFeatures
                       (Features.set_isDisplayPowerStateNormal normal (mFeatures s)) s).
  { subst s1. unfold setDisplayPowerState, bind, get, modify, emit, ret, state; simpl.
    now destruct (mDisplayPowerTimer s). }
  split.
  { unfold setDisplayPowerState, bind, get, modify, emit, ret, trace; simpl.
    now destruct (mDisplayPowerTimer s). }
  clearbody s1. subst s1. split.
  - intros Hno summary. unfold calculateRefreshRateModeId, with_content; simpl.
    now rewrite Hno.
  - intros Hyes -> summary.
    set (s1 := set_mFeatures (Features.set_isDisplayPowerStateNormal false (mFeatures s)) s).
    assert (Hcalc : calculateRefreshRateModeId configs (with_content summary s1)
                    = (RefreshRate.getModeId
                         (RefreshRateConfigs.getMaxRefreshRateByPolicy configs),
                       GlobalSignals.zero))
      by (unfold calculateRefreshRateModeId, with_content; simpl; now rewrite Hyes).
    split; [exact Hcalc |].
    intros Hc rate event Hin.
    destruct (optional_is (Features.modeId (mFeatures s1))
                (calculateRefreshRateModeId configs (with_content summary s1)).1) eqn:Heq.
    + destruct (choose_equal D configs host summary s1 Hc Heq) as (Hcalls & _).
      rewrite Hcalls in Hin. destruct Hin.
    + destruct (choose_differ D configs host summary s1 Hc Heq) as (Hcalls & _).
      rewrite Hcalls in Hin. destruct Hin as [Hin | []].
      injection Hin as _ <-. rewrite Hcalc. reflexivity.
Qed.

(** *** Timers *)

(** X16: with kernel idle-timer support, a reset or an expiry of the idle
    timer never runs mode selection: the feature state and both override
    maps are left as they are and no [changeRefreshRate] is emitted.  The
    callback's last call is always [kernelTimerChanged], with true exactly
    on expiry; it never makes hardware vsync unavailable, and an expiry
    never enables it.  Without kernel support and with idle handling
    switched off, the idle timer does nothing at all. *)
Theorem X16_kernel_idle_timer {LR : Type} (D : Decls) (configs : RefreshRateConfigs.t LR)
        (host : Host) (st : TimerState) (s : Scheduler LR) :
  let r := idleTimer_fire D configs host st s in
  (supportKernelTimer s = true ->
   mFeatures (state r) = mFeatures s
   /\ mFrameRateOverridesFromBackdoor (state r) = mFrameRateOverridesFromBackdoor s
   /\ mFrameRateOverridesByContent (state r) = mFrameRateOverridesByContent s
   /\ changeRefreshRate_calls (trace r) = []
   /\ last (trace r) = Some (Call.kernelTimerChanged (TimerState_eqb st Expired))
   /\ (mHWVsyncAvailable s = true -> mHWVsyncAvailable (state r) = true)
   /\ (st = Expired -> mPrimaryHWVsyncEnabled s = false ->
       mPrimaryHWVsyncEnabled (state r) = false))
  /\ (supportKernelTimer s = false -> mHandleIdleTimeout s = false -> r = (tt, s, [])).
Proof.
  intros r. subst r. split.
  - intros Hk.
    unfold idleTimer_fire, kernelIdleTimerCallback, resyncToHardwareVsync, setVsyncPeriod,
      disableHardwareVsync, bind, get, modify, emit, ret, state, trace.
    rewrite Hk.
    destruct st; simpl;
      repeat (split_on_condition; simpl);
      repeat split; try reflexivity; try congruence; try discriminate.
  - intros Hk Hh. unfold idleTimer_fire, idleTimerCallback, bind, get, ret.
    now rewrite Hk, Hh.
Qed.

Section TouchTimer.
Context {LR : Type} (D : Decls).
Implicit Type s : Scheduler LR.
Implicit Type configs : RefreshRateConfigs.t LR.

Lemma dispatch_only_onModeChanged configs s (c : Call.t) :
  In c (trace (dispatchCachedReportedMode configs s)) ->
  exists t d m p, c = Call.onModeChanged t d m p.
Proof.
  unfold dispatchCachedReportedMode, onNonPrimaryDisplayModeChanged, with_thread,
    bind, get, modify, emit, ret, trace.
  destruct (Features.modeId (mFeatures s)) as [m |]; simpl; [| now intros []].
  destruct (Features.cachedModeChangedParams (mFeatures s)) as [cached |]; simpl;
    [| now intros []].
  repeat (split_on_condition; simpl); try (now intros []).
  destruct (mConnections s !! _); simpl; [| now intros []].
  intros [<- | []]. eauto.
Qed.

Lemma handle_never_clears {T} (eqb : T -> T -> bool) (cur : Features.t LR -> T)
      (assign : T -> Features.t LR -> Features.t LR) configs host (v : T) s :
  ~ In Call.layerHistory_clear
       (trace (handleTimerStateChanged D eqb cur assign configs host v s)).
Proof.
  destruct (eqb (cur (mFeatures s)) v) eqn:Hne.
  - rewrite handle_unchanged by exact Hne. now intros [].
  - destruct (handle_run D eqb cur assign configs host v s Hne) as (b & s1 & _ & _ & ->).
    destruct (optional_is _ _).
    + cbv zeta. unfold trace at 1; simpl. rewrite in_app_iff. intros [Hin | Hin].
      * destruct (GlobalSignals.idle _); [now destruct Hin |].
        apply dispatch_only_onModeChanged in Hin as (t & d & m & p & Hin).
        discriminate Hin.
      * destruct b; [destruct Hin as [Hin | []]; discriminate Hin | destruct Hin].
    + unfold trace; simpl. rewrite in_app_iff. intros [Hin | Hin].
      * destruct (aboveThermalFps _ _); simpl in Hin;
          repeat (destruct Hin as [Hin | Hin]; [discriminate Hin |]); destruct Hin.
      * destruct b; [destruct Hin as [Hin | []]; discriminate Hin | destruct Hin].
Qed.

Lemma handle_result {T} (eqb : T -> T -> bool) (cur : Features.t LR -> T)
      (assign : T -> Features.t LR -> Features.t LR) configs host (v : T) s :
  result (handleTimerStateChanged D eqb cur assign configs host v s)
  = if eqb (cur (mFeatures s)) v then false
    else GlobalSignals.touch
           (calculateRefreshRateModeId configs
              (set_mFeatures (assign v (mFeatures s)) s)).2.
Proof.
  destruct (eqb (cur (mFeatures s)) v) eqn:Hne.
  - now rewrite handle_unchanged.
  - destruct (handle_run D eqb cur assign configs host v s Hne) as (b & s1 & _ & _ & ->).
    now destruct (optional_is _ _).
Qed.
End TouchTimer.

(** X17: a touch-timer event that repeats the current touch state is
    ignored: nothing changes and nobody is called.  An event that changes
    the touch state stores the new state, and the layer history is cleared
    exactly when the policy considered the touch signal in the selection
    that follows; the clearing is then the callback's last call. *)
Theorem X17_touchTimerCallback_clears {LR : Type} (D : Decls)
        (configs : RefreshRateConfigs.t LR) (host : Host) (st : TimerState)
        (s : Scheduler LR) :
  let touch := if TimerState_eqb st Reset then Active else Inactive in
  let considered :=
    (calculateRefreshRateModeId configs
       (set_mFeatures (Features.set_touch touch (mFeatures s)) s)).2 in
  let r := touchTimerCallback D configs host st s in
  (Features.touch (mFeatures s) = touch -> r = (tt, s, []))
  /\ (Features.touch (mFeatures s) <> touch ->
      Features.touch (mFeatures (state r)) = touch
      /\ (In Call.layerHistory_clear (trace r) <-> GlobalSignals.touch considered = true)
      /\ (GlobalSignals.touch considered = true ->
          last (trace r) = Some Call.layerHistory_clear)).
Proof.
  intros touch considered r. subst r. unfold touchTimerCallback. fold touch.
  pose proof (handle_result D TouchState_eqb Features.touch Features.set_touch
                configs host touch s) as Hres.
  pose proof (handle_never_clears D TouchState_eqb Features.touch Features.set_touch
                configs host touch s) as Hnever.
  split.
  - intros Hsame.
    assert (He : TouchState_eqb (Features.touch (mFeatures s)) touch = true)
      by (rewrite Hsame; now destruct touch).
    unfold bind. rewrite handle_unchanged by exact He. reflexivity.
  - intros Hdiff.
    assert (He : TouchState_eqb (Features.touch (mFeatures s)) touch = false)
      by (destruct (Features.touch (mFeatures s)), touch; simpl; congruence).
    rewrite He in Hres. fold considered in Hres.
    destruct (handle_frame D TouchState_eqb Features.touch Features.set_touch
                configs host touch s He) as (_ & _ & Htouch & _).
    unfold bind, emit, ret.
    destruct (handleTimerStateChanged D TouchState_eqb Features.touch Features.set_touch
                configs host touch s) as [[b s1] t1].
    unfold result, state, trace in *; simpl in *. subst b.
    destruct (GlobalSignals.touch considered); simpl.
    + split; [exact Htouch |]. split.
      * split; [reflexivity |]. intros _. apply in_or_app. right. now left.
      * intros _. apply last_snoc.
    + split; [exact Htouch |]. split; [| discriminate].
      rewrite app_nil_r. split; [intros Hin; now elim Hnever | discriminate].
Qed.

(** *** The vsync-period change timeline *)

(** X18: [onNewVsyncPeriodChangeTimeline] stores the timeline with its
    applied time cut down to [now + MAX_VSYNC_APPLIED_TIME], and asks for a
    repaint exactly when the timeline requires a refresh.
    [onDisplayRefreshed] then asks for another repaint as long as a refresh
    is required and the refresh time has not passed; the first refresh
    after the refresh time clears the requirement, and from then on
    [onDisplayRefreshed] neither repaints nor changes anything. *)
Theorem X18_refresh_timeline {LR : Type} (D : Decls) (s : Scheduler LR)
        (timeline : VsyncPeriodChangeTimeline.t) (now timestamp : nsecs_t) :
  let required := VsyncPeriodChangeTimeline.refreshRequired timeline in
  let refreshTime := VsyncPeriodChangeTimeline.refreshTimeNanos timeline in
  let r := onNewVsyncPeriodChangeTimeline D timeline now s in
  let r' := onDisplayRefreshed timestamp (state r) in
  mLastVsyncPeriodChangeTimeline (state r)
  = Some (VsyncPeriodChangeTimeline.mk
            (Z.min (VsyncPeriodChangeTimeline.newVsyncAppliedTimeNanos timeline)
                   (now + MAX_VSYNC_APPLIED_TIME D))
            required refreshTime)
  /\ trace r = (if required then [Call.repaintEverythingForHWC] else [])
  /\ trace r'
     = (if required && (timestamp <=? refreshTime)
        then [Call.repaintEverythingForHWC] else [])
  /\ (required = true -> refreshTime < timestamp ->
      forall later, onDisplayRefreshed later (state r') = (tt, state r', [])).
Proof.
  intros required refreshTime r r'. subst r' r required refreshTime.
  destruct timeline as [applied required refreshTime]. simpl.
  unfold onNewVsyncPeriodChangeTimeline, onDisplayRefreshed,
    bind, get, modify, emit, ret, state, trace; simpl.
  assert (Hmin : (if now + MAX_VSYNC_APPLIED_TIME D <? applied
                  then now + MAX_VSYNC_APPLIED_TIME D else applied)
                 = Z.min applied (now + MAX_VSYNC_APPLIED_TIME D)).
  { destruct (now + MAX_VSYNC_APPLIED_TIME D <? applied) eqn:E.
    - apply Z.ltb_lt in E. lia.
    - apply Z.ltb_ge in E. lia. }
  destruct (now + MAX_VSYNC_APPLIED_TIME D <? applied) eqn:E; rewrite <- Hmin;
    destruct required; simpl;
    (split; [reflexivity |]); (split; [reflexivity |]).
  all: try (split; [reflexivity | discriminate]).
  all: destruct (refreshTime <? timestamp) eqn:F; simpl.
  all: try (assert (G : (timestamp <=? refreshTime) = false)
              by (apply Z.leb_gt; now apply Z.ltb_lt in F); rewrite G).
  all: try (assert (G : (timestamp <=? refreshTime) = true)
              by (apply Z.leb_le; now apply Z.ltb_ge in F); rewrite G).
  all: split; [reflexivity |]; intros _ Hlt later; try reflexivity.
  all: apply Z.ltb_ge in F; lia.
Qed.

(** *** Injected vsyncs *)

(** X19: [injectVSync] delivers nothing and returns false while injection
    is off.  After [enableVSyncInjection(true)] on a Scheduler that has no
    injector yet, the injector's event thread exists, has been told that
    display port 0 is connected and the screen acquired, and is registered
    as a connection that does not trigger a refresh; [injectVSync] then
    returns true and passes the three times to the injector.  After
    [enableVSyncInjection(false)], which returns the injector's handle and
    keeps its connection, [injectVSync] returns false again.  (The id handed
    out must not be the invalid id and must not be registered yet.) *)
Theorem X19_injection_round {LR : Type} (D : Decls) (s : Scheduler LR)
        (when expected deadline : nsecs_t) :
  let r1 := enableVSyncInjection D true s in
  let r2 := enableVSyncInjection D false (state r1) in
  let injector :=
    EventThread.mk InjectVSyncSource None None Throttle_empty GetPeriod_empty in
  (mInjectVSyncs s = false -> injectVSync when expected deadline s = (false, s, []))
  /\ (mInjectVSyncs s = false ->
      ConnectionHandle_valid D (mInjectorConnectionHandle s) = false ->
      mConnections s !! mNextConnectionHandleId s = None ->
      ConnectionHandle_valid D (ConnectionHandle.mk (mNextConnectionHandleId s)) = true ->
      result r1 = ConnectionHandle.mk (mNextConnectionHandleId s)
      /\ trace r1 = [Call.onHotplugReceived injector (fromPort D 0) true;
                     Call.onScreenAcquired injector]
      /\ mConnections (state r1) !! mNextConnectionHandleId s
         = Some (Connection.mk
                   (EventThreadConnection.mk call_resync (eventRegistration_default D))
                   injector)
      /\ injectVSync when expected deadline (state r1)
         = (true, state r1, [Call.onInjectSyncEvent when expected deadline])
      /\ result r2 = result r1
      /\ trace r2 = []
      /\ mConnections (state r2) = mConnections (state r1)
      /\ injectVSync when expected deadline (state r2) = (false, state r2, [])).
Proof.
  intros r1 r2 injector. subst r2 r1 injector. split.
  - intros Hoff. unfold injectVSync, bind, get, ret. now rewrite Hoff.
  - intros Hoff Hinv Hfree Hvalid.
    unfold enableVSyncInjection, createConnection, createConnectionInternal, injectVSync,
      bind, get, modify, emit, ret, result, state, trace; simpl.
    rewrite Hoff, Hinv. simpl. rewrite Hvalid. simpl.
    rewrite emplace_fresh by exact Hfree. rewrite lookup_insert_eq.
    repeat split; reflexivity.
Qed.

Lemma X19_injection_round_witness :
  injectVSync 10 20 30 (state (enableVSyncInjection Sample.decls true Sample.scheduler))
  = (true, state (enableVSyncInjection Sample.decls true Sample.scheduler),
     [Call.onInjectSyncEvent 10 20 30]).
Proof.
  destruct (X19_injection_round Sample.decls Sample.scheduler 10 20 30) as [_ H].
  destruct (H eq_refl eq_refl eq_refl eq_refl) as (_ & _ & _ & Hinject & _).
  exact Hinject.
Defined.

(** *** What a uid is delivered *)

(** X20: with override support, a uid without an override in either map is
    never throttled and gets the display's base period.  A uid with a
    backdoor override is throttled exactly at the vsyncs that are out of
    phase with the backdoor rate, whatever the content-derived map holds for
    it, and its period is the base period times the policy's divider, or
    the base period itself when the divider is 1, 0 or negative. *)
Theorem X20_delivery_per_uid {LR : Type} (configs : RefreshRateConfigs.t LR)
        (tracker : Tracker) (s : Scheduler LR) (uid : uid_t) (t : nsecs_t) :
  RefreshRateConfigs.supportsFrameRateOverride configs = true ->
  let current := RefreshRateConfigs.getCurrentRefreshRate configs in
  let base := RefreshRate.getVsyncPeriod current in
  (mFrameRateOverridesFromBackdoor s !! uid = None ->
   mFrameRateOverridesByContent s !! uid = None ->
   throttleVsync_lambda configs tracker s t uid = false
   /\ getVsyncPeriod_lambda configs s uid = base)
  /\ (forall rate,
         mFrameRateOverridesFromBackdoor s !! uid = Some rate ->
         throttleVsync_lambda configs tracker s t uid = negb (isVSyncInPhase tracker t rate)
         /\ getVsyncPeriod_lambda configs s uid
            = base * Z.max 1 (RefreshRateConfigs.getFrameRateDivider configs
                                (RefreshRate.getFps current) rate)).
Proof.
  intros Hsup current base. split.
  - intros Hb Hc.
    unfold throttleVsync_lambda, isVsyncValid, getVsyncPeriod_lambda.
    rewrite getFrameRateOverride_supported by exact Hsup. now rewrite Hb, Hc.
  - intros rate Hb.
    unfold throttleVsync_lambda, isVsyncValid, getVsyncPeriod_lambda.
    rewrite getFrameRateOverride_supported by exact Hsup. rewrite Hb.
    split; [reflexivity |]. fold current. fold base.
    destruct (RefreshRateConfigs.getFrameRateDivider configs (RefreshRate.getFps current) rate
              <=? 1) eqn:E.
    + apply Z.leb_le in E. rewrite Z.max_l by exact E. lia.
    + apply Z.leb_gt in E. rewrite Z.max_r by lia. reflexivity.
Qed.

Lemma X20_delivery_witness :
  getVsyncPeriod_lambda (Sample.policy true Sample.rate60 Sample.rate60) scheduler_S4 42
  = 16666667 * Z.max 1 1.
Proof.
  destruct (X20_delivery_per_uid (Sample.policy true Sample.rate60 Sample.rate60)
              {| isVSyncInPhase := fun _ _ => true;
                 nextAnticipatedVSyncTimeFrom := fun t => t;
                 currentPeriod := 16666667 |}
              scheduler_S4 42%N 0 eq_refl) as [_ H].
  exact (proj2 (H 30%Q eq_refl)).
Defined.

(** *** The thermal cap switched off *)

(** X21: [updateThermalFps] stores the cap and passes it to the layer
    history.  A cap that is 0 or negative is no cap: a selection that
    follows and calculates a mode other than the stored one adopts and
    reports that mode itself, and the host is not asked for a mode. *)
Theorem X21_no_cap {LR : Type} (D : Decls) (configs : RefreshRateConfigs.t LR)
        (host : Host) (summary : list LR) (s : Scheduler LR) (fps : Q) :
  (fps <= 0)%Q ->
  let s1 := state (updateThermalFps fps s) in
  let nm := (calculateRefreshRateModeId configs (with_content summary s1)).1 in
  let cs := (calculateRefreshRateModeId configs (with_content summary s1)).2 in
  let r := chooseRefreshRateForContent D configs host summary s1 in
  trace (updateThermalFps fps s) = [Call.layerHistory_updateThermalFps fps]
  /\ mThermalFps s1 = fps
  /\ (RefreshRateConfigs.canSwitch configs = true ->
      optional_is (Features.modeId (mFeatures s1)) nm = false ->
      Features.modeId (mFeatures (state r)) = Some nm
      /\ changeRefreshRate_calls (trace r)
         = [(RefreshRateConfigs.getRefreshRateFromModeId configs nm, event_for cs)]
      /\ forall f, ~ In (Call.getModeFromFps f) (trace r)).
Proof.
  intros Hle s1 nm cs r.
  split; [reflexivity |]. split; [reflexivity |].
  intros Hc Hdiff.
  assert (Hab : forall rr, aboveThermalFps s1 rr = false).
  { intros rr. unfold aboveThermalFps.
    replace (mThermalFps s1) with fps by reflexivity.
    apply Qltb_false in Hle. now rewrite Hle. }
  destruct (choose_differ D configs host summary s1 Hc Hdiff) as (Hcalls & _ & Hm).
  fold nm cs r in Hcalls, Hm. rewrite Hab in Hcalls, Hm.
  split; [exact Hm |]. split; [exact Hcalls |].
  intros f Hin. subst r.
  rewrite choose_as_handle in Hin by exact Hc. cbv zeta in Hin.
  unfold trace at 1 in Hin; simpl in Hin.
  destruct (handle_run D (fun _ _ => false) Features.contentRequirements
              Features.set_contentRequirements configs host summary s1 eq_refl)
    as (b & s2 & _ & _ & Hrun).
  rewrite Hrun in Hin.
  assert (Hdiff' :
            optional_is
              (Features.modeId
                 (mFeatures
                    (set_mFeatures
                       (Features.set_contentRequirements summary (mFeatures s1)) s1)))
              (calculateRefreshRateModeId configs
                 (set_mFeatures
                    (Features.set_contentRequirements summary (mFeatures s1)) s1)).1
            = false) by exact Hdiff.
  assert (Hab' : forall rr,
             aboveThermalFps
               (set_mFeatures (Features.set_contentRequirements summary (mFeatures s1)) s1)
               rr = false) by exact Hab.
  rewrite Hdiff', Hab' in Hin. unfold trace in Hin; simpl in Hin.
  destruct Hin as [Hin | Hin]; [discriminate Hin |].
  destruct b; [destruct Hin as [Hin | []]; discriminate Hin | destruct Hin].
Qed.

Lemma X21_no_cap_witness :
  changeRefreshRate_calls
    (trace (chooseRefreshRateForContent Sample.decls
              (Sample.policy false Sample.rate60 Sample.rate120) Sample.host []
              (state (updateThermalFps 0 scheduler_thermal90))))
  = [(Sample.rate120, ModeEvent_Changed)].
Proof.
  assert (H0 : (0 <= 0)%Q) by (unfold Qle; simpl; lia).
  destruct (X21_no_cap Sample.decls (Sample.policy false Sample.rate60 Sample.rate120)
              Sample.host [] scheduler_thermal90 0 H0) as (_ & _ & H).
  destruct (H eq_refl eq_refl) as (_ & Hcalls & _). exact Hcalls.
Defined.

(** *** Overrides during a selection *)

Section OverridesInSelection.
Context {LR : Type} (D : Decls).
Implicit Type s : Scheduler LR.
Implicit Type configs : RefreshRateConfigs.t LR.

Lemma updateFrameRateOverrides_result configs cs fps s b s' t :
  updateFrameRateOverrides D configs cs fps s = (b, s', t) ->
  (b = true
   /\ s' = set_mFrameRateOverridesByContent
             (RefreshRateConfigs.getFrameRateOverrides configs
                (Features.contentRequirements (mFeatures s)) fps (GlobalSignals.touch cs)) s
   /\ RefreshRateConfigs.supportsFrameRateOverride configs = true
   /\ GlobalSignals.idle cs = false)
  \/ (b = false /\ s' = s).
Proof.
  unfold updateFrameRateOverrides, bind, get, modify, ret.
  destruct (RefreshRateConfigs.supportsFrameRateOverride configs); simpl;
    [| intros [= <- <- <-]; now right].
  destruct (GlobalSignals.idle cs); simpl; [intros [= <- <- <-]; now right |].
  destruct (std_equal _ _ _); simpl; intros [= <- <- <-]; [now right | left; auto].
Qed.

Lemma handle_overrides {T} (eqb : T -> T -> bool) (cur : Features.t LR -> T)
      (assign : T -> Features.t LR -> Features.t LR) configs host (v : T) s :
  eqb (cur (mFeatures s)) v = false ->
  let s0 := set_mFeatures (assign v (mFeatures s)) s in
  let cs := (calculateRefreshRateModeId configs s0).2 in
  let fps := RefreshRate.getFps
               (RefreshRateConfigs.getRefreshRateFromModeId configs
                  (calculateRefreshRateModeId configs s0).1) in
  let r := handleTimerStateChanged D eqb cur assign configs host v s in
  mFrameRateOverridesFromBackdoor (state r) = mFrameRateOverridesFromBackdoor s
  /\ (In Call.triggerOnFrameRateOverridesChanged (trace r) ->
      RefreshRateConfigs.supportsFrameRateOverride configs = true
      /\ GlobalSignals.idle cs = false
      /\ mFrameRateOverridesByContent (state r)
         = RefreshRateConfigs.getFrameRateOverrides configs
             (Features.contentRequirements (mFeatures s0)) fps (GlobalSignals.touch cs)
      /\ last (trace r) = Some Call.triggerOnFrameRateOverridesChanged)
  /\ (~ In Call.triggerOnFrameRateOverridesChanged (trace r) ->
      mFrameRateOverridesByContent (state r) = mFrameRateOverridesByContent s).
Proof.
  intros Hne s0 cs fps r. subst r.
  destruct (handle_run D eqb cur assign configs host v s Hne) as (b & s1 & Hup & _ & ->).
  fold s0 cs in Hup |- *.
  apply updateFrameRateOverrides_result in Hup.
  assert (Hfront : forall (front : list Call.t) (sf : Scheduler LR),
             ~ In Call.triggerOnFrameRateOverridesChanged front ->
             mFrameRateOverridesFromBackdoor sf = mFrameRateOverridesFromBackdoor s1 ->
             mFrameRateOverridesByContent sf = mFrameRateOverridesByContent s1 ->
             mFrameRateOverridesFromBackdoor sf = mFrameRateOverridesFromBackdoor s
             /\ (In Call.triggerOnFrameRateOverridesChanged
                    (front ++ (if b then [Call.triggerOnFrameRateOverridesChanged] else [])) ->
                 RefreshRateConfigs.supportsFrameRateOverride configs = true
                 /\ GlobalSignals.idle cs = false
                 /\ mFrameRateOverridesByContent sf
                    = RefreshRateConfigs.getFrameRateOverrides configs
                        (Features.contentRequirements (mFeatures s0)) fps
                        (GlobalSignals.touch cs)
                 /\ last (front ++ (if b then [Call.triggerOnFrameRateOverridesChanged]
                                    else []))
                    = Some Call.triggerOnFrameRateOverridesChanged)
             /\ (~ In Call.triggerOnFrameRateOverridesChanged
                      (front ++ (if b then [Call.triggerOnFrameRateOverridesChanged]
                                 else [])) ->
                 mFrameRateOverridesByContent sf = mFrameRateOverridesByContent s)).
  { intros front sf Hno Hb Hc. rewrite Hb, Hc.
    destruct Hup as [(-> & -> & Hsup & Hidle) | (-> & ->)]; simpl.
    - split; [reflexivity |]. split.
      + intros _. repeat split; try assumption. apply last_snoc.
      + intros Hn. elim Hn. apply in_or_app. right. now left.
    - rewrite app_nil_r. split; [reflexivity |]. split; [intros Hin; now elim Hno |].
      reflexivity. }
  destruct (optional_is (Features.modeId (mFeatures s0)) _) eqn:Heq.
  - apply optional_is_true in Heq. cbv zeta.
    destruct (GlobalSignals.idle cs) eqn:Hidle.
    + unfold state, trace; simpl. apply (Hfront [] s1); auto.
    + assert (Hm1 : Features.modeId (mFeatures s1)
                    = Some (calculateRefreshRateModeId configs s0).1).
      { destruct Hup as [(_ & -> & _) | (_ & ->)]; exact Heq. }
      destruct (dispatchCachedReportedMode_cases configs s1 _ Hm1)
        as (s2 & t & Hd & _ & _ & Hs2).
      pose proof (dispatch_only_onModeChanged configs s1) as Honly.
      rewrite Hd in Honly |- *. unfold state, trace in *; simpl in *.
      apply Hfront.
      * intros Hin. apply Honly in Hin as (? & ? & ? & ? & Hin). discriminate Hin.
      * destruct Hs2 as [-> | [c ->]]; reflexivity.
      * destruct Hs2 as [-> | [c ->]]; reflexivity.
  - unfold state, trace; simpl. apply Hfront; try reflexivity.
    destruct (aboveThermalFps s0 _); simpl; intros Hin;
      repeat (destruct Hin as [Hin | Hin]; [discriminate Hin |]); destruct Hin.
Qed.
End OverridesInSelection.

(** X22: a content-driven selection never touches the backdoor overrides.
    It announces changed overrides to the host only after it has replaced
    the content-derived map by the policy's overrides for the new content
    and the calculated (uncapped) rate, only when the policy supports
    overrides and did not consider the idle signal, and as its last call,
    after any mode change it reports.  When it announces nothing, the
    content-derived map is as it was. *)
Theorem X22_overrides_in_selection {LR : Type} (D : Decls)
        (configs : RefreshRateConfigs.t LR) (host : Host) (summary : list LR)
        (s : Scheduler LR) :
  RefreshRateConfigs.canSwitch configs = true ->
  let nm := (calculateRefreshRateModeId configs (with_content summary s)).1 in
  let cs := (calculateRefreshRateModeId configs (with_content summary s)).2 in
  let fps := RefreshRate.getFps (RefreshRateConfigs.getRefreshRateFromModeId configs nm) in
  let r := chooseRefreshRateForContent D configs host summary s in
  mFrameRateOverridesFromBackdoor (state r) = mFrameRateOverridesFromBackdoor s
  /\ (In Call.triggerOnFrameRateOverridesChanged (trace r) ->
      RefreshRateConfigs.supportsFrameRateOverride configs = true
      /\ GlobalSignals.idle cs = false
      /\ mFrameRateOverridesByContent (state r)
         = RefreshRateConfigs.getFrameRateOverrides configs summary fps
             (GlobalSignals.touch cs)
      /\ last (trace r) = Some Call.triggerOnFrameRateOverridesChanged)
  /\ (~ In Call.triggerOnFrameRateOverridesChanged (trace r) ->
      mFrameRateOverridesByContent (state r) = mFrameRateOverridesByContent s).
Proof.
  intros Hc nm cs fps r. subst r. rewrite choose_as_handle by exact Hc.
  exact (handle_overrides D (fun _ _ => false) Features.contentRequirements
           Features.set_contentRequirements configs host summary s eq_refl).
Qed.

Lemma X22_overrides_in_selection_witness :
  mFrameRateOverridesFromBackdoor
    (state (chooseRefreshRateForContent Sample.decls
              (Sample.policy true Sample.rate60 Sample.rate120) Sample.host [] scheduler_S4))
  = mFrameRateOverridesFromBackdoor scheduler_S4.
Proof.
  apply (X22_overrides_in_selection Sample.decls
           (Sample.policy true Sample.rate60 Sample.rate120) Sample.host [] scheduler_S4).
  reflexivity.
Defined.

(** *** The host's report of a completed mode change *)

(** X23: [onPrimaryDisplayModeChanged] caches the reported params, empties
    the content requirements, so that the next calculation starts from no
    content, and forwards the report to the handle's event thread when the
    handle is registered.  When the reported mode is the stored mode and the
    reported period is the policy's period for it, nothing is left to
    replay: [dispatchCachedReportedMode] right after changes nothing and
    calls nobody. *)
Theorem X23_report_then_replay {LR : Type} (configs : RefreshRateConfigs.t LR)
        (s : Scheduler LR) (h : ConnectionHandle.t) (displayId : PhysicalDisplayId)
        (modeId : DisplayModeId) (vsyncPeriod : nsecs_t) :
  let r := onPrimaryDisplayModeChanged h displayId modeId vsyncPeriod s in
  Features.cachedModeChangedParams (mFeatures (state r))
  = Some (ModeChangedParams.mk h displayId modeId vsyncPeriod)
  /\ Features.contentRequirements (mFeatures (state r)) = []
  /\ Features.modeId (mFeatures (state r)) = Features.modeId (mFeatures s)
  /\ trace r
     = match mConnections s !! ConnectionHandle.id h with
       | Some c => [Call.onModeChanged (Connection.thread c) displayId modeId vsyncPeriod]
       | None => []
       end
  /\ (Features.modeId (mFeatures s) = Some modeId ->
      RefreshRate.getVsyncPeriod (RefreshRateConfigs.getRefreshRateFromModeId configs modeId)
      = vsyncPeriod ->
      dispatchCachedReportedMode configs (state r) = (tt, state r, [])).
Proof.
  intros r. subst r.
  unfold onPrimaryDisplayModeChanged, onNonPrimaryDisplayModeChanged, with_thread,
    dispatchCachedReportedMode, bind, get, modify, emit, ret, state, trace; simpl.
  destruct (mConnections s !! ConnectionHandle.id h); simpl;
    (split; [reflexivity |]); (split; [reflexivity |]); (split; [reflexivity |]);
    (split; [reflexivity |]); intros Hm Hp; rewrite Hm, Hp, !Z.eqb_refl; simpl;
    now destruct (_ =? _).
Qed.

(** *** Enabling and disabling once is enough *)

(** X24: [enableHardwareVsync] and [disableHardwareVsync] do their work the
    first time: called again right after, either one changes nothing and
    does not call the host.  From a state where hardware vsync is available
    and not enabled, enabling and then disabling with
    [makeUnavailable = false] leads back to that state. *)
Theorem X24_enable_disable_settle {LR : Type} (s : Scheduler LR) (makeUnavailable : bool) :
  enableHardwareVsync (state (enableHardwareVsync s))
  = (tt, state (enableHardwareVsync s), [])
  /\ disableHardwareVsync makeUnavailable (state (disableHardwareVsync makeUnavailable s))
     = (tt, state (disableHardwareVsync makeUnavailable s), [])
  /\ (mHWVsyncAvailable s = true -> mPrimaryHWVsyncEnabled s = false ->
      state (disableHardwareVsync false (state (enableHardwareVsync s))) = s
      /\ trace (enableHardwareVsync s) ++
         trace (disableHardwareVsync false (state (enableHardwareVsync s)))
         = [Call.tracker_resetModel; Call.setVsyncEnabled true; Call.setVsyncEnabled false]).
Proof.
  unfold enableHardwareVsync, disableHardwareVsync, bind, get, modify, emit, ret,
    state, trace; simpl.
  destruct s as [a1 a2 a3 a4 a5 a6 a7 a8 a9 a10 enabled available a13 a14 a15 a16 a17 a18 a19].
  simpl. destruct enabled, available, makeUnavailable; simpl;
    repeat split; try reflexivity; try discriminate.
Qed.

(** *** Who withdraws availability *)

Lemma keeps_available_op {LR : Type} (D : Decls) (op : Op LR) :
  op <> Op_disableHardwareVsync true ->
  preserves (fun s => mHWVsyncAvailable s = true) (run_op D op).
Proof.
  intros Hop.
  destruct op; cbn [run_op];
    try (unfold_methods; repeat preserves_step; cbv beta in *; simpl;
         first [assumption | reflexivity]).
  destruct makeUnavailable; [now elim Hop |].
  unfold_methods; repeat preserves_step; cbv beta in *; simpl; assumption.
Qed.

(** X25: only a direct [disableHardwareVsync(true)] withdraws the
    availability of hardware vsync: through any sequence of calls without
    one, hardware vsync that is available stays available (the callers of
    [disableHardwareVsync] inside the Scheduler all pass false). *)
Theorem X25_availability_withdrawn_only_explicitly {LR : Type} (D : Decls)
        (ops : list (Op LR)) (s : Scheduler LR) :
  mHWVsyncAvailable s = true ->
  Forall (fun op => op <> Op_disableHardwareVsync true) ops ->
  mHWVsyncAvailable (state (run_ops D ops s)) = true.
Proof.
  intros Hav Hops. revert s Hav.
  induction Hops as [| op ops Hop _ IH]; intros s Hav; [exact Hav |].
  cbn [run_ops]. unfold bind.
  pose proof (keeps_available_op D op Hop s Hav) as H1.
  destruct (run_op D op s) as [[[] s1] t1]. unfold state in H1; simpl in H1.
  specialize (IH s1 H1). destruct (run_ops D ops s1) as [[[] s2] t2]. exact IH.
Qed.

Lemma X25_availability_witness :
  mHWVsyncAvailable
    (state (run_ops Sample.decls ops_C6
              (state (resyncToHardwareVsync true 16666667 false Sample.scheduler)))) = true.
Proof.
  apply (X25_availability_withdrawn_only_explicitly Sample.decls ops_C6).
  - reflexivity.
  - unfold ops_C6. repeat constructor; discriminate.
Defined.

(** *** A chosen mode is never forgotten *)

Lemma keeps_mode_op {LR : Type} (D : Decls) (op : Op LR) :
  preserves (fun s => is_Some (Features.modeId (mFeatures s))) (run_op D op).
Proof.
  destruct op; cbn [run_op]; unfold_methods; repeat preserves_step;
    cbv beta in *; simpl; first [assumption | eauto].
Qed.

(** X26: once a mode has been chosen, no sequence of calls leaves the
    Scheduler without one: [mFeatures.modeId] stays set, so
    [getPreferredModeId] keeps returning a mode. *)
Theorem X26_mode_stays_chosen {LR : Type} (D : Decls) (ops : list (Op LR))
        (configs : RefreshRateConfigs.t LR) (s : Scheduler LR) :
  is_Some (Features.modeId (mFeatures s)) ->
  is_Some (Features.modeId (mFeatures (state (run_ops D ops s))))
  /\ is_Some (result (getPreferredModeId configs (state (run_ops D ops s)))).
Proof.
  intros Hs.
  assert (H : is_Some (Features.modeId (mFeatures (state (run_ops D ops s))))).
  { apply (preserves_run_ops (fun s => is_Some (Features.modeId (mFeatures s))) D
             (keeps_mode_op D) ops s Hs). }
  split; [exact H |].
  destruct H as [m Hm].
  unfold getPreferredModeId, bind, get, modify, ret, result; simpl.
  rewrite Hm. simpl. eauto.
Qed.

Lemma X26_mode_stays_chosen_witness :
  is_Some (Features.modeId (mFeatures (state (run_ops Sample.decls ops_C6 scheduler_steady)))).
Proof.
  apply (X26_mode_stays_chosen Sample.decls ops_C6
           (Sample.policy false Sample.rate60 Sample.rate60) scheduler_steady).
  exists 2. reflexivity.
Defined.
